(** * LuckyOnes: a shallow embedding of the ratchet engine, the envelope codec,
      the broadcast relay and the ephemeral store

    The development follows the Python sources:
    - [crypto_utils.py]   : [DoubleRatchet]
    - [network_utils.py]  : [MessageProtocol], [NetworkServer]
    - [chat_manager.py]   : [ChatThread], [ImageManager], [ChatManager]

    Python objects whose attributes are mutated in place become records that
    are passed in and returned; a call that can raise returns a [result]; the
    functions of the libraries and of the runtime ([json], [cryptography],
    [hashlib], float arithmetic and [str]) are the fields of four interfaces,
    so that every general statement holds for whatever they compute.  Clock readings ([time.time()],
    [datetime.now()]) and the bytes drawn from [os.urandom] are arguments of
    the call that reads them. *)

From Stdlib Require Import ZArith NArith List String Ascii Bool Lia DecimalString.
From Stdlib.Strings Require Import Byte.
Import ListNotations.

Open Scope string_scope.
Open Scope list_scope.
Open Scope Z_scope.

Set Warnings "-register-all".

(** ** Python carriers: exceptions, results, keys, insertion-ordered dicts *)

Module Py.

(** The exception classes the modelled code can raise. *)
Inductive exn : Type :=
| TypeError
| ValueError
| KeyError
| AttributeError
| OverflowError
| UnicodeError
| ConnectionError
| InvalidTag.

(** The outcome of a call: a returned value, or a raised exception. *)
Inductive result (A : Type) : Type :=
| Ok (a : A)
| Raise (e : exn).
Arguments Ok {A} a.
Arguments Raise {A} e.

Definition bind {A B} (r : result A) (k : A -> result B) : result B :=
  match r with
  | Ok a => k a
  | Raise e => Raise e
  end.

Definition is_ok {A} (r : result A) : bool :=
  match r with Ok _ => true | Raise _ => false end.

(** [try: ... except Exception: raise ValueError(...)], on a result. *)
Definition reraise_as {A} (e' : exn) (r : result A) : result A :=
  match r with
  | Ok a => Ok a
  | Raise _ => Raise e'
  end.

(** An optional value whose absence raises [e]. *)
Definition or_raise {A} (e : exn) (o : option A) : result A :=
  match o with
  | Some a => Ok a
  | None => Raise e
  end.

Definition bytes := list byte.

(** A [bytes] literal written as a string. *)
Definition b (s : string) : bytes := list_byte_of_string s.

(** Keys of a dict: a type with a boolean equality that decides [=]. *)
Class EqKey (K : Type) : Type := {
  keq : K -> K -> bool;
  keq_eq : forall x y, keq x y = true <-> x = y
}.

Fixpoint bytes_eqb (x y : bytes) : bool :=
  match x, y with
  | [], [] => true
  | c :: x', d :: y' => Byte.eqb c d && bytes_eqb x' y'
  | _, _ => false
  end.

Lemma bytes_eqb_eq (x y : bytes) : bytes_eqb x y = true <-> x = y.
Proof.
  revert y; induction x as [|c x IH]; intros [|d y]; simpl;
    try (split; [discriminate | discriminate]); try tauto.
  rewrite andb_true_iff, IH. split.
  - intros [Hc ->]. apply Byte.byte_dec_bl in Hc. now subst.
  - intros [= -> ->]. split; [now apply Byte.byte_dec_lb | reflexivity].
Qed.

#[export] Instance EqKey_string : EqKey string :=
  {| keq := String.eqb; keq_eq := String.eqb_eq |}.
#[export] Instance EqKey_nat : EqKey nat :=
  {| keq := Nat.eqb; keq_eq := Nat.eqb_eq |}.
#[export] Instance EqKey_Z : EqKey Z :=
  {| keq := Z.eqb; keq_eq := Z.eqb_eq |}.
#[export] Instance EqKey_bytes : EqKey bytes :=
  {| keq := bytes_eqb; keq_eq := bytes_eqb_eq |}.

(** A Python [dict]: the items in insertion order.  [d[k] = v] on a present
    key replaces the value in place; on an absent key it appends. *)
Definition dict (K V : Type) : Type := list (K * V).

Section Dict.
Context {K V : Type} `{EqKey K}.

Fixpoint get (k : K) (d : dict K V) : option V :=
  match d with
  | [] => None
  | (k', v) :: d' => if keq k k' then Some v else get k d'
  end.

(** [k in d] *)
Definition mem (k : K) (d : dict K V) : bool :=
  match get k d with Some _ => true | None => false end.

(** [d[k] = v] *)
Fixpoint set (k : K) (v : V) (d : dict K V) : dict K V :=
  match d with
  | [] => [(k, v)]
  | (k', v') :: d' => if keq k k' then (k', v) :: d' else (k', v') :: set k v d'
  end.

(** [del d[k]] on a present key (a no-op here when [k] is absent; the
    callers test membership first). *)
Fixpoint del (k : K) (d : dict K V) : dict K V :=
  match d with
  | [] => []
  | (k', v') :: d' => if keq k k' then d' else (k', v') :: del k d'
  end.

(** [d.keys()], [d.values()] *)
Definition keys (d : dict K V) : list K := map fst d.
Definition values (d : dict K V) : list V := map snd d.

(** [d.get(k, default)] *)
Definition get_default (k : K) (dflt : V) (d : dict K V) : V :=
  match get k d with Some v => v | None => dflt end.
End Dict.

End Py.
Import Py.

(** ** Python values that travel in envelopes *)

(** A Python [float], carried as the decimal numeral that denotes it:
    [(-1)^neg * digits * 10^exp10], or an infinity, or a NaN. *)
Inductive pyfloat : Type :=
| FFinite (neg : bool) (digits : N) (exp10 : Z)
| FInf (neg : bool)
| FNaN.

(** What [json.loads] returns and [json.dumps] accepts.  A [JObj] is a Python
    dict with string keys, in insertion order. *)
Inductive jvalue : Type :=
| JNull
| JBool (v : bool)
| JInt (n : Z)
| JFloat (f : pyfloat)
| JStr (s : string)
| JArr (l : list jvalue)
| JObj (d : list (string * jvalue)).

(** Python truthiness ([bool(v)], as [if v:] and [not v] use it). *)
Definition truthy (v : jvalue) : bool :=
  match v with
  | JNull => false
  | JBool v => v
  | JInt n => negb (n =? 0)
  | JFloat (FFinite _ digits _) => negb (digits =? 0)%N
  | JFloat _ => true
  | JStr s => negb (s =? "")%string
  | JArr l => match l with [] => false | _ => true end
  | JObj d => match d with [] => false | _ => true end
  end.

(** [v.get(k, default)]: only a dict has the method. *)
Definition py_get (v : jvalue) (k : string) (dflt : jvalue) : result jvalue :=
  match v with
  | JObj d => Ok (get_default k dflt d)
  | _ => Raise AttributeError
  end.

(** [v[k]] for a string key [k]: a missing key of a dict raises [KeyError];
    every other value raises [TypeError]. *)
Definition py_item (v : jvalue) (k : string) : result jvalue :=
  match v with
  | JObj d => or_raise KeyError (get k d)
  | _ => Raise TypeError
  end.

(** *** [bytes.hex()] and [bytes.fromhex()] *)

Definition hex_digit (n : N) : ascii :=
  ascii_of_N (if (n <? 10)%N then 48 + n else 87 + n)%N.

Fixpoint hex (x : bytes) : string :=
  match x with
  | [] => ""
  | c :: x' =>
      let n := Byte.to_N c in
      String (hex_digit (n / 16)) (String (hex_digit (n mod 16)) (hex x'))
  end.

Definition hex_value (c : ascii) : option N :=
  let n := N_of_ascii c in
  if ((48 <=? n) && (n <=? 57))%N then Some (n - 48)%N
  else if ((97 <=? n) && (n <=? 102))%N then Some (n - 87)%N
  else if ((65 <=? n) && (n <=? 70))%N then Some (n - 55)%N
  else None.

(** ASCII whitespace, which [fromhex] skips between two bytes. *)
Definition is_space (c : ascii) : bool :=
  let n := N_of_ascii c in
  ((n =? 32) || ((9 <=? n) && (n <=? 13)))%N.

Fixpoint fromhex (s : string) : option bytes :=
  match s with
  | EmptyString => Some []
  | String c s' =>
      if is_space c then fromhex s'
      else
        match hex_value c, s' with
        | Some hi, String c' s'' =>
            match hex_value c' with
            | Some lo =>
                match Byte.of_N (16 * hi + lo), fromhex s'' with
                | Some byte, Some rest => Some (byte :: rest)
                | _, _ => None
                end
            | None => None
            end
        | _, _ => None
        end
  end.

(** ** The libraries the code calls *)

(** [json]: [loads] stands for [json.loads(data.decode('utf-8'))], [None] when
    the decoding or the parsing raises; [dumps] for
    [json.dumps(v).encode('utf-8')] on a value the encoder accepts. *)
Class JsonLib : Type := {
  loads : bytes -> option jvalue;
  dumps : jvalue -> bytes
}.

(** [cryptography]: X25519, HKDF-SHA256 and AES-GCM.
    [x25519_exchange priv peer] is
    [priv.exchange(X25519PublicKey.from_public_bytes(peer))];
    [hkdf_sha256 length salt info ikm] is [HKDF(...).derive(ikm)];
    [aesgcm_encrypt key nonce data] is [AESGCM(key).encrypt(nonce, data, None)]
    and [aesgcm_decrypt] its inverse, raising on a tag that does not verify. *)
Class CryptoLib : Type := {
  x25519_public_bytes : bytes -> bytes;
  x25519_exchange : bytes -> bytes -> result bytes;
  hkdf_sha256 : nat -> bytes -> bytes -> bytes -> bytes;
  aesgcm_encrypt : bytes -> bytes -> bytes -> result bytes;
  aesgcm_decrypt : bytes -> bytes -> bytes -> result bytes
}.

(** [hashlib]: the identifiers the code derives,
    [hashlib.sha256(f"{a}{b}{time.time()}".encode()).hexdigest()[:16]];
    the encoding of the formatted string can raise. *)
Class HashLib : Type := {
  thread_digest : jvalue -> jvalue -> pyfloat -> result string;
  image_digest : bytes -> string -> pyfloat -> result string
}.

Notation "x <- e ;; k" := (bind e (fun x => k))
  (at level 61, e at next level, right associativity).

(** A value handed to [json.dumps] by the ratchet: JSON data, or a [bytes]
    object, which the encoder does not accept. *)
Inductive pyobj : Type :=
| PBytes (x : bytes)
| PJson (v : jvalue).

Fixpoint json_fields (d : list (string * pyobj)) : option (list (string * jvalue)) :=
  match d with
  | [] => Some []
  | (k, PJson v) :: d' =>
      match json_fields d' with
      | Some fields => Some ((k, v) :: fields)
      | None => None
      end
  | (_, PBytes _) :: _ => None
  end.

(** [json.dumps(d).encode()] for a dict [d] of such values: the encoder raises
    [TypeError] ("Object of type bytes is not JSON serializable") when a value
    is a [bytes] object. *)
Definition dumps_dict {json : JsonLib} (d : list (string * pyobj)) : result bytes :=
  match json_fields d with
  | Some fields => Ok (dumps (JObj fields))
  | None => Raise TypeError
  end.

(** [bytes.fromhex(v)] for a decoded value [v]: a [TypeError] unless [v] is a
    string, a [ValueError] unless the string is hexadecimal. *)
Definition fromhex_value (v : jvalue) : result bytes :=
  match v with
  | JStr s => or_raise ValueError (fromhex s)
  | _ => Raise TypeError
  end.

(** ** crypto_utils.py: [DoubleRatchet] *)

Module DoubleRatchet.

(** The attributes of a [DoubleRatchet] object.  [dh_ratchet] is the X25519
    private key. *)
Record t : Type := mk {
  dh_ratchet : bytes;
  root_key : bytes;
  chain_keys : dict bytes bytes;
  message_numbers : dict bytes Z;
  skip_message_keys : dict bytes (dict Z bytes)
}.

Section Methods.
Context {crypto : CryptoLib} {json : JsonLib}.

(** [__init__]: [generated] is the key [X25519PrivateKey.generate()]
    returns and [rnd] the 32 bytes of [os.urandom(32)]. *)
Definition __init__ (generated rnd : bytes) : t :=
  {| dh_ratchet := generated;
     root_key := rnd;
     chain_keys := [];
     message_numbers := [];
     skip_message_keys := [] |}.

Definition get_public_key (self : t) : bytes :=
  x25519_public_bytes (dh_ratchet self).

Definition perform_dh (self : t) (other_public_key : bytes) : result bytes :=
  x25519_exchange (dh_ratchet self) other_public_key.

Definition kdf_chain_key (chain_key shared_secret : bytes) : bytes * bytes :=
  let output := hkdf_sha256 64 [] (b "luckyones_ratchet") (chain_key ++ shared_secret) in
  (firstn 32 output, skipn 32 output).

Definition kdf_root_key (root_key shared_secret : bytes) : bytes :=
  hkdf_sha256 32 [] (b "luckyones_root") (root_key ++ shared_secret).

(** The branch on [other_public_key not in self.chain_keys], shared by
    [encrypt_message] (lines 66-77) and [decrypt_message] (lines 106-116):
    the object after the branch and the [message_key] it selected.
    [rnd_key] is what [os.urandom(32)] returns when the second branch
    draws it. *)
Definition select_message_key (self : t) (other_public_key rnd_key : bytes)
  : result (t * bytes) :=
  if negb (mem other_public_key (chain_keys self)) then
    (* First message to or from this contact *)
    shared_secret <- perform_dh self other_public_key ;;
    let root_key' := kdf_root_key (root_key self) shared_secret in
    let '(chain_key, message_key) := kdf_chain_key root_key' shared_secret in
    Ok ({| dh_ratchet := dh_ratchet self;
           root_key := root_key';
           chain_keys := set other_public_key chain_key (chain_keys self);
           message_numbers := set other_public_key 0 (message_numbers self);
           skip_message_keys := set other_public_key [] (skip_message_keys self) |},
        message_key)
  else
    (* Continue existing chain: the chain key is read and not used *)
    let chain_key := get other_public_key (chain_keys self) in
    let message_key := rnd_key in
    Ok (self, message_key).

(** [encrypt_message] up to the construction of [message_data]
    (lines 64-93): the object as the call leaves it, and the dict built,
    or the exception raised on the way.  [rnd_nonce] is
    [os.urandom(12)]. *)
Definition encrypt_message_data (self : t) (message other_public_key : bytes)
    (rnd_key rnd_nonce : bytes) : t * result (list (string * pyobj)) :=
  match select_message_key self other_public_key rnd_key with
  | Raise e => (self, Raise e)
  | Ok (self1, message_key) =>
      (* Encrypt with AES-GCM *)
      let nonce := rnd_nonce in
      match aesgcm_encrypt message_key nonce message with
      | Raise e => (self1, Raise e)
      | Ok ciphertext =>
          (* Update message number *)
          match get other_public_key (message_numbers self1) with
          | None => (self1, Raise KeyError)
          | Some n =>
              let self2 :=
                {| dh_ratchet := dh_ratchet self1;
                   root_key := root_key self1;
                   chain_keys := chain_keys self1;
                   message_numbers := set other_public_key (n + 1) (message_numbers self1);
                   skip_message_keys := skip_message_keys self1 |} in
              (* Create message structure *)
              (self2,
               Ok [("public_key", PBytes (get_public_key self2));
                   ("message_number", PJson (JInt (n + 1)));
                   ("nonce", PJson (JStr (hex nonce)));
                   ("ciphertext", PJson (JStr (hex ciphertext)))])
          end
      end
  end.

(** [encrypt_message]: the call ends with
    [return json.dumps(message_data).encode()]. *)
Definition encrypt_message (self : t) (message other_public_key : bytes)
    (rnd_key rnd_nonce : bytes) : t * result bytes :=
  let '(self', r) := encrypt_message_data self message other_public_key rnd_key rnd_nonce in
  (self', message_data <- r ;; dumps_dict message_data).

(** The fields [decrypt_message] reads off the payload (lines 100-104). *)
Record payload : Type := mk_payload {
  p_public_key : bytes;
  p_message_number : jvalue;
  p_nonce : bytes;
  p_ciphertext : bytes
}.

Definition read_payload (encrypted_data : bytes) : result payload :=
  message_data <- or_raise ValueError (loads encrypted_data) ;;
  pk <- py_item message_data "public_key" ;;
  other_public_key <- fromhex_value pk ;;
  message_number <- py_item message_data "message_number" ;;
  n <- py_item message_data "nonce" ;;
  nonce <- fromhex_value n ;;
  c <- py_item message_data "ciphertext" ;;
  ciphertext <- fromhex_value c ;;
  Ok (mk_payload other_public_key message_number nonce ciphertext).

(** [decrypt_message] after the payload is read (lines 106-122). *)
Definition decrypt_payload (self : t) (p : payload) (rnd_key : bytes)
  : t * result bytes :=
  match select_message_key self (p_public_key p) rnd_key with
  | Raise e => (self, Raise e)
  | Ok (self1, message_key) =>
      (* Decrypt with AES-GCM *)
      (self1, aesgcm_decrypt message_key (p_nonce p) (p_ciphertext p))
  end.

(** [decrypt_message]: the whole body stands in a [try] whose handler
    raises [ValueError("Decryption failed: ...")]. *)
Definition decrypt_message (self : t) (encrypted_data : bytes) (rnd_key : bytes)
  : t * result bytes :=
  match read_payload encrypted_data with
  | Raise _ => (self, Raise ValueError)
  | Ok p =>
      let '(self', r) := decrypt_payload self p rnd_key in
      (self', reraise_as ValueError r)
  end.
End Methods.

End DoubleRatchet.

(** The Python runtime: [float_add_int f n] is the float [f + n], rounding
    included; [py_str v] is [str(v)], as an f-string formats [v]. *)
Class PyRuntime : Type := {
  float_add_int : pyfloat -> Z -> pyfloat;
  py_str : jvalue -> string
}.

(** ** network_utils.py: [MessageProtocol] *)

Module MessageProtocol.

Definition JOIN := "JOIN".
Definition LEAVE := "LEAVE".
Definition MESSAGE := "MESSAGE".
Definition IMAGE := "IMAGE".
Definition CREATE_THREAD := "CREATE_THREAD".
Definition DELETE_THREAD := "DELETE_THREAD".
Definition USER_LIST := "USER_LIST".
Definition THREAD_LIST := "THREAD_LIST".
Definition ERROR := "ERROR".
Definition SUCCESS := "SUCCESS".

Section Methods.
Context {json : JsonLib}.

(** [create_message(msg_type, data, user_id)]; [now] is [time.time()].
    [user_id] is [JNull] for the default [None]. *)
Definition create_message (msg_type : string) (data : jvalue) (user_id : jvalue)
    (now : pyfloat) : bytes :=
  let message :=
    [("type", JStr msg_type); ("timestamp", JFloat now); ("data", data)] in
  let message :=
    if truthy user_id then set "user_id" user_id message else message in
  dumps (JObj message).

(** [parse_message(data)]: the decoded value, whatever it is, or the
    error envelope when decoding raises. *)
Definition parse_message (data : bytes) : jvalue :=
  match loads data with
  | Some v => v
  | None =>
      JObj [("type", JStr "ERROR");
            ("data", JObj [("error", JStr "Invalid message format")])]
  end.
End Methods.

(** [message.get('type')] of an envelope that is a dict. *)
Definition envelope_type (message : jvalue) : option jvalue :=
  match message with
  | JObj d => get "type" d
  | _ => None
  end.

End MessageProtocol.

(** ** network_utils.py: [NetworkServer] *)

Module NetworkServer.
Import MessageProtocol.

(** The dict [_handle_client] registers for a connection; the socket is
    the key it is stored under. *)
Record client_info : Type := mk_client {
  address : string;
  user_id : jvalue;
  username : jvalue;
  public_key : jvalue;
  connected_at : pyfloat
}.

Record thread_info : Type := mk_thread {
  name : jvalue;
  is_private : jvalue;
  created_at : pyfloat;
  expires_at : option pyfloat;
  creator_id : jvalue
}.

(** A connection is the number of its socket. *)
Definition socket := nat.

Record t : Type := mk {
  port : Z;
  clients : dict socket client_info;
  threads : dict string thread_info;
  running : bool
}.

(** What a handler did: the server as it leaves it, the [send] calls it
    made in order (socket, bytes), and the exception it raised, if any. *)
Record outcome : Type := mk_outcome {
  server : t;
  sent : list (socket * bytes);
  raised : option exn
}.

Definition done (self : t) (sends : list (socket * bytes)) : outcome :=
  mk_outcome self sends None.
Definition fails (self : t) (sends : list (socket * bytes)) (e : exn) : outcome :=
  mk_outcome self sends (Some e).

Definition __init__ (port : Z) : t :=
  {| port := port; clients := []; threads := []; running := false |}.

(** [start], with a listening socket that binds: the main thread is
    created. *)
Definition start (self : t) (now : pyfloat) : t :=
  {| port := port self;
     clients := clients self;
     threads := set "main"
                  (mk_thread (JStr "Main Chat") (JBool false) now None (JStr "system"))
                  (threads self);
     running := true |}.

Definition with_clients (self : t) (c : dict socket client_info) : t :=
  {| port := port self; clients := c; threads := threads self; running := running self |}.

Definition with_threads (self : t) (th : dict string thread_info) : t :=
  {| port := port self; clients := clients self; threads := th; running := running self |}.

(** The first statement of [_handle_client]: the connection is registered
    with no identity bound. *)
Definition register_client (self : t) (client_socket : socket) (addr : string)
    (now : pyfloat) : t :=
  with_clients self
    (set client_socket (mk_client addr JNull JNull JNull now) (clients self)).

Definition _disconnect_client (self : t) (client_socket : socket) : t :=
  if mem client_socket (clients self)
  then with_clients self (del client_socket (clients self))
  else self.

(** [for other_socket in self.clients.keys(): ... other_socket.send(response)]
    with the exception of a failing [send] swallowed: the calls made.
    [skip] is the socket the loop leaves out, if it leaves one out. *)
Definition broadcast (self : t) (skip : option socket) (response : bytes)
  : list (socket * bytes) :=
  map (fun other_socket => (other_socket, response))
      (filter (fun other_socket =>
                 match skip with
                 | Some client_socket => negb (Nat.eqb other_socket client_socket)
                 | None => true
                 end)
              (keys (clients self))).

Section Handlers.
Context {json : JsonLib} {hash : HashLib} {runtime : PyRuntime}.

(** [_handle_join]; [send_raises] tells whether [client_socket.send]
    raises. *)
Definition _handle_join (self : t) (client_socket : socket) (message : jvalue)
    (now : pyfloat) (send_raises : bool) : outcome :=
  match py_get message "data" (JObj []) with
  | Raise e => fails self [] e
  | Ok data =>
      match get client_socket (clients self) with
      | None => fails self [] KeyError
      | Some client_info =>
          match
            (uid <- py_get data "user_id" JNull ;;
             uname <- py_get data "username" JNull ;;
             pk <- py_get data "public_key" JNull ;;
             Ok (mk_client (address client_info) uid uname pk (connected_at client_info)))
          with
          | Raise e => fails self [] e
          | Ok client_info' =>
              let self' :=
                with_clients self (set client_socket client_info' (clients self)) in
              (* Send welcome message *)
              let welcome_data :=
                JObj [("message",
                       JStr ("Welcome " ++ py_str (username client_info') ++ "!")%string);
                      ("thread_id", JStr "main")] in
              let response := create_message MESSAGE welcome_data (JStr "system") now in
              if send_raises
              then fails self' [(client_socket, response)] ConnectionError
              else done self' [(client_socket, response)]
          end
      end
  end.

Definition _handle_leave (self : t) (client_socket : socket) (message : jvalue)
  : outcome :=
  done (_disconnect_client self client_socket) [].

(** [_handle_message]; [t_default] is the [time.time()] evaluated as the
    default of [data.get('timestamp', ...)], [t_msg] the one
    [create_message] reads. *)
Definition _handle_message (self : t) (client_socket : socket) (message : jvalue)
    (t_default t_msg : pyfloat) : outcome :=
  match py_get message "data" (JObj []) with
  | Raise e => fails self [] e
  | Ok data =>
      match get client_socket (clients self) with
      | None => done self []
      | Some client_info =>
          if negb (truthy (user_id client_info)) then done self []
          else
            (* Broadcast message to all clients *)
            match
              (content <- py_get data "content" JNull ;;
               thread_id <- py_get data "thread_id" (JStr "main") ;;
               timestamp <- py_get data "timestamp" (JFloat t_default) ;;
               Ok (JObj [("content", content);
                         ("thread_id", thread_id);
                         ("sender_id", user_id client_info);
                         ("sender_username", username client_info);
                         ("timestamp", timestamp)]))
            with
            | Raise e => fails self [] e
            | Ok broadcast_data =>
                let response :=
                  create_message MESSAGE broadcast_data (user_id client_info) t_msg in
                (* Send to all connected clients *)
                done self (broadcast self (Some client_socket) response)
            end
      end
  end.

Definition _handle_image (self : t) (client_socket : socket) (message : jvalue)
    (t_default t_msg : pyfloat) : outcome :=
  match py_get message "data" (JObj []) with
  | Raise e => fails self [] e
  | Ok data =>
      match get client_socket (clients self) with
      | None => done self []
      | Some client_info =>
          if negb (truthy (user_id client_info)) then done self []
          else
            (* Broadcast image to all clients *)
            match
              (image_data <- py_get data "image_data" JNull ;;
               thread_id <- py_get data "thread_id" (JStr "main") ;;
               timestamp <- py_get data "timestamp" (JFloat t_default) ;;
               Ok (JObj [("image_data", image_data);
                         ("thread_id", thread_id);
                         ("sender_id", user_id client_info);
                         ("sender_username", username client_info);
                         ("timestamp", timestamp)]))
            with
            | Raise e => fails self [] e
            | Ok broadcast_data =>
                let response :=
                  create_message IMAGE broadcast_data (user_id client_info) t_msg in
                (* Send to all connected clients *)
                done self (broadcast self (Some client_socket) response)
            end
      end
  end.

(** [_handle_create_thread]; [t_id], [t_exp], [t_created] and [t_msg] are
    the four readings of [time.time()], in the order the call takes
    them. *)
Definition _handle_create_thread (self : t) (client_socket : socket)
    (message : jvalue) (t_id t_exp t_created t_msg : pyfloat) : outcome :=
  match py_get message "data" (JObj []) with
  | Raise e => fails self [] e
  | Ok data =>
      match get client_socket (clients self) with
      | None => done self []
      | Some client_info =>
          if negb (truthy (user_id client_info)) then done self []
          else
            match
              (thread_name <- py_get data "thread_name" JNull ;;
               is_private <- py_get data "is_private" (JBool false) ;;
               creator_id <- py_get data "creator_id" JNull ;;
               (* Generate thread ID *)
               thread_id <- thread_digest thread_name creator_id t_id ;;
               Ok (thread_name, is_private, creator_id, thread_id))
            with
            | Raise e => fails self [] e
            | Ok (thread_name, is_private, creator_id, thread_id) =>
                (* Set expiration time (12 hours for non-main threads) *)
                let expires_at :=
                  if negb (thread_id =? "main")%string
                  then Some (float_add_int t_exp (12 * 60 * 60))
                  else None in
                let self' :=
                  with_threads self
                    (set thread_id
                       (mk_thread thread_name is_private t_created expires_at creator_id)
                       (threads self)) in
                (* Notify all clients about new thread *)
                let thread_data :=
                  JObj [("thread_id", JStr thread_id);
                        ("thread_name", thread_name);
                        ("is_private", is_private);
                        ("creator_username", username client_info);
                        ("expires_at",
                         match expires_at with Some e => JFloat e | None => JNull end)] in
                let response :=
                  create_message CREATE_THREAD thread_data (user_id client_info) t_msg in
                (* Send to all connected clients *)
                done self' (broadcast self' None response)
            end
      end
  end.

(** [message_type == name] for the value [message.get('type')] returned. *)
Definition type_is (message_type : jvalue) (name : string) : bool :=
  match message_type with
  | JStr s => (s =? name)%string
  | _ => false
  end.

(** [_process_message]; [clock i] is the [i]-th reading of [time.time()]
    during the call, [send_raises] tells whether the welcome [send] of a
    JOIN raises. *)
Definition _process_message (self : t) (client_socket : socket) (message : jvalue)
    (clock : nat -> pyfloat) (send_raises : bool) : outcome :=
  match py_get message "type" JNull with
  | Raise e => fails self [] e
  | Ok message_type =>
      if type_is message_type JOIN then
        _handle_join self client_socket message (clock 0%nat) send_raises
      else if type_is message_type LEAVE then
        _handle_leave self client_socket message
      else if type_is message_type MESSAGE then
        _handle_message self client_socket message (clock 0%nat) (clock 1%nat)
      else if type_is message_type IMAGE then
        _handle_image self client_socket message (clock 0%nat) (clock 1%nat)
      else if type_is message_type CREATE_THREAD then
        _handle_create_thread self client_socket message
          (clock 0%nat) (clock 1%nat) (clock 2%nat) (clock 3%nat)
      else done self []
  end.

(** One turn of the loop of [_handle_client] on the bytes [recv] returned:
    an empty read leaves the loop, an exception leaves it too, and the
    [finally] clause disconnects the client. *)
Definition on_receive (self : t) (client_socket : socket) (data : bytes)
    (clock : nat -> pyfloat) (send_raises : bool) : outcome :=
  match data with
  | [] => done (_disconnect_client self client_socket) []
  | _ =>
      let message := parse_message data in
      let out := _process_message self client_socket message clock send_raises in
      match raised out with
      | Some e => mk_outcome (_disconnect_client (server out) client_socket) (sent out) None
      | None => out
      end
  end.
End Handlers.

End NetworkServer.

(** ** chat_manager.py *)

(** [datetime] and [timedelta]: a [datetime] is the number of microseconds
    since 0001-01-01T00:00:00, a [timedelta] a number of microseconds.  Both
    types are bounded in Python, and building a value out of range raises
    [OverflowError]. *)
Module Datetime.

Definition datetime := Z.
Definition timedelta := Z.

Definition us_per_day : Z := 86400000000.
(** [datetime.max] is 9999-12-31T23:59:59.999999. *)
Definition max_datetime : Z := 3652059 * us_per_day - 1.
(** [timedelta.max.days] *)
Definition max_days : Z := 999999999.

Definition timedelta_of (us : Z) : result timedelta :=
  let days := us / us_per_day in
  if (- max_days <=? days) && (days <=? max_days) then Ok us else Raise OverflowError.

(** [timedelta(hours=h)], [timedelta(minutes=m)] *)
Definition hours (h : Z) : result timedelta := timedelta_of (h * 3600000000).
Definition minutes (m : Z) : result timedelta := timedelta_of (m * 60000000).

(** [d + td] *)
Definition add (d : datetime) (td : timedelta) : result datetime :=
  let r := d + td in
  if (0 <=? r) && (r <=? max_datetime) then Ok r else Raise OverflowError.

End Datetime.

Module ChatMessage.

Record t : Type := mk {
  content : string;
  sender_id : string;
  sender_username : string;
  thread_id : string;
  timestamp : pyfloat;
  message_type : string;
  created_at : Datetime.datetime
}.

(** [__init__]; [now] is [datetime.now()]. *)
Definition __init__ (content sender_id sender_username thread_id : string)
    (timestamp : pyfloat) (message_type : string) (now : Datetime.datetime) : t :=
  mk content sender_id sender_username thread_id timestamp message_type now.

End ChatMessage.

Module ChatThread.

Record t : Type := mk {
  thread_id : string;
  name : string;
  is_private : bool;
  creator_id : option string;
  created_at : Datetime.datetime;
  expires_at : option Datetime.datetime;
  messages : list ChatMessage.t;
  participants : list string
}.

(** [__init__]; [now] is [datetime.now()]. *)
Definition __init__ (thread_id name : string) (is_private : bool)
    (creator_id : option string) (expires_hours : Z) (now : Datetime.datetime)
  : result t :=
  let created_at := now in
  (* Set expiration time (main thread never expires) *)
  if negb (thread_id =? "main")%string && (expires_hours >? 0) then
    td <- Datetime.hours expires_hours ;;
    e <- Datetime.add created_at td ;;
    Ok (mk thread_id name is_private creator_id created_at (Some e) [] [])
  else
    Ok (mk thread_id name is_private creator_id created_at None [] []).

(** [set.add] on the participants. *)
Definition set_add (x : string) (s : list string) : list string :=
  if existsb (String.eqb x) s then s else s ++ [x].

Definition add_message (self : t) (message : ChatMessage.t) : t :=
  mk (thread_id self) (name self) (is_private self) (creator_id self)
     (created_at self) (expires_at self)
     (messages self ++ [message])
     (set_add (ChatMessage.sender_id message) (participants self)).

(** [is_expired]; [now] is [datetime.now()]. *)
Definition is_expired (self : t) (now : Datetime.datetime) : bool :=
  match expires_at self with
  | None => false
  | Some e => now >? e
  end.

Definition get_time_remaining (self : t) (now : Datetime.datetime)
  : option Datetime.timedelta :=
  match expires_at self with
  | None => None
  | Some e => let remaining := e - now in
              Some (if remaining >? 0 then remaining else 0)
  end.

End ChatThread.

(** The files under the temporary directory: path to content.  Writing and
    removing a file succeed; reading succeeds when the file is there. *)
Definition filesystem := dict string bytes.

Module ImageManager.

Record image_info : Type := mk_info {
  path : string;
  sender_id : string;
  thread_id : string;
  created_at : Datetime.datetime;
  expires_at : Datetime.datetime
}.

Record t : Type := mk {
  temp_dir : string;
  images : dict string image_info;
  running : bool
}.

Definition __init__ (temp_dir : string) : t := mk temp_dir [] false.

Definition start (self : t) : t := mk (temp_dir self) (images self) true.

Definition with_images (self : t) (i : dict string image_info) : t :=
  mk (temp_dir self) i (running self).

(** [os.path.join(dir, name)] *)
Definition path_join (dir name : string) : string :=
  if String.prefix "/" name then name
  else if (dir =? "")%string then name
  else if (String.substring (String.length dir - 1) 1 dir =? "/")%string
       then (dir ++ name)%string
       else (dir ++ "/" ++ name)%string.

Section Methods.
Context {hash : HashLib}.

(** [store_image]; [ts] is [time.time()], [now1] and [now2] the two
    readings of [datetime.now()] that fill [created_at] and
    [expires_at]. *)
Definition store_image (self : t) (fs : filesystem) (image_data : bytes)
    (sender_id thread_id : string) (ts : pyfloat) (now1 now2 : Datetime.datetime)
  : t * filesystem * result string :=
  match image_digest image_data sender_id ts with
  | Raise e => (self, fs, Raise e)
  | Ok image_id =>
      (* Save image to temp file *)
      let image_path := path_join (temp_dir self) (image_id ++ ".jpg")%string in
      let fs' := set image_path image_data fs in
      (* Store image info *)
      match (td <- Datetime.minutes 30 ;; Datetime.add now2 td) with
      | Raise e => (self, fs', Raise e)
      | Ok expires =>
          (with_images self
             (set image_id (mk_info image_path sender_id thread_id now1 expires)
                  (images self)),
           fs', Ok image_id)
      end
  end.
End Methods.

Definition _delete_image (self : t) (fs : filesystem) (image_id : string)
  : t * filesystem :=
  match get image_id (images self) with
  | Some image_info =>
      (with_images self (del image_id (images self)), del (path image_info) fs)
  | None => (self, fs)
  end.

(** [get_image]; [now] is [datetime.now()]. *)
Definition get_image (self : t) (fs : filesystem) (image_id : string)
    (now : Datetime.datetime) : t * filesystem * option bytes :=
  match get image_id (images self) with
  | None => (self, fs, None)
  | Some image_info =>
      if now >? expires_at image_info then
        let '(self', fs') := _delete_image self fs image_id in
        (self', fs', None)
      else
        (self, fs, get (path image_info) fs)
  end.

Definition delete_all (self : t) (fs : filesystem) (ids : list string)
  : t * filesystem :=
  fold_left (fun st image_id => _delete_image (fst st) (snd st) image_id) ids (self, fs).

(** One turn of [_cleanup_loop]; [current_time] is [datetime.now()]. *)
Definition cleanup_pass (self : t) (fs : filesystem) (current_time : Datetime.datetime)
  : t * filesystem :=
  let expired_images :=
    map fst (filter (fun item => current_time >? expires_at (snd item)) (images self)) in
  delete_all self fs expired_images.

Definition _cleanup_all_images (self : t) (fs : filesystem) : t * filesystem :=
  delete_all self fs (keys (images self)).

Definition stop (self : t) (fs : filesystem) : t * filesystem :=
  _cleanup_all_images (mk (temp_dir self) (images self) false) fs.

End ImageManager.

Module ChatManager.

(** What a registered handler is called with.  A handler is a callable of
    the application; the model records the calls made to it, and an
    exception it raises is swallowed by the caller. *)
Inductive event : Type :=
| thread_created (thread : ChatThread.t)
| thread_deleted (thread : ChatThread.t)
| message_added (message : ChatMessage.t).

(** A handler is the number it was registered under. *)
Definition handler := nat.
Definition calls := list (handler * event).

Record t : Type := mk {
  threads : dict string ChatThread.t;
  current_thread_id : string;
  message_handlers : list handler;
  thread_handlers : list handler;
  image_manager : ImageManager.t;
  running : bool
}.

Definition with_threads (self : t) (th : dict string ChatThread.t) : t :=
  mk th (current_thread_id self) (message_handlers self) (thread_handlers self)
     (image_manager self) (running self).

Definition with_current (self : t) (tid : string) : t :=
  mk (threads self) tid (message_handlers self) (thread_handlers self)
     (image_manager self) (running self).

Definition with_images (self : t) (im : ImageManager.t) : t :=
  mk (threads self) (current_thread_id self) (message_handlers self)
     (thread_handlers self) im (running self).

Definition with_running (self : t) (r : bool) : t :=
  mk (threads self) (current_thread_id self) (message_handlers self)
     (thread_handlers self) (image_manager self) r.

(** [for handler in handlers: handler(e)] *)
Definition notify (handlers : list handler) (e : event) : calls :=
  map (fun h => (h, e)) handlers.

(** [_create_main_thread]; [now] is [datetime.now()]. *)
Definition _create_main_thread (self : t) (now : Datetime.datetime) : result t :=
  main_thread <- ChatThread.__init__ "main" "Main Chat" false (Some "system") 12 now ;;
  Ok (with_current (with_threads self (set "main" main_thread (threads self))) "main").

Definition __init__ (now : Datetime.datetime) : result t :=
  _create_main_thread
    (mk [] "main" [] [] (ImageManager.__init__ "temp_images") false) now.

Definition start (self : t) : t :=
  with_images (with_running self true) (ImageManager.start (image_manager self)).

Definition stop (self : t) (fs : filesystem) : t * filesystem :=
  let '(im, fs') := ImageManager.stop (image_manager self) fs in
  (with_images (with_running self false) im, fs').

Definition opt_str (o : option string) : jvalue :=
  match o with Some s => JStr s | None => JNull end.

Section Methods.
Context {hash : HashLib}.

(** [create_thread]; [ts] is [time.time()], [now] is [datetime.now()]. *)
Definition create_thread (self : t) (name : string) (is_private : bool)
    (creator_id : option string) (ts : pyfloat) (now : Datetime.datetime)
  : t * calls * result string :=
  match
    (thread_id <- thread_digest (JStr name) (opt_str creator_id) ts ;;
     thread <- ChatThread.__init__ thread_id name is_private creator_id 12 now ;;
     Ok (thread_id, thread))
  with
  | Raise e => (self, [], Raise e)
  | Ok (thread_id, thread) =>
      (with_threads self (set thread_id thread (threads self)),
       (* Notify handlers *)
       notify (thread_handlers self) (thread_created thread),
       Ok thread_id)
  end.

(** [add_image_message]; [ts_img], [now1], [now2] are the readings
    [store_image] takes, [ts] and [now] those of the message. *)
Definition add_image_message (self : t) (fs : filesystem) (image_data : bytes)
    (sender_id sender_username : string) (thread_id : option string)
    (ts_img : pyfloat) (now1 now2 : Datetime.datetime)
    (ts : pyfloat) (now : Datetime.datetime)
  : t * filesystem * calls * result (option ChatMessage.t) :=
  let thread_id :=
    match thread_id with Some i => i | None => current_thread_id self end in
  match get thread_id (threads self) with
  | None => (self, fs, [], Ok None)
  | Some thread =>
      (* Store image *)
      match ImageManager.store_image (image_manager self) fs image_data
              sender_id thread_id ts_img now1 now2 with
      | (im, fs', Raise e) => (with_images self im, fs', [], Raise e)
      | (im, fs', Ok image_id) =>
          (* Create message with image reference *)
          let message :=
            ChatMessage.__init__ ("[IMAGE:" ++ image_id ++ "]")%string
              sender_id sender_username thread_id ts "image" now in
          (with_threads (with_images self im)
             (set thread_id (ChatThread.add_message thread message) (threads self)),
           fs',
           notify (message_handlers self) (message_added message),
           Ok (Some message))
      end
  end.
End Methods.

(** [add_message]; [ts] is [time.time()], [now] is [datetime.now()]. *)
Definition add_message (self : t) (content sender_id sender_username : string)
    (thread_id : option string) (message_type : string)
    (ts : pyfloat) (now : Datetime.datetime) : t * calls * option ChatMessage.t :=
  let thread_id :=
    match thread_id with Some i => i | None => current_thread_id self end in
  match get thread_id (threads self) with
  | None => (self, [], None)
  | Some thread =>
      let message :=
        ChatMessage.__init__ content sender_id sender_username thread_id ts
          message_type now in
      (with_threads self
         (set thread_id (ChatThread.add_message thread message) (threads self)),
       notify (message_handlers self) (message_added message),
       Some message)
  end.

Definition get_thread_messages (self : t) (thread_id : option string)
  : list ChatMessage.t :=
  let thread_id :=
    match thread_id with Some i => i | None => current_thread_id self end in
  match get thread_id (threads self) with
  | None => []
  | Some thread => ChatThread.messages thread
  end.

Definition get_threads (self : t) : list ChatThread.t := values (threads self).

Definition get_thread (self : t) (thread_id : string) : option ChatThread.t :=
  get thread_id (threads self).

Definition set_current_thread (self : t) (thread_id : string) : t :=
  if mem thread_id (threads self) then with_current self thread_id else self.

Definition get_current_thread (self : t) : option ChatThread.t :=
  get (current_thread_id self) (threads self).

Definition register_message_handler (self : t) (h : handler) : t :=
  mk (threads self) (current_thread_id self) (message_handlers self ++ [h])
     (thread_handlers self) (image_manager self) (running self).

Definition register_thread_handler (self : t) (h : handler) : t :=
  mk (threads self) (current_thread_id self) (message_handlers self)
     (thread_handlers self ++ [h]) (image_manager self) (running self).

Definition _delete_thread (self : t) (thread_id : string) : t * calls :=
  match get thread_id (threads self) with
  | Some thread =>
      if negb (thread_id =? "main")%string then
        let self1 := with_threads self (del thread_id (threads self)) in
        (* If this was the current thread, switch to main *)
        let self2 :=
          if (current_thread_id self1 =? thread_id)%string
          then with_current self1 "main" else self1 in
        (* Notify handlers *)
        (self2, notify (thread_handlers self2) (thread_deleted thread))
      else (self, [])
  | None => (self, [])
  end.

(** The first loop of a turn of [_cleanup_loop]: the ids whose thread
    answers [is_expired()]; [clock i] is the [datetime.now()] read for the
    [i]-th thread of the registry. *)
Fixpoint expired_threads (items : dict string ChatThread.t)
    (clock : nat -> Datetime.datetime) (i : nat) : list string :=
  match items with
  | [] => []
  | (thread_id, thread) :: items' =>
      if ChatThread.is_expired thread (clock i)
      then thread_id :: expired_threads items' clock (S i)
      else expired_threads items' clock (S i)
  end.

(** The body of the second loop, on the manager and the handler calls made
    so far. *)
Definition delete_step (st : t * calls) (thread_id : string) : t * calls :=
  if negb (thread_id =? "main")%string (* Never delete main thread *)
  then let '(self', c) := _delete_thread (fst st) thread_id in (self', snd st ++ c)
  else st.

(** The second loop: [_delete_thread] on each id but "main". *)
Definition delete_expired (self : t) (expired : list string) : t * calls :=
  fold_left delete_step expired (self, []).

(** One turn of [_cleanup_loop]. *)
Definition cleanup_pass (self : t) (clock : nat -> Datetime.datetime) : t * calls :=
  delete_expired self (expired_threads (threads self) clock 0%nat).

End ChatManager.

(** ** Reference instances of the library interfaces

    The statements below hold for every instance of [JsonLib], [CryptoLib],
    [HashLib] and [PyRuntime].  To evaluate the model on a concrete input one
    instance is needed: a JSON codec for ASCII text (numerals of at most 15
    significant digits, no [\u] escape above U+00FF), and stand-ins of the
    cryptographic and hash functions that have their shapes (key, nonce and
    tag lengths, a symmetric key agreement, a decryption that inverts
    encryption under the same key and rejects another key). *)

Module Ref.

Definition dquote : ascii := ascii_of_N 34.
Definition backslash : ascii := ascii_of_N 92.

(** *** [repr] of a float and [str] of a value *)

Definition string_of_N (n : N) : string := NilZero.string_of_uint (N.to_uint n).
Definition string_of_Z (z : Z) : string := NilZero.string_of_int (Z.to_int z).

Fixpoint zeros (n : nat) : string :=
  match n with O => "" | S n' => String "0" (zeros n') end.

(** Trailing zeros of the digits move to the exponent. *)
Fixpoint strip_zeros (fuel : nat) (digits : N) (exp10 : Z) : N * Z :=
  match fuel with
  | O => (digits, exp10)
  | S fuel' =>
      if ((digits =? 0) || negb (digits mod 10 =? 0))%N then (digits, exp10)
      else strip_zeros fuel' (digits / 10)%N (exp10 + 1)
  end.

Definition float_repr (f : pyfloat) : string :=
  match f with
  | FNaN => "nan"
  | FInf neg => if neg then "-inf" else "inf"
  | FFinite neg digits exp10 =>
      let sign := if neg then "-" else "" in
      if (digits =? 0)%N then (sign ++ "0.0")%string
      else
        let '(m, e) := strip_zeros (N.to_nat (N.size digits)) digits exp10 in
        let ds := string_of_N m in
        let n := Z.of_nat (String.length ds) in
        let decpt := n + e in
        if (-4 <? decpt) && (decpt <=? 16) then
          if decpt <=? 0 then
            (sign ++ "0." ++ zeros (Z.to_nat (- decpt)) ++ ds)%string
          else if decpt <? n then
            (sign ++ String.substring 0 (Z.to_nat decpt) ds ++ "."
                  ++ String.substring (Z.to_nat decpt) (Z.to_nat (n - decpt)) ds)%string
          else
            (sign ++ ds ++ zeros (Z.to_nat (decpt - n)) ++ ".0")%string
        else
          let x := decpt - 1 in
          let xs := string_of_N (Z.to_N (Z.abs x)) in
          let frac :=
            if 1 <? n
            then String "." (String.substring 1 (Z.to_nat (n - 1)) ds) else "" in
          let xsign := if x <? 0 then "-" else "+" in
          let pad := if Z.abs x <? 10 then "0" else "" in
          (sign ++ String.substring 0 1 ds ++ frac ++ "e" ++ xsign ++ pad ++ xs)%string
  end.

(** [str(v)]; a string inside a list or a dict is shown between single
    quotes. *)
Fixpoint py_repr (top : bool) (v : jvalue) : string :=
  match v with
  | JNull => "None"
  | JBool v => if v then "True" else "False"
  | JInt n => string_of_Z n
  | JFloat f => float_repr f
  | JStr s => if top then s else ("'" ++ s ++ "'")%string
  | JArr l =>
      ("[" ++ (fix items (l : list jvalue) : string :=
                 match l with
                 | [] => ""
                 | [x] => py_repr false x
                 | x :: l' => py_repr false x ++ ", " ++ items l'
                 end) l ++ "]")%string
  | JObj d =>
      ("{" ++ (fix items (d : list (string * jvalue)) : string :=
                 match d with
                 | [] => ""
                 | [(k, x)] => "'" ++ k ++ "': " ++ py_repr false x
                 | (k, x) :: d' => "'" ++ k ++ "': " ++ py_repr false x ++ ", " ++ items d'
                 end) d ++ "}")%string
  end.

(** Exact decimal addition of an integer. *)
Definition float_plus (f : pyfloat) (n : Z) : pyfloat :=
  match f with
  | FFinite neg digits exp10 =>
      let m := if neg then - Z.of_N digits else Z.of_N digits in
      let r := if exp10 <? 0 then m + n * 10 ^ (- exp10) else m * 10 ^ exp10 + n in
      let e := if exp10 <? 0 then exp10 else 0 in
      FFinite (r <? 0) (Z.to_N (Z.abs r)) e
  | _ => f
  end.

Definition runtime : PyRuntime :=
  {| float_add_int := float_plus; py_str := py_repr true |}.

(** *** The JSON encoder *)

Definition hex2 (n : N) : string :=
  String (hex_digit (n / 16)) (String (hex_digit (n mod 16)) "").

Definition escape_char (c : ascii) : string :=
  let n := N_of_ascii c in
  if (n =? 34)%N then String backslash (String dquote "")
  else if (n =? 92)%N then String backslash (String backslash "")
  else if (n =? 10)%N then String backslash "n"
  else if (n =? 13)%N then String backslash "r"
  else if (n =? 9)%N then String backslash "t"
  else if (n =? 8)%N then String backslash "b"
  else if (n =? 12)%N then String backslash "f"
  else if ((n <? 32) || (128 <=? n))%N
       then (String backslash "u00" ++ hex2 n)%string
  else String c "".

Fixpoint escape (s : string) : string :=
  match s with
  | EmptyString => ""
  | String c s' => (escape_char c ++ escape s')%string
  end.

Definition quote (s : string) : string :=
  (String dquote (escape s) ++ String dquote "")%string.

Definition json_float (f : pyfloat) : string :=
  match f with
  | FNaN => "NaN"
  | FInf neg => if neg then "-Infinity" else "Infinity"
  | _ => float_repr f
  end.

Fixpoint encode (v : jvalue) : string :=
  match v with
  | JNull => "null"
  | JBool v => if v then "true" else "false"
  | JInt n => string_of_Z n
  | JFloat f => json_float f
  | JStr s => quote s
  | JArr l =>
      ("[" ++ (fix items (l : list jvalue) : string :=
                 match l with
                 | [] => ""
                 | [x] => encode x
                 | x :: l' => encode x ++ ", " ++ items l'
                 end) l ++ "]")%string
  | JObj d =>
      ("{" ++ (fix items (d : list (string * jvalue)) : string :=
                 match d with
                 | [] => ""
                 | [(k, x)] => quote k ++ ": " ++ encode x
                 | (k, x) :: d' => quote k ++ ": " ++ encode x ++ ", " ++ items d'
                 end) d ++ "}")%string
  end.

Definition ref_dumps (v : jvalue) : bytes := list_byte_of_string (encode v).

(** *** The JSON decoder *)

Definition is_ws (c : ascii) : bool :=
  let n := N_of_ascii c in ((n =? 32) || (n =? 9) || (n =? 10) || (n =? 13))%N.

Fixpoint skip_ws (s : string) : string :=
  match s with
  | String c s' => if is_ws c then skip_ws s' else s
  | EmptyString => s
  end.

Definition digit_value (c : ascii) : option N :=
  let n := N_of_ascii c in
  if ((48 <=? n) && (n <=? 57))%N then Some (n - 48)%N else None.

(** The digits at the head of [s]: their value from [acc], how many they
    are, and what follows. *)
Fixpoint take_digits (s : string) (acc : N) (count : nat) : N * nat * string :=
  match s with
  | String c s' =>
      match digit_value c with
      | Some d => take_digits s' (10 * acc + d)%N (S count)
      | None => (acc, count, s)
      end
  | EmptyString => (acc, count, s)
  end.

Definition unescape (c : ascii) : option ascii :=
  let n := N_of_ascii c in
  if ((n =? 34) || (n =? 92) || (n =? 47))%N then Some c
  else if (n =? 98)%N then Some (ascii_of_N 8)
  else if (n =? 102)%N then Some (ascii_of_N 12)
  else if (n =? 110)%N then Some (ascii_of_N 10)
  else if (n =? 114)%N then Some (ascii_of_N 13)
  else if (n =? 116)%N then Some (ascii_of_N 9)
  else None.

(** The characters of a string literal after its opening quote. *)
Fixpoint parse_string (s : string) : option (string * string) :=
  match s with
  | EmptyString => None
  | String c s' =>
      let n := N_of_ascii c in
      if (n =? 34)%N then Some ("", s')
      else if (n =? 92)%N then
        match s' with
        | String e s'' =>
            if (N_of_ascii e =? 117)%N then
              match s'' with
              | String h1 (String h2 (String h3 (String h4 s3))) =>
                  match hex_value h1, hex_value h2, hex_value h3, hex_value h4,
                        parse_string s3 with
                  | Some 0%N, Some 0%N, Some a, Some b, Some (str, rest) =>
                      Some (String (ascii_of_N (16 * a + b)) str, rest)
                  | _, _, _, _, _ => None
                  end
              | _ => None
              end
            else
              match unescape e, parse_string s'' with
              | Some ch, Some (str, rest) => Some (String ch str, rest)
              | _, _ => None
              end
        | EmptyString => None
        end
      else if ((n <? 32) || (128 <=? n))%N then None
      else
        match parse_string s' with
        | Some (str, rest) => Some (String c str, rest)
        | None => None
        end
  end.

(** A numeral, after its sign. *)
Definition parse_number (neg : bool) (s : string) : option (jvalue * string) :=
  match s with
  | EmptyString => None
  | String c s' =>
      match digit_value c with
      | None => None
      | Some d0 =>
          let '(int_part, _, after_int) :=
            if (d0 =? 0)%N then (0%N, 1%nat, s') else take_digits s 0%N 0%nat in
          let '(digits, frac_len, after_frac, has_frac) :=
            match after_int with
            | String "." r =>
                let '(m, k, r') := take_digits r int_part 0%nat in (m, k, r', true)
            | _ => (int_part, 0%nat, after_int, false)
            end in
          if has_frac && Nat.eqb frac_len 0 then None
          else
            let exponent :=
              match after_frac with
              | String e r =>
                  if ((N_of_ascii e =? 101) || (N_of_ascii e =? 69))%N then
                    let '(xneg, r1) :=
                      match r with
                      | String "-" r1 => (true, r1)
                      | String "+" r1 => (false, r1)
                      | _ => (false, r)
                      end in
                    let '(x, k, r2) := take_digits r1 0%N 0%nat in
                    if Nat.eqb k 0 then None
                    else Some (Some (if xneg then - Z.of_N x else Z.of_N x), r2)
                  else Some (None, after_frac)
              | EmptyString => Some (None, after_frac)
              end in
            match exponent with
            | None => None
            | Some (None, rest) =>
                if has_frac then
                  let '(m, e) := strip_zeros (N.to_nat (N.size digits)) digits
                                   (- Z.of_nat frac_len) in
                  if (m <? 10 ^ 15)%N then Some (JFloat (FFinite neg m e), rest) else None
                else Some (JInt (if neg then - Z.of_N digits else Z.of_N digits), rest)
            | Some (Some x, rest) =>
                let '(m, e) := strip_zeros (N.to_nat (N.size digits)) digits
                                 (x - Z.of_nat frac_len) in
                if ((m <? 10 ^ 15)%N && (Z.abs e <? 280))
                then Some (JFloat (FFinite neg m e), rest) else None
            end
      end
  end.

Fixpoint parse_value (fuel : nat) (s : string) {struct fuel} : option (jvalue * string) :=
  match fuel with
  | O => None
  | S fuel' =>
      match skip_ws s with
      | EmptyString => None
      | String c r =>
          let n := N_of_ascii c in
          if (n =? 123)%N then
            match skip_ws r with
            | String "}" r' => Some (JObj [], r')
            | _ => parse_members fuel' r []
            end
          else if (n =? 91)%N then
            match skip_ws r with
            | String "]" r' => Some (JArr [], r')
            | _ => parse_elements fuel' r []
            end
          else if (n =? 34)%N then
            match parse_string r with
            | Some (str, rest) => Some (JStr str, rest)
            | None => None
            end
          else if String.prefix "null" (String c r) then
            Some (JNull, String.substring 4 (String.length r) (String c r))
          else if String.prefix "true" (String c r) then
            Some (JBool true, String.substring 4 (String.length r) (String c r))
          else if String.prefix "false" (String c r) then
            Some (JBool false, String.substring 5 (String.length r) (String c r))
          else if String.prefix "NaN" (String c r) then
            Some (JFloat FNaN, String.substring 3 (String.length r) (String c r))
          else if String.prefix "Infinity" (String c r) then
            Some (JFloat (FInf false), String.substring 8 (String.length r) (String c r))
          else if String.prefix "-Infinity" (String c r) then
            Some (JFloat (FInf true), String.substring 9 (String.length r) (String c r))
          else if (n =? 45)%N then parse_number true r
          else parse_number false (String c r)
      end
  end
with parse_elements (fuel : nat) (s : string) (acc : list jvalue) {struct fuel}
  : option (jvalue * string) :=
  match fuel with
  | O => None
  | S fuel' =>
      match parse_value fuel' s with
      | Some (v, r) =>
          match skip_ws r with
          | String "," r' => parse_elements fuel' r' (acc ++ [v])
          | String "]" r' => Some (JArr (acc ++ [v]), r')
          | _ => None
          end
      | None => None
      end
  end
with parse_members (fuel : nat) (s : string) (acc : list (string * jvalue)) {struct fuel}
  : option (jvalue * string) :=
  match fuel with
  | O => None
  | S fuel' =>
      match skip_ws s with
      | String q r =>
          if (N_of_ascii q =? 34)%N then
            match parse_string r with
            | Some (k, r1) =>
                match skip_ws r1 with
                | String ":" r2 =>
                    match parse_value fuel' r2 with
                    | Some (v, r3) =>
                        match skip_ws r3 with
                        | String "," r4 => parse_members fuel' r4 (set k v acc)
                        | String "}" r4 => Some (JObj (set k v acc), r4)
                        | _ => None
                        end
                    | None => None
                    end
                | _ => None
                end
            | None => None
            end
          else None
      | EmptyString => None
      end
  end.

(** [json.loads(data.decode('utf-8'))]: one value, with nothing but
    whitespace after it. *)
Definition ref_loads (data : bytes) : option jvalue :=
  let s := string_of_list_byte data in
  match parse_value (2 * String.length s + 2) s with
  | Some (v, rest) =>
      match skip_ws rest with
      | EmptyString => Some v
      | _ => None
      end
  | None => None
  end.

Definition json : JsonLib := {| loads := ref_loads; dumps := ref_dumps |}.

(** *** Stand-ins of the cryptographic and hash functions *)

Definition byte_of_Z (z : Z) : byte :=
  match Byte.of_N (Z.to_N (z mod 256)) with
  | Some c => c
  | None => x00
  end.

Definition mix (x : Z) (c : byte) : Z :=
  (x * 1103515245 + Z.of_N (Byte.to_N c) + 12345) mod 4294967296.

Definition absorb (data : bytes) (x : Z) : Z :=
  fold_left mix data ((x * 31 + Z.of_nat (List.length data)) mod 4294967296).

Definition stream (x : Z) (len : nat) : bytes :=
  map (fun i => byte_of_Z (((x + Z.of_nat i) * 2654435761) / 65536)) (seq 0 len).

Fixpoint xor_bytes (x y : bytes) : bytes :=
  match x, y with
  | c :: x', d :: y' =>
      byte_of_Z (Z.lxor (Z.of_N (Byte.to_N c)) (Z.of_N (Byte.to_N d))) :: xor_bytes x' y'
  | _, _ => []
  end.

(** Little-endian numbers. *)
Fixpoint num_of_bytes (x : bytes) : Z :=
  match x with
  | [] => 0
  | c :: x' => Z.of_N (Byte.to_N c) + 256 * num_of_bytes x'
  end.

Fixpoint bytes_of_num (len : nat) (n : Z) : bytes :=
  match len with
  | O => []
  | S len' => byte_of_Z n :: bytes_of_num len' (n / 256)
  end.

Definition group_p : Z := 2147483647.
Definition group_g : Z := 7.

Fixpoint powmod_pos (g : Z) (e : positive) : Z :=
  match e with
  | xH => g mod group_p
  | xO e' => let h := powmod_pos g e' in (h * h) mod group_p
  | xI e' => let h := powmod_pos g e' in (h * h * g) mod group_p
  end.

Definition powmod (g e : Z) : Z :=
  match e with
  | Zpos e' => powmod_pos g e'
  | _ => 1
  end.

Definition dh_public (priv : bytes) : bytes :=
  bytes_of_num 32 (powmod group_g (num_of_bytes priv)).

Definition dh_exchange (priv peer : bytes) : result bytes :=
  if negb (Nat.eqb (List.length peer) 32) then Raise ValueError
  else
    let shared := powmod (num_of_bytes peer mod group_p) (num_of_bytes priv) in
    if shared =? 0 then Raise ValueError else Ok (bytes_of_num 32 shared).

Definition kdf (len : nat) (salt info ikm : bytes) : bytes :=
  stream (absorb ikm (absorb info (absorb salt 1))) len.

Definition aead_params_ok (key nonce : bytes) : bool :=
  let k := List.length key in
  let n := List.length nonce in
  (Nat.eqb k 16 || Nat.eqb k 24 || Nat.eqb k 32) && Nat.leb 8 n && Nat.leb n 128.

Definition aead_tag (key nonce ct : bytes) : bytes :=
  stream (absorb ct (absorb nonce (absorb key 3))) 16.

Definition aead_encrypt (key nonce data : bytes) : result bytes :=
  if aead_params_ok key nonce then
    let ct := xor_bytes data (stream (absorb nonce (absorb key 2)) (List.length data)) in
    Ok (ct ++ aead_tag key nonce ct)
  else Raise ValueError.

Definition aead_decrypt (key nonce data : bytes) : result bytes :=
  if aead_params_ok key nonce then
    if Nat.ltb (List.length data) 16 then Raise InvalidTag
    else
      let n := (List.length data - 16)%nat in
      let ct := firstn n data in
      let tag := skipn n data in
      if bytes_eqb tag (aead_tag key nonce ct)
      then Ok (xor_bytes ct (stream (absorb nonce (absorb key 2)) n))
      else Raise InvalidTag
  else Raise ValueError.

Definition crypto : CryptoLib :=
  {| x25519_public_bytes := dh_public;
     x25519_exchange := dh_exchange;
     hkdf_sha256 := kdf;
     aesgcm_encrypt := aead_encrypt;
     aesgcm_decrypt := aead_decrypt |}.

Definition digest16 (s : string) : string :=
  hex (stream (absorb (list_byte_of_string s) 5) 8).

Definition hash : HashLib :=
  {| thread_digest := fun a b0 ts =>
       Ok (digest16 (py_repr true a ++ py_repr true b0 ++ float_repr ts)%string);
     image_digest := fun data sender ts =>
       Ok (digest16 ("b'" ++ string_of_list_byte data ++ "'" ++ sender
                     ++ float_repr ts)%string) |}.

End Ref.

(** ** Scenarios

    Concrete objects on which the model is evaluated with the reference
    instances. *)

Module Scenario.

#[local] Existing Instance Ref.crypto.
#[local] Existing Instance Ref.json.
#[local] Existing Instance Ref.hash.
#[local] Existing Instance Ref.runtime.

(** *** Two ratchet engines with the same root key *)

Definition alice_key : bytes := Ref.stream 11 32.
Definition bob_key : bytes := Ref.stream 22 32.
Definition shared_root : bytes := Ref.stream 33 32.

Definition alice : DoubleRatchet.t := DoubleRatchet.__init__ alice_key shared_root.
Definition bob : DoubleRatchet.t := DoubleRatchet.__init__ bob_key shared_root.
Definition alice_pk : bytes := DoubleRatchet.get_public_key alice.
Definition bob_pk : bytes := DoubleRatchet.get_public_key bob.

(** What [os.urandom] returns, call after call. *)
Definition nonce1 : bytes := Ref.stream 41 12.
Definition nonce2 : bytes := Ref.stream 42 12.
Definition drawn1 : bytes := Ref.stream 51 32.
Definition drawn2 : bytes := Ref.stream 52 32.
Definition drawn3 : bytes := Ref.stream 53 32.
Definition drawn4 : bytes := Ref.stream 54 32.

(** Alice encrypts "one", "two" and "three" for Bob. *)
Definition call1 := DoubleRatchet.encrypt_message_data alice (b "one") bob_pk drawn1 nonce1.
Definition alice1 : DoubleRatchet.t := fst call1.
Definition call2 := DoubleRatchet.encrypt_message_data alice1 (b "two") bob_pk drawn2 nonce2.
Definition alice2 : DoubleRatchet.t := fst call2.

Definition built (r : result (list (string * pyobj))) : list (string * pyobj) :=
  match r with Ok message_data => message_data | Raise _ => [] end.

(** The payload [decrypt_message] expects for a message structure: the
    structure with its public key in hexadecimal, encoded. *)
Definition wire (message_data : list (string * pyobj)) : bytes :=
  dumps (JObj (map (fun item =>
                      match snd item with
                      | PBytes x => (fst item, JStr (hex x))
                      | PJson v => (fst item, v)
                      end) message_data)).

Definition payload1 : bytes := wire (built (snd call1)).


(** *** Three joined connections, and a fourth that has not joined *)

Definition t0 : pyfloat := FFinite false 17000000005 (-1).
Definition clock0 (i : nat) : pyfloat := FFinite false (17000000005 + N.of_nat i) (-1).

Definition join_envelope (uid uname : string) : bytes :=
  MessageProtocol.create_message MessageProtocol.JOIN
    (JObj [("user_id", JStr uid); ("username", JStr uname); ("public_key", JStr "00")])
    (JStr uid) t0.

Definition connect (self : NetworkServer.t) (client_socket : nat) (uid uname : string)
  : NetworkServer.t :=
  NetworkServer.server
    (NetworkServer.on_receive
       (NetworkServer.register_client self client_socket "127.0.0.1" t0)
       client_socket (join_envelope uid uname) clock0 false).

(** Alice, Bob and Carol are connections 1, 2 and 3. *)
Definition relay : NetworkServer.t :=
  connect (connect (connect (NetworkServer.start (NetworkServer.__init__ 6660) t0)
                      1%nat "a1" "Alice")
             2%nat "b2" "Bob")
    3%nat "c3" "Carol".

Definition alice_info : NetworkServer.client_info :=
  NetworkServer.mk_client "127.0.0.1" (JStr "a1") (JStr "Alice") (JStr "00") t0.

(** Connection 4 is accepted and has sent no JOIN. *)
Definition relay_with_guest : NetworkServer.t :=
  NetworkServer.register_client relay 4%nat "127.0.0.1" t0.

Definition text_fields : list (string * jvalue) :=
  [("type", JStr "MESSAGE");
   ("timestamp", JFloat t0);
   ("data", JObj [("content", JStr "hello"); ("thread_id", JStr "main")]);
   ("user_id", JStr "a1")].

Definition thread_fields : list (string * jvalue) :=
  [("type", JStr "CREATE_THREAD");
   ("timestamp", JFloat t0);
   ("data", JObj [("thread_name", JStr "plans"); ("is_private", JBool false);
                  ("creator_id", JStr "a1")]);
   ("user_id", JStr "a1")].

(** *** An image store *)

(** 2024-01-01T00:00:00 *)
Definition new_year : Datetime.datetime := 738885 * Datetime.us_per_day.

Definition stored :=
  ImageManager.store_image (ImageManager.__init__ "temp_images") []
    (b "pixels") "a1" "main" t0 new_year new_year.
Definition stored_manager : ImageManager.t := fst (fst stored).
Definition stored_files : filesystem := snd (fst stored).
Definition stored_id : string := "85bcf32b629ad109".

End Scenario.

(** ** crypto_utils.py: [CryptoManager]; network_utils.py: [NetworkClient] *)

(** [str.encode('utf-8')] and [bytes.decode('utf-8')], which raise on text or
    bytes that cannot be coded; [hashlib.sha256(x).hexdigest()];
    [base64.b64encode(x).decode('utf-8')]. *)
Class TextLib : Type := {
  utf8_encode : string -> result bytes;
  utf8_decode : bytes -> result string;
  sha256_hexdigest : bytes -> string;
  b64encode : bytes -> string
}.

Module CryptoManager.

Record t : Type := mk {
  ratchet : DoubleRatchet.t;
  user_id : string;
  username : string
}.

Definition adjectives : list string :=
  ["Shadow"; "Cyber"; "Neon"; "Quantum"; "Digital"; "Virtual"; "Matrix"; "Ghost"].
Definition nouns : list string :=
  ["Hacker"; "Runner"; "Ghost"; "Phantom"; "Spirit"; "Demon"; "Angel"; "Warrior"].

(** [l[b % len(l)]] for the byte [b]; [None] stands for the [IndexError] of an
    index out of range, and for the [ZeroDivisionError] of an empty list. *)
Definition pick (l : list string) (b0 : byte) : option string :=
  match l with
  | [] => None
  | _ => nth_error l (N.to_nat (Byte.to_N b0 mod N.of_nat (List.length l)))
  end.

Section Methods.
Context {crypto : CryptoLib} {json : JsonLib} {text : TextLib} {runtime : PyRuntime}.

Definition _generate_user_id (ratchet : DoubleRatchet.t) : string :=
  String.substring 0 16 (sha256_hexdigest (DoubleRatchet.get_public_key ratchet)).

(** [_generate_username]; [b1], [b2], [b3] are the three bytes
    [os.urandom(1)[0]] returns, in the order the f-string draws them. *)
Definition _generate_username (b1 b2 b3 : byte) : option string :=
  match pick adjectives b1, pick nouns b2 with
  | Some adjective, Some noun =>
      Some (adjective ++ noun ++ py_str (JInt (Z.of_N (Byte.to_N b3 mod 99 + 1))))%string
  | _, _ => None
  end.

(** [__init__]; [generated] and [rnd] are what [DoubleRatchet()] draws. *)
Definition __init__ (generated rnd : bytes) (b1 b2 b3 : byte) : option t :=
  let ratchet := DoubleRatchet.__init__ generated rnd in
  match _generate_username b1 b2 b3 with
  | Some username => Some (mk ratchet (_generate_user_id ratchet) username)
  | None => None
  end.

Definition get_public_key (self : t) : bytes := DoubleRatchet.get_public_key (ratchet self).
Definition get_user_id (self : t) : string := user_id self.
Definition get_username (self : t) : string := username self.

Definition with_ratchet (self : t) (r : DoubleRatchet.t) : t :=
  mk r (user_id self) (username self).

Definition encrypt_message (self : t) (message : string) (recipient_public_key : bytes)
    (rnd_key rnd_nonce : bytes) : t * result bytes :=
  match utf8_encode message with
  | Raise e => (self, Raise e)
  | Ok data =>
      let '(r, out) :=
        DoubleRatchet.encrypt_message (ratchet self) data recipient_public_key
          rnd_key rnd_nonce in
      (with_ratchet self r, out)
  end.

Definition decrypt_message (self : t) (encrypted_data : bytes) (rnd_key : bytes)
  : t * result string :=
  let '(r, out) := DoubleRatchet.decrypt_message (ratchet self) encrypted_data rnd_key in
  (with_ratchet self r, plaintext <- out ;; utf8_decode plaintext).

Definition encrypt_image (self : t) (image_data : bytes) (recipient_public_key : bytes)
    (rnd_key rnd_nonce : bytes) : t * result bytes :=
  let '(r, out) :=
    DoubleRatchet.encrypt_message (ratchet self) image_data recipient_public_key
      rnd_key rnd_nonce in
  (with_ratchet self r, out).

Definition decrypt_image (self : t) (encrypted_data : bytes) (rnd_key : bytes)
  : t * result bytes :=
  let '(r, out) := DoubleRatchet.decrypt_message (ratchet self) encrypted_data rnd_key in
  (with_ratchet self r, out).
End Methods.

End CryptoManager.

Module NetworkClient.
Import MessageProtocol.

(** The attributes of a [NetworkClient]; [has_socket] tells whether
    [self.socket] is a socket or [None], a registered handler is the number
    it was registered under. *)
Record t : Type := mk {
  crypto_manager : CryptoManager.t;
  has_socket : bool;
  connected : bool;
  server_host : option string;
  server_port : option Z;
  message_handlers : dict string nat
}.

Definition __init__ (crypto_manager : CryptoManager.t) : t :=
  mk crypto_manager false false None None [].

Definition register_message_handler (self : t) (message_type : string) (h : nat) : t :=
  mk (crypto_manager self) (has_socket self) (connected self) (server_host self)
     (server_port self) (set message_type h (message_handlers self)).

(** What the network does to a call: whether Tor answers, whether
    [socket.connect] raises, whether [socket.send] raises. *)
Record network : Type := mk_network {
  tor_available : bool;
  connect_raises : bool;
  send_raises : bool
}.

Section Methods.
Context {crypto : CryptoLib} {json : JsonLib} {text : TextLib}.

Definition user_id_value (self : t) : jvalue :=
  JStr (CryptoManager.get_user_id (crypto_manager self)).

Definition with_link (self : t) (socket link : bool) : t :=
  mk (crypto_manager self) socket link (server_host self) (server_port self)
     (message_handlers self).

(** The JOIN envelope [connect] sends; [now] is [time.time()]. *)
Definition join_message (self : t) (now : pyfloat) : bytes :=
  let join_data :=
    JObj [("user_id", user_id_value self);
          ("username", JStr (CryptoManager.get_username (crypto_manager self)));
          ("public_key", JStr (hex (CryptoManager.get_public_key (crypto_manager self))))] in
  create_message JOIN join_data (user_id_value self) now.

(** [connect]: the client as the call leaves it, the [send] calls made, and
    the value returned. *)
Definition connect (self : t) (host : string) (port : Z) (use_tor : bool)
    (net : network) (now : pyfloat) : t * list bytes * bool :=
  let self1 :=
    mk (crypto_manager self) (has_socket self) (connected self) (Some host) (Some port)
       (message_handlers self) in
  if use_tor && tor_available net then (self1, [], false)
  else
    let self2 := with_link self1 true (connected self1) in
    if connect_raises net then (self2, [], false)
    else
      (* Send join message *)
      let message := join_message self2 now in
      if send_raises net then (self2, [message], false)
      else (with_link self2 true true, [message], true).

(** [disconnect]: a failing [send] of the LEAVE envelope is swallowed. *)
Definition disconnect (self : t) (now : pyfloat) : t * list bytes :=
  if connected self && has_socket self then
    let message :=
      create_message LEAVE (JObj [("user_id", user_id_value self)]) (user_id_value self) now in
    (with_link self false false, [message])
  else (self, []).

(** The end of a [try] block that sends [message]: the [send] calls made and
    the value returned.  Without a socket the call raises before it sends. *)
Definition try_send (self : t) (net : network) (message : bytes) : list bytes * bool :=
  if negb (has_socket self) then ([], false)
  else if send_raises net then ([message], false)
  else ([message], true).

(** [send_message]; [now1] is the [time.time()] of the payload, [now2] the
    one [create_message] reads. *)
Definition send_message (self : t) (content thread_id : string)
    (recipient_id : option string) (net : network) (now1 now2 : pyfloat)
  : list bytes * bool :=
  if negb (connected self) then ([], false)
  else
    let message_data :=
      [("content", JStr content); ("thread_id", JStr thread_id);
       ("timestamp", JFloat now1)] in
    let message_data :=
      match recipient_id with
      | Some r => if negb (r =? "")%string
                  then set "recipient_id" (JStr r) message_data else message_data
      | None => message_data
      end in
    try_send self net (create_message MESSAGE (JObj message_data) (user_id_value self) now2).

Definition send_image (self : t) (image_data : bytes) (thread_id : string)
    (net : network) (now1 now2 : pyfloat) : list bytes * bool :=
  if negb (connected self) then ([], false)
  else
    (* Convert image to base64 for transmission *)
    let image_b64 := b64encode image_data in
    let message_data :=
      [("image_data", JStr image_b64); ("thread_id", JStr thread_id);
       ("timestamp", JFloat now1)] in
    try_send self net (create_message IMAGE (JObj message_data) (user_id_value self) now2).

Definition create_thread (self : t) (thread_name : string) (is_private : bool)
    (net : network) (now : pyfloat) : list bytes * bool :=
  if negb (connected self) then ([], false)
  else
    let message_data :=
      [("thread_name", JStr thread_name); ("is_private", JBool is_private);
       ("creator_id", user_id_value self)] in
    try_send self net
      (create_message CREATE_THREAD (JObj message_data) (user_id_value self) now).

(** One turn of [_receive_loop] on the bytes [recv] returned: the client as
    the turn leaves it, and the handler called with the message, if one is.
    The loop is left, and [connected] cleared, on an empty read and on an
    exception: a message that is no dict has no [get], and a type that is a
    list or a dict cannot be looked up in the handlers.  The turn is followed
    up to the call of the handler, which is code of the application. *)
Definition receive_turn (self : t) (data : bytes) : t * option (nat * jvalue) :=
  let leave := (with_link self (has_socket self) false, None) in
  match data with
  | [] => leave
  | _ =>
      let message := parse_message data in
      match message with
      | JObj d =>
          match get_default "type" JNull d with
          | JStr message_type =>
              (self, option_map (fun h => (h, message))
                       (get message_type (message_handlers self)))
          | JArr _ | JObj _ => leave
          | _ => (self, None)
          end
      | _ => leave
      end
  end.
End Methods.

End NetworkClient.

(** ** Reference instance of [TextLib], and more scenarios *)

Module RefText.

Definition b64_alphabet : string :=
  "ABCDEFGHIJKLMNOPQRSTUVWXYZabcdefghijklmnopqrstuvwxyz0123456789+/".

Definition b64_char (n : N) : ascii :=
  match String.get (N.to_nat (n mod 64)) b64_alphabet with
  | Some c => c
  | None => "="%char
  end.

Fixpoint b64 (x : bytes) : string :=
  match x with
  | [] => ""
  | [c1] =>
      let n := (Byte.to_N c1 * 65536)%N in
      String (b64_char (n / 262144)) (String (b64_char (n / 4096)) "==")
  | [c1; c2] =>
      let n := (Byte.to_N c1 * 65536 + Byte.to_N c2 * 256)%N in
      String (b64_char (n / 262144))
        (String (b64_char (n / 4096)) (String (b64_char (n / 64)) "="))
  | c1 :: c2 :: c3 :: x' =>
      let n := (Byte.to_N c1 * 65536 + Byte.to_N c2 * 256 + Byte.to_N c3)%N in
      String (b64_char (n / 262144))
        (String (b64_char (n / 4096))
           (String (b64_char (n / 64)) (String (b64_char n) (b64 x'))))
  end.

(** Text is taken to be ASCII, which UTF-8 leaves as it is; the digest is a
    stand-in of 64 hexadecimal digits. *)
Definition text : TextLib :=
  {| utf8_encode := fun s => Ok (list_byte_of_string s);
     utf8_decode := fun x => Ok (string_of_list_byte x);
     sha256_hexdigest := fun x => hex (Ref.stream (Ref.absorb x 7) 32);
     b64encode := b64 |}.

End RefText.

(** * Notions the statements use *)

Section RatchetNotions.
Context {crypto : CryptoLib}.
Import DoubleRatchet.

(** The stored message number of a peer, 0 before first contact (the value
    first contact stores before the first increment). *)
Definition counter (self : t) (pk : bytes) : Z :=
  get_default pk 0 (message_numbers self).

(** The peers that have a counter are those that have a chain: both entries
    are made together on first contact. *)
Definition same_peers (self : t) : Prop :=
  forall pk, mem pk (message_numbers self) = mem pk (chain_keys self).

(** What [select_message_key] can do to the object. *)
Variant selected (self : t) (pk : bytes) (rnd_key : bytes) : t -> bytes -> Prop :=
| selected_existing :
    mem pk (chain_keys self) = true ->
    selected self pk rnd_key self rnd_key
| selected_first shared_secret :
    mem pk (chain_keys self) = false ->
    perform_dh self pk = Ok shared_secret ->
    let root_key' := kdf_root_key (root_key self) shared_secret in
    selected self pk rnd_key
      (mk (dh_ratchet self) root_key'
          (set pk (fst (kdf_chain_key root_key' shared_secret)) (chain_keys self))
          (set pk 0 (message_numbers self))
          (set pk [] (skip_message_keys self)))
      (snd (kdf_chain_key root_key' shared_secret)).

(** The three dicts of an engine hold the same peers. *)
Definition aligned (self : t) : Prop :=
  forall pk, mem pk (message_numbers self) = mem pk (chain_keys self)
             /\ mem pk (skip_message_keys self) = mem pk (chain_keys self).

End RatchetNotions.

Section PayloadNotions.
Context {crypto : CryptoLib} {json : JsonLib}.
Import DoubleRatchet.


End PayloadNotions.

Section ProtocolNotions.
Import MessageProtocol.

(** The dict [create_message] serialises. *)
Definition envelope (msg_type : string) (data user_id : jvalue) (now : pyfloat)
  : jvalue :=
  JObj (if truthy user_id
        then set "user_id" user_id
               [("type", JStr msg_type); ("timestamp", JFloat now); ("data", data)]
        else [("type", JStr msg_type); ("timestamp", JFloat now); ("data", data)]).

(** [client_socket.recv(4096)]: the most bytes one read of the server
    returns. *)
Definition recv_size : nat := 4096.

(** One read of the server can return the bytes whole. *)
Definition fits_one_read (data : bytes) : Prop :=
  (List.length data <= recv_size)%nat.

(** The envelope [parse_message] returns for bytes it cannot decode. *)
Definition error_envelope : jvalue :=
  JObj [("type", JStr "ERROR");
        ("data", JObj [("error", JStr "Invalid message format")])].

(** The value is a request type [_process_message] has a branch for. *)
Definition handled (message_type : jvalue) : bool :=
  NetworkServer.type_is message_type JOIN
  || NetworkServer.type_is message_type LEAVE
  || NetworkServer.type_is message_type MESSAGE
  || NetworkServer.type_is message_type IMAGE
  || NetworkServer.type_is message_type CREATE_THREAD.

(** The server [self'] differs from [self] at most in the entry of the
    connection [client_socket], which may be rebound or removed, and in
    threads that were added: no other connection is touched, none appears,
    no thread disappears. *)
Definition touches_only (client_socket : NetworkServer.socket)
    (self self' : NetworkServer.t) : Prop :=
  (forall other, other <> client_socket ->
     get other (NetworkServer.clients self') = get other (NetworkServer.clients self))
  /\ (forall other, In other (keys (NetworkServer.clients self')) ->
                    In other (keys (NetworkServer.clients self)))
  /\ (NoDup (keys (NetworkServer.clients self)) ->
      NoDup (keys (NetworkServer.clients self')))
  /\ (forall thread_id, mem thread_id (NetworkServer.threads self) = true ->
                        mem thread_id (NetworkServer.threads self') = true)
  /\ NetworkServer.port self' = NetworkServer.port self
  /\ NetworkServer.running self' = NetworkServer.running self.
End ProtocolNotions.


Section ClientNotions.
Context {crypto : CryptoLib} {json : JsonLib} {text : TextLib}.
Import MessageProtocol NetworkClient.

(** The dict [send_message] puts in the envelope. *)
Definition message_fields (content thread_id : string) (recipient_id : option string)
    (now : pyfloat) : list (string * jvalue) :=
  let message_data :=
    [("content", JStr content); ("thread_id", JStr thread_id);
     ("timestamp", JFloat now)] in
  match recipient_id with
  | Some r => if negb (r =? "")%string
              then set "recipient_id" (JStr r) message_data else message_data
  | None => message_data
  end.

(** The dict [connect] puts in the JOIN envelope. *)
Definition join_fields (self : t) : list (string * jvalue) :=
  [("user_id", user_id_value self);
   ("username", JStr (CryptoManager.get_username (crypto_manager self)));
   ("public_key", JStr (hex (CryptoManager.get_public_key (crypto_manager self))))].

(** The dict [send_image] puts in the envelope. *)
Definition image_fields (image_data : bytes) (thread_id : string) (now : pyfloat)
  : list (string * jvalue) :=
  [("image_data", JStr (b64encode image_data)); ("thread_id", JStr thread_id);
   ("timestamp", JFloat now)].

(** The dict [disconnect] puts in the LEAVE envelope. *)
Definition leave_fields (self : t) : list (string * jvalue) :=
  [("user_id", user_id_value self)].

(** The dict [create_thread] puts in the envelope. *)
Definition create_thread_fields (self : t) (thread_name : string) (is_private : bool)
  : list (string * jvalue) :=
  [("thread_name", JStr thread_name); ("is_private", JBool is_private);
   ("creator_id", user_id_value self)].
End ClientNotions.


Section ManagerNotions.
Context {crypto : CryptoLib} {json : JsonLib} {text : TextLib} {runtime : PyRuntime}.

(** The manager [self'] presents the identity of [self]: the same user id,
    user name and public key. *)
Definition same_identity (self self' : CryptoManager.t) : Prop :=
  CryptoManager.get_user_id self' = CryptoManager.get_user_id self
  /\ CryptoManager.get_username self' = CryptoManager.get_username self
  /\ CryptoManager.get_public_key self' = CryptoManager.get_public_key self.
End ManagerNotions.


Section ServerNotions.
Context {json : JsonLib} {runtime : PyRuntime}.
Import MessageProtocol NetworkServer.

(** The connections a handler called [send] on, in order. *)
Definition recipients (o : outcome) : list socket := map fst (sent o).

(** The connection has completed JOIN: its entry holds a user id that
    Python takes for true. *)
Definition joined (self : t) (client_socket : socket) (info : client_info) : Prop :=
  get client_socket (clients self) = Some info /\ truthy (user_id info) = true.

(** The connection has no entry, or an entry with no user id bound. *)
Definition unjoined (self : t) (client_socket : socket) : Prop :=
  match get client_socket (clients self) with
  | None => True
  | Some info => truthy (user_id info) = false
  end.

(** The envelope [_handle_message] sends out. *)
Definition message_envelope (info : client_info) (data : list (string * jvalue))
    (t_default t_msg : pyfloat) : bytes :=
  create_message MESSAGE
    (JObj [("content", get_default "content" JNull data);
           ("thread_id", get_default "thread_id" (JStr "main") data);
           ("sender_id", user_id info);
           ("sender_username", username info);
           ("timestamp", get_default "timestamp" (JFloat t_default) data)])
    (user_id info) t_msg.

(** The envelope [_handle_image] sends out. *)
Definition image_envelope (info : client_info) (data : list (string * jvalue))
    (t_default t_msg : pyfloat) : bytes :=
  create_message IMAGE
    (JObj [("image_data", get_default "image_data" JNull data);
           ("thread_id", get_default "thread_id" (JStr "main") data);
           ("sender_id", user_id info);
           ("sender_username", username info);
           ("timestamp", get_default "timestamp" (JFloat t_default) data)])
    (user_id info) t_msg.

(** The expiry [_handle_create_thread] gives the thread [thread_id]. *)
Definition created_expiry (thread_id : string) (t_exp : pyfloat) : option pyfloat :=
  if negb (thread_id =? "main")%string
  then Some (float_add_int t_exp (12 * 60 * 60)) else None.

(** The envelope [_handle_create_thread] sends out. *)
Definition thread_envelope (info : client_info) (data : list (string * jvalue))
    (thread_id : string) (t_exp t_msg : pyfloat) : bytes :=
  create_message CREATE_THREAD
    (JObj [("thread_id", JStr thread_id);
           ("thread_name", get_default "thread_name" JNull data);
           ("is_private", get_default "is_private" (JBool false) data);
           ("creator_username", username info);
           ("expires_at",
            match created_expiry thread_id t_exp with
            | Some e => JFloat e
            | None => JNull
            end)])
    (user_id info) t_msg.
End ServerNotions.

Section StoreNotions.
Context {hash : HashLib}.
Import ChatManager.

(** One hour, in microseconds. *)
Definition hour : Z := 3600000000.

(** Thirty minutes, in microseconds. *)
Definition half_hour : Z := 30 * 60000000.

(** The entry of the image and the file at [p] are gone. *)
Definition released (st : ImageManager.t * filesystem) (image_id p : string) : Prop :=
  get image_id (ImageManager.images (fst st)) = None /\ get p (snd st) = None.

(** The registry holds "main" and the thread that is selected. *)
Definition registry_ok (self : t) : Prop :=
  mem "main" (threads self) = true
  /\ mem (current_thread_id self) (threads self) = true.

(** A call of a state-changing operation of a [ChatManager], with the clock
    readings it takes; the turns of the cleanup loop that [start] launches
    are calls too. *)
Inductive call : Type :=
| Start
| Stop
| CreateThread (name : string) (is_private : bool) (creator_id : option string)
    (ts : pyfloat) (now : Datetime.datetime)
| AddMessage (content sender_id sender_username : string) (thread_id : option string)
    (message_type : string) (ts : pyfloat) (now : Datetime.datetime)
| AddImageMessage (image_data : bytes) (sender_id sender_username : string)
    (thread_id : option string) (ts_img : pyfloat) (now1 now2 : Datetime.datetime)
    (ts : pyfloat) (now : Datetime.datetime)
| SetCurrentThread (thread_id : string)
| RegisterMessageHandler (h : handler)
| RegisterThreadHandler (h : handler)
| CleanupPass (clock : nat -> Datetime.datetime)
| DeleteThread (thread_id : string).

(** The manager and the files after the call. *)
Definition run (c : call) (self : t) (fs : filesystem) : t * filesystem :=
  match c with
  | Start => (start self, fs)
  | Stop => stop self fs
  | CreateThread name is_private creator_id ts now =>
      (fst (fst (create_thread self name is_private creator_id ts now)), fs)
  | AddMessage content sender_id sender_username thread_id message_type ts now =>
      (fst (fst (add_message self content sender_id sender_username thread_id
                   message_type ts now)), fs)
  | AddImageMessage image_data sender_id sender_username thread_id ts_img now1 now2 ts now =>
      let '(self', fs', _, _) :=
        add_image_message self fs image_data sender_id sender_username thread_id
          ts_img now1 now2 ts now in
      (self', fs')
  | SetCurrentThread thread_id => (set_current_thread self thread_id, fs)
  | RegisterMessageHandler h => (register_message_handler self h, fs)
  | RegisterThreadHandler h => (register_thread_handler self h, fs)
  | CleanupPass clock => (fst (cleanup_pass self clock), fs)
  | DeleteThread thread_id => (fst (_delete_thread self thread_id), fs)
  end.

(** The managers a program can hold: a constructed one, and what a call
    makes of one. *)
Inductive reachable : t -> Prop :=
| reachable_init now self :
    __init__ now = Ok self -> reachable self
| reachable_run c self fs :
    reachable self -> reachable (fst (run c self fs)).
End StoreNotions.

Section ThreadNotions.

(** The sender ids of the messages of a thread, in order. *)
Definition senders (thread : ChatThread.t) : list string :=
  map ChatMessage.sender_id (ChatThread.messages thread).

(** The thread [thread] is well formed as the entry of the id [k]: it
    carries the id, its participants are the senders of its messages, each
    once, every message in it names the thread, and it expires twelve hours
    after its creation unless it is "main", which never does. *)
Definition thread_ok (k : string) (thread : ChatThread.t) : Prop :=
  ChatThread.thread_id thread = k
  /\ NoDup (ChatThread.participants thread)
  /\ (forall x, In x (ChatThread.participants thread) <-> In x (senders thread))
  /\ (forall m, In m (ChatThread.messages thread) -> ChatMessage.thread_id m = k)
  /\ ChatThread.expires_at thread
     = if (k =? "main")%string then None
       else Some (ChatThread.created_at thread + 12 * hour).

(** Every entry of the registry is well formed, under one key each. *)
Definition threads_ok (self : ChatManager.t) : Prop :=
  NoDup (keys (ChatManager.threads self))
  /\ forall k thread, get k (ChatManager.threads self) = Some thread -> thread_ok k thread.

(** What a turn of the cleanup loop tells the thread handlers: the deletion
    of each thread on the list but "main", in the order of the list. *)
Definition deletions (self : ChatManager.t) (expired : list string)
  : ChatManager.calls :=
  flat_map
    (fun k =>
       match get k (ChatManager.threads self) with
       | Some thread =>
           ChatManager.notify (ChatManager.thread_handlers self)
             (ChatManager.thread_deleted thread)
       | None => []
       end)
    (filter (fun k => negb (k =? "main")%string) expired).
End ThreadNotions.


(** ** A client against the relay, and a chat manager with one thread *)

Module Chatroom.
Import Scenario.

#[local] Existing Instance Ref.crypto.
#[local] Existing Instance Ref.json.
#[local] Existing Instance Ref.hash.
#[local] Existing Instance Ref.runtime.
#[local] Existing Instance RefText.text.

(** *** Payloads as the peer would send them *)

Definition payload_of (pk : bytes) (number : Z) (nonce ct : bytes) : bytes :=
  dumps (JObj [("public_key", JStr (hex pk)); ("message_number", JInt number);
               ("nonce", JStr (hex nonce)); ("ciphertext", JStr (hex ct))]).

(** A payload that names Alice's key and carries bytes nobody encrypted. *)
Definition forged : bytes := payload_of alice_pk 7 nonce1 (b "garbage").

(** What the key agreement gives Alice with Bob's key, and Bob with
    Alice's. *)
Definition agreed : bytes :=
  match DoubleRatchet.perform_dh alice bob_pk with
  | Ok shared_secret => shared_secret
  | Raise _ => []
  end.

(** *** Dana's client *)

Definition dana_ratchet : DoubleRatchet.t :=
  DoubleRatchet.__init__ (Ref.stream 61 32) (Ref.stream 62 32).

Definition dana_manager : CryptoManager.t :=
  CryptoManager.mk dana_ratchet (CryptoManager._generate_user_id dana_ratchet)
    "NeonGhost57".

Definition dana : NetworkClient.t := NetworkClient.__init__ dana_manager.

Definition network_up : NetworkClient.network :=
  NetworkClient.mk_network false false false.

Definition dana_connected : NetworkClient.t :=
  fst (fst (NetworkClient.connect dana "relay.example" 6660 false network_up t0)).

(** Connection 5 is accepted, and then reads Dana's JOIN. *)
Definition relay_before_dana : NetworkServer.t :=
  NetworkServer.register_client relay 5%nat "127.0.0.1" t0.

Definition guest_info : NetworkServer.client_info :=
  NetworkServer.mk_client "127.0.0.1" JNull JNull JNull t0.

Definition dana_join : bytes :=
  dumps (envelope MessageProtocol.JOIN (JObj (join_fields dana))
           (NetworkClient.user_id_value dana) t0).

Definition relay_with_dana : NetworkServer.t :=
  NetworkServer.server
    (NetworkServer.on_receive relay_before_dana 5%nat dana_join clock0 false).

Definition dana_info : NetworkServer.client_info :=
  NetworkServer.mk_client "127.0.0.1"
    (JStr (CryptoManager.get_user_id dana_manager))
    (JStr (CryptoManager.get_username dana_manager))
    (JStr (hex (CryptoManager.get_public_key dana_manager))) t0.

(** A picture of 1024 bytes, and one of 3200 bytes. *)
Definition picture : bytes := Ref.stream 71 1024.
Definition large_picture : bytes := Ref.stream 72 3200.

Definition picture_envelope (image_data : bytes) : bytes :=
  dumps (envelope MessageProtocol.IMAGE (JObj (image_fields image_data "main" t0))
           (NetworkClient.user_id_value dana_connected) t0).

(** The id the relay gives the thread "plans" that Dana creates. *)
Definition plans_on_relay : string :=
  match thread_digest (JStr "plans") (NetworkClient.user_id_value dana_connected)
          (clock0 0%nat) with
  | Ok thread_id => thread_id
  | Raise _ => EmptyString
  end.

(** *** A chat manager with the thread "plans" *)

Definition chat0 : ChatManager.t :=
  match ChatManager.__init__ new_year with
  | Ok self => self
  | Raise _ => ChatManager.mk [] "main" [] [] (ImageManager.__init__ "temp_images") false
  end.

Definition create_plans : call := CreateThread "plans" false (Some "a1") t0 new_year.

Definition chat1 : ChatManager.t :=
  ChatManager.register_thread_handler (fst (run create_plans chat0 [])) 1%nat.

Definition plans : string :=
  match snd (ChatManager.create_thread chat0 "plans" false (Some "a1") t0 new_year) with
  | Ok thread_id => thread_id
  | Raise _ => EmptyString
  end.

Definition say_hello : call :=
  AddMessage "hello" "a1" "Alice" (Some plans) "text" t0 (new_year + hour).

Definition chat2 : ChatManager.t := fst (run say_hello chat1 []).

(** Every reading of the clock is a day after the new year. *)
Definition a_day_later (i : nat) : Datetime.datetime := new_year + 24 * hour.

End Chatroom.


(** * Properties *)

(** ** Dicts *)

Section DictFacts.
Context {K V : Type} {E : EqKey K}.
Implicit Types (k : K) (v : V) (d : dict K V).

Lemma keq_refl k : keq k k = true.
Proof. now apply keq_eq. Qed.

Lemma keq_neq k k' : k <> k' -> keq k k' = false.
Proof.
  intros Hne. destruct (keq k k') eqn:Heq; [|reflexivity].
  apply keq_eq in Heq. contradiction.
Qed.

Lemma keq_false k k' : keq k k' = false -> k <> k'.
Proof. intros Hf ->. rewrite keq_refl in Hf. discriminate. Qed.

Lemma get_set_same k v d : get k (set k v d) = Some v.
Proof.
  induction d as [|[k' v'] d IH]; simpl.
  - now rewrite keq_refl.
  - destruct (keq k k') eqn:Heq; simpl; rewrite Heq; [reflexivity | exact IH].
Qed.

Lemma get_set_other k k' v d : k <> k' -> get k' (set k v d) = get k' d.
Proof.
  intros Hne. induction d as [|[k0 v0] d IH]; simpl.
  - rewrite keq_neq; [reflexivity | congruence].
  - destruct (keq k k0) eqn:Heq; simpl.
    + apply keq_eq in Heq. subst k0.
      rewrite keq_neq; [reflexivity | congruence].
    + destruct (keq k' k0); [reflexivity | exact IH].
Qed.

Lemma get_del_other k k' d : k <> k' -> get k' (del k d) = get k' d.
Proof.
  intros Hne. induction d as [|[k0 v0] d IH]; simpl; [reflexivity|].
  destruct (keq k k0) eqn:Heq; simpl.
  - apply keq_eq in Heq. subst k0. rewrite keq_neq; [reflexivity | congruence].
  - destruct (keq k' k0); [reflexivity | exact IH].
Qed.

Lemma mem_set_same k v d : mem k (set k v d) = true.
Proof. unfold mem. now rewrite get_set_same. Qed.

Lemma mem_set_other k k' v d : k <> k' -> mem k' (set k v d) = mem k' d.
Proof. intros Hne. unfold mem. now rewrite get_set_other. Qed.

Lemma mem_set_mono k k' v d : mem k' d = true -> mem k' (set k v d) = true.
Proof.
  intros Hm. destruct (keq k k') eqn:Heq.
  - apply keq_eq in Heq. subst. apply mem_set_same.
  - rewrite mem_set_other; [exact Hm | now apply keq_false].
Qed.

Lemma mem_del_other k k' d : k <> k' -> mem k' (del k d) = mem k' d.
Proof. intros Hne. unfold mem. now rewrite get_del_other. Qed.

Lemma mem_get k d : mem k d = true <-> exists v, get k d = Some v.
Proof.
  unfold mem. destruct (get k d) as [v|]; split; try discriminate; eauto.
  intros [v' Hv]. discriminate.
Qed.

Lemma mem_false_get k d : mem k d = false <-> get k d = None.
Proof. unfold mem. destruct (get k d); split; congruence. Qed.

(** Assigning to a key of the dict keeps the order of the keys. *)
Lemma keys_set_present k v d : mem k d = true -> keys (set k v d) = keys d.
Proof.
  unfold mem, keys. induction d as [|[k' v'] d IH]; simpl; [discriminate|].
  destruct (keq k k') eqn:Heq; simpl; [reflexivity|].
  intros Hm. now rewrite IH.
Qed.

Lemma get_in_keys k v d : get k d = Some v -> In k (keys d).
Proof.
  unfold keys. induction d as [|[k' v'] d IH]; simpl; [discriminate|].
  destruct (keq k k') eqn:Heq.
  - apply keq_eq in Heq. subst. now left.
  - intros Hg. right. now apply IH.
Qed.
End DictFacts.

(** ** The ratchet engine *)

Section RatchetFacts.
Context {crypto : CryptoLib} {json : JsonLib}.
Import DoubleRatchet.

Lemma same_peers_init generated rnd : same_peers (__init__ generated rnd).
Proof. intros pk. reflexivity. Qed.

Lemma select_existing self pk rnd_key chain_key :
  get pk (chain_keys self) = Some chain_key ->
  select_message_key self pk rnd_key = Ok (self, rnd_key).
Proof.
  intros Hget. unfold select_message_key, mem. now rewrite Hget.
Qed.

Lemma select_first self pk rnd_key shared_secret :
  mem pk (chain_keys self) = false ->
  perform_dh self pk = Ok shared_secret ->
  select_message_key self pk rnd_key =
    let root_key' := kdf_root_key (root_key self) shared_secret in
    Ok (mk (dh_ratchet self) root_key'
           (set pk (fst (kdf_chain_key root_key' shared_secret)) (chain_keys self))
           (set pk 0 (message_numbers self))
           (set pk [] (skip_message_keys self)),
        snd (kdf_chain_key root_key' shared_secret)).
Proof.
  intros Hmem Hdh. unfold select_message_key. rewrite Hmem, Hdh. reflexivity.
Qed.

Lemma select_first_raises self pk rnd_key e :
  mem pk (chain_keys self) = false ->
  perform_dh self pk = Raise e ->
  select_message_key self pk rnd_key = Raise e.
Proof.
  intros Hmem Hdh. unfold select_message_key. now rewrite Hmem, Hdh.
Qed.

Lemma select_inv self pk rnd_key self1 message_key :
  select_message_key self pk rnd_key = Ok (self1, message_key) ->
  selected self pk rnd_key self1 message_key.
Proof.
  intros Hsel. destruct (mem pk (chain_keys self)) eqn:Hmem.
  - apply mem_get in Hmem as Hget. destruct Hget as [ck Hget].
    rewrite (select_existing _ _ _ _ Hget) in Hsel.
    injection Hsel as <- <-. now constructor.
  - destruct (perform_dh self pk) as [ss|e] eqn:Hdh.
    + rewrite (select_first _ _ _ _ Hmem Hdh) in Hsel. simpl in Hsel.
      injection Hsel as <- <-. now apply selected_first.
    + rewrite (select_first_raises _ _ _ _ Hmem Hdh) in Hsel. discriminate.
Qed.

Lemma encrypt_message_fst self message pk rnd_key rnd_nonce :
  fst (encrypt_message self message pk rnd_key rnd_nonce)
  = fst (encrypt_message_data self message pk rnd_key rnd_nonce).
Proof.
  unfold encrypt_message. now destruct (encrypt_message_data _ _ _ _ _).
Qed.

Lemma encrypt_message_snd self message pk rnd_key rnd_nonce :
  snd (encrypt_message self message pk rnd_key rnd_nonce)
  = (message_data <- snd (encrypt_message_data self message pk rnd_key rnd_nonce) ;;
     dumps_dict message_data).
Proof.
  unfold encrypt_message. now destruct (encrypt_message_data _ _ _ _ _).
Qed.

(** The call on an existing chain, step by step. *)
Lemma encrypt_existing self message pk rnd_key rnd_nonce chain_key n ct :
  get pk (chain_keys self) = Some chain_key ->
  get pk (message_numbers self) = Some n ->
  aesgcm_encrypt rnd_key rnd_nonce message = Ok ct ->
  encrypt_message_data self message pk rnd_key rnd_nonce =
    (mk (dh_ratchet self) (root_key self) (chain_keys self)
        (set pk (n + 1) (message_numbers self)) (skip_message_keys self),
     Ok [("public_key", PBytes (x25519_public_bytes (dh_ratchet self)));
         ("message_number", PJson (JInt (n + 1)));
         ("nonce", PJson (JStr (hex rnd_nonce)));
         ("ciphertext", PJson (JStr (hex ct)))]).
Proof.
  intros Hck Hn Hct. unfold encrypt_message_data.
  rewrite (select_existing _ _ _ _ Hck), Hct, Hn. reflexivity.
Qed.

(** C1 (what the code does instead).  On an existing chain for the peer the
    message key is the 32 bytes drawn from [os.urandom], whatever the chain
    key is: the chain key is not fed to any derivation, the plaintext is
    encrypted under the drawn key, and the call leaves the chain key and the
    root key as they were. *)
Theorem existing_chain_message_key_is_random
    (self : t) (message pk rnd_key rnd_nonce chain_key : bytes) :
  get pk (chain_keys self) = Some chain_key ->
  select_message_key self pk rnd_key = Ok (self, rnd_key)
  /\ chain_keys (fst (encrypt_message self message pk rnd_key rnd_nonce))
     = chain_keys self
  /\ root_key (fst (encrypt_message self message pk rnd_key rnd_nonce))
     = root_key self
  /\ (forall n ct,
        get pk (message_numbers self) = Some n ->
        aesgcm_encrypt rnd_key rnd_nonce message = Ok ct ->
        get "ciphertext"
            (match snd (encrypt_message_data self message pk rnd_key rnd_nonce) with
             | Ok message_data => message_data
             | Raise _ => []
             end)
        = Some (PJson (JStr (hex ct)))).
Proof.
  intros Hck. split; [now apply (select_existing _ _ _ chain_key)|].
  rewrite encrypt_message_fst. unfold encrypt_message_data.
  rewrite (select_existing _ _ _ _ Hck).
  split; [|split].
  - destruct (aesgcm_encrypt _ _ _); [|reflexivity].
    now destruct (get pk (message_numbers self)).
  - destruct (aesgcm_encrypt _ _ _); [|reflexivity].
    now destruct (get pk (message_numbers self)).
  - intros n ct Hn Hct. rewrite Hct, Hn. reflexivity.
Qed.

(** C2 (what the code does instead).  [encrypt_message] never returns: when
    no earlier step raises, [json.dumps] is handed a dict whose
    ['public_key'] is a [bytes] object and raises [TypeError]. *)
Theorem encrypt_message_never_returns
    (self : t) (message pk rnd_key rnd_nonce : bytes) :
  is_ok (snd (encrypt_message self message pk rnd_key rnd_nonce)) = false
  /\ match snd (encrypt_message_data self message pk rnd_key rnd_nonce) with
     | Ok _ => snd (encrypt_message self message pk rnd_key rnd_nonce) = Raise TypeError
     | Raise e => snd (encrypt_message self message pk rnd_key rnd_nonce) = Raise e
     end.
Proof.
  rewrite encrypt_message_snd. unfold encrypt_message_data.
  destruct (select_message_key self pk rnd_key) as [[self1 message_key]|e];
    [|split; reflexivity].
  destruct (aesgcm_encrypt message_key rnd_nonce message) as [ct|e];
    [|split; reflexivity].
  destruct (get pk (message_numbers self1)) as [n|]; split; reflexivity.
Qed.
End RatchetFacts.

Section RatchetCounters.
Context {crypto : CryptoLib} {json : JsonLib}.
Import DoubleRatchet.

Lemma get_default_set_same (pk : bytes) (v dflt : Z) (d : dict bytes Z) :
  get_default pk dflt (set pk v d) = v.
Proof. unfold get_default. now rewrite get_set_same. Qed.

Lemma get_default_set_other (pk q : bytes) (v dflt : Z) (d : dict bytes Z) :
  pk <> q -> get_default q dflt (set pk v d) = get_default q dflt d.
Proof. intros Hne. unfold get_default. now rewrite get_set_other. Qed.

(** Selecting the key keeps every counter, and keeps counters and chains on
    the same peers. *)
Lemma selected_counter self pk rnd_key self1 message_key :
  same_peers self ->
  selected self pk rnd_key self1 message_key ->
  same_peers self1
  /\ (forall q, counter self1 q = counter self q)
  /\ mem pk (message_numbers self1) = true.
Proof.
  intros Hsame Hsel. destruct Hsel as [Hmem | ss Hmem Hdh root_key'].
  - repeat split; auto. now rewrite Hsame.
  - repeat split.
    + intros q. simpl. destruct (bytes_eqb pk q) eqn:Heq.
      * apply bytes_eqb_eq in Heq. subst q. now rewrite !mem_set_same.
      * assert (pk <> q) by (intros ->; rewrite (proj2 (bytes_eqb_eq q q)) in Heq;
                              [discriminate | reflexivity]).
        rewrite !mem_set_other by assumption. apply Hsame.
    + intros q. unfold counter. simpl. destruct (bytes_eqb pk q) eqn:Heq.
      * apply bytes_eqb_eq in Heq. subst q. rewrite get_default_set_same.
        rewrite <- Hsame in Hmem. apply mem_false_get in Hmem.
        unfold get_default. now rewrite Hmem.
      * assert (pk <> q) by (intros ->; rewrite (proj2 (bytes_eqb_eq q q)) in Heq;
                              [discriminate | reflexivity]).
        now rewrite get_default_set_other.
    + simpl. apply mem_set_same.
Qed.

(** The states [encrypt_message_data] can leave. *)
Lemma encrypt_data_inv self message pk rnd_key rnd_nonce self' r :
  encrypt_message_data self message pk rnd_key rnd_nonce = (self', r) ->
  (self' = self /\ exists e, r = Raise e)
  \/ (exists message_key e, selected self pk rnd_key self' message_key /\ r = Raise e)
  \/ (exists self1 message_key ct n,
        selected self pk rnd_key self1 message_key
        /\ aesgcm_encrypt message_key rnd_nonce message = Ok ct
        /\ get pk (message_numbers self1) = Some n
        /\ self' = mk (dh_ratchet self1) (root_key self1) (chain_keys self1)
                      (set pk (n + 1) (message_numbers self1))
                      (skip_message_keys self1)
        /\ r = Ok [("public_key", PBytes (get_public_key self'));
                   ("message_number", PJson (JInt (n + 1)));
                   ("nonce", PJson (JStr (hex rnd_nonce)));
                   ("ciphertext", PJson (JStr (hex ct)))]).
Proof.
  unfold encrypt_message_data.
  destruct (select_message_key self pk rnd_key) as [[self1 message_key]|e] eqn:Hsel.
  - apply select_inv in Hsel.
    destruct (aesgcm_encrypt message_key rnd_nonce message) as [ct|e] eqn:Hct.
    + destruct (get pk (message_numbers self1)) as [n|] eqn:Hn.
      * intros [= <- <-]. right. right. exists self1, message_key, ct, n.
        repeat split; auto.
      * intros [= <- <-]. right. left. eauto.
    + intros [= <- <-]. right. left. eauto.
  - intros [= <- <-]. left. eauto.
Qed.

Lemma encrypt_counter_step self message pk rnd_key rnd_nonce self' message_data :
  same_peers self ->
  encrypt_message_data self message pk rnd_key rnd_nonce = (self', Ok message_data) ->
  counter self' pk = counter self pk + 1
  /\ get "message_number" message_data = Some (PJson (JInt (counter self pk + 1)))
  /\ same_peers self'
  /\ (forall q, q <> pk -> counter self' q = counter self q).
Proof.
  intros Hsame Hrun. apply encrypt_data_inv in Hrun.
  destruct Hrun as [[_ [e He]] | [(k & e & _ & He) | (self1 & k & ct & n & Hsel & _ & Hn & -> & Hr)]];
    try discriminate.
  destruct (selected_counter _ _ _ _ _ Hsame Hsel) as (Hsame1 & Hcnt & Hmem).
  assert (Hn' : counter self pk = n).
  { rewrite <- Hcnt. unfold counter, get_default. now rewrite Hn. }
  injection Hr as ->. repeat split.
  - unfold counter at 1. simpl. rewrite get_default_set_same. lia.
  - simpl. now rewrite Hn'.
  - intros q. simpl. rewrite <- Hsame1. destruct (bytes_eqb pk q) eqn:Heq.
    + apply bytes_eqb_eq in Heq. subst q. rewrite mem_set_same. now symmetry.
    + apply mem_set_other. intros ->.
      rewrite (proj2 (bytes_eqb_eq q q)) in Heq; [discriminate | reflexivity].
  - intros q Hq. unfold counter at 1. simpl.
    rewrite get_default_set_other by congruence. apply Hcnt.
Qed.

Lemma encrypt_counter_mono self message pk rnd_key rnd_nonce q :
  same_peers self ->
  counter self q <= counter (fst (encrypt_message self message pk rnd_key rnd_nonce)) q.
Proof.
  intros Hsame. rewrite encrypt_message_fst.
  destruct (encrypt_message_data self message pk rnd_key rnd_nonce) as [self' r] eqn:Hrun.
  simpl. destruct r as [message_data|e].
  - destruct (encrypt_counter_step _ _ _ _ _ _ _ Hsame Hrun) as (Hpk & _ & _ & Hq).
    destruct (bytes_eqb q pk) eqn:Heq.
    + apply bytes_eqb_eq in Heq. subst q. lia.
    + rewrite Hq; [lia|]. intros ->.
      rewrite (proj2 (bytes_eqb_eq pk pk)) in Heq; [discriminate | reflexivity].
  - apply encrypt_data_inv in Hrun.
    destruct Hrun as [[-> _] | [(k & e' & Hsel & _) | (self1 & k & ct & n & _ & _ & _ & _ & Hr)]];
      try discriminate; [lia|].
    destruct (selected_counter _ _ _ _ _ Hsame Hsel) as (_ & Hcnt & _).
    rewrite Hcnt. lia.
Qed.

(** The states [decrypt_message] can leave: the object as it was, or as the
    key selection left it. *)
Lemma decrypt_message_state self encrypted_data rnd_key :
  fst (decrypt_message self encrypted_data rnd_key) = self
  \/ exists p message_key,
       read_payload encrypted_data = Ok p
       /\ selected self (p_public_key p) rnd_key
            (fst (decrypt_message self encrypted_data rnd_key)) message_key.
Proof.
  unfold decrypt_message.
  destruct (read_payload encrypted_data) as [p|e]; [|now left].
  unfold decrypt_payload.
  destruct (select_message_key self (p_public_key p) rnd_key)
    as [[self1 message_key]|e] eqn:Hsel; [|now left].
  right. exists p, message_key. split; [reflexivity|]. simpl.
  now apply select_inv.
Qed.

Lemma decrypt_counter_mono self encrypted_data rnd_key q :
  same_peers self ->
  counter self q <= counter (fst (decrypt_message self encrypted_data rnd_key)) q.
Proof.
  intros Hsame.
  destruct (decrypt_message_state self encrypted_data rnd_key) as [-> | (p & k & _ & Hsel)];
    [lia|].
  destruct (selected_counter _ _ _ _ _ Hsame Hsel) as (_ & Hcnt & _).
  rewrite Hcnt. lia.
Qed.

(** The structure [encrypt_message] builds is not serialised: its
    ['public_key'] is a [bytes] object. *)
Lemma built_structure_raises self message pk rnd_key rnd_nonce self' message_data :
  encrypt_message_data self message pk rnd_key rnd_nonce = (self', Ok message_data) ->
  encrypt_message self message pk rnd_key rnd_nonce = (self', Raise TypeError).
Proof.
  intros Hrun. unfold encrypt_message. rewrite Hrun. cbn [bind].
  apply encrypt_data_inv in Hrun.
  destruct Hrun as [[_ [e He]] | [(k & e & _ & He) | (self1 & k & ct & n & _ & _ & _ & _ & Hr)]];
    try discriminate.
  injection Hr as ->. reflexivity.
Qed.

(** C8 (what the code does instead).  A call of [encrypt_message] that
    reaches the construction of the message structure leaves the peer's
    stored message number one higher than it found it (0 standing for "no
    entry yet") and builds a structure that carries that new number, but
    returns nothing: the serialisation of the structure raises [TypeError],
    so no caller ever sees the number.  The next call for the same peer
    builds the number after it and raises alike.  The counters of the other
    peers are untouched, and no call of [encrypt_message] or
    [decrypt_message] lowers a counter. *)
Theorem message_number_increases_by_one
    (self self' : t) (message pk rnd_key rnd_nonce : bytes)
    (message_data : list (string * pyobj)) :
  same_peers self ->
  encrypt_message_data self message pk rnd_key rnd_nonce = (self', Ok message_data) ->
  encrypt_message self message pk rnd_key rnd_nonce = (self', Raise TypeError)
  /\ counter self' pk = counter self pk + 1
  /\ get "message_number" message_data = Some (PJson (JInt (counter self pk + 1)))
  /\ (forall message2 rnd_key2 rnd_nonce2 self'' message_data2,
        encrypt_message_data self' message2 pk rnd_key2 rnd_nonce2
        = (self'', Ok message_data2) ->
        encrypt_message self' message2 pk rnd_key2 rnd_nonce2 = (self'', Raise TypeError)
        /\ counter self'' pk = counter self' pk + 1
        /\ get "message_number" message_data2
           = Some (PJson (JInt (counter self pk + 2))))
  /\ (forall m k r1 r2, is_ok (snd (encrypt_message self m k r1 r2)) = false)
  /\ (forall q, q <> pk -> counter self' q = counter self q)
  /\ (forall q m k r1 r2,
        counter self q <= counter (fst (encrypt_message self m k r1 r2)) q)
  /\ (forall q data r,
        counter self q <= counter (fst (decrypt_message self data r)) q).
Proof.
  intros Hsame Hrun.
  destruct (encrypt_counter_step _ _ _ _ _ _ _ Hsame Hrun) as (Hpk & Hmd & Hsame' & Hq).
  split; [now apply (built_structure_raises _ _ _ _ _ _ message_data)|].
  split; [exact Hpk|]. split; [exact Hmd|].
  split; [|split; [|split; [exact Hq|split]]].
  - intros message2 rnd_key2 rnd_nonce2 self'' message_data2 Hrun2.
    destruct (encrypt_counter_step _ _ _ _ _ _ _ Hsame' Hrun2) as (Hpk2 & Hmd2 & _ & _).
    split; [now apply (built_structure_raises _ _ _ _ _ _ message_data2)|].
    split; [exact Hpk2|]. rewrite Hmd2, Hpk. do 3 f_equal. lia.
  - intros m k r1 r2.
    destruct (encrypt_message_data self m k r1 r2) as [s [md|e]] eqn:Hrun';
      [now rewrite (built_structure_raises _ _ _ _ _ _ _ Hrun')|].
    unfold encrypt_message. now rewrite Hrun'.
  - intros q m k r1 r2. now apply encrypt_counter_mono.
  - intros q data r. now apply decrypt_counter_mono.
Qed.
End RatchetCounters.

Section RatchetDecrypt.
Context {crypto : CryptoLib} {json : JsonLib}.
Import DoubleRatchet.

Lemma decrypt_message_read self encrypted_data rnd_key p :
  read_payload encrypted_data = Ok p ->
  decrypt_message self encrypted_data rnd_key =
    (fst (decrypt_payload self p rnd_key),
     reraise_as ValueError (snd (decrypt_payload self p rnd_key))).
Proof.
  intros Hp. unfold decrypt_message. rewrite Hp.
  now destruct (decrypt_payload self p rnd_key).
Qed.


(** On an existing session the key is the one drawn from [os.urandom]: the
    call succeeds exactly when AES-GCM accepts the ciphertext under the drawn
    key, and leaves the object as it was. *)
Lemma decrypt_existing_session self encrypted_data rnd_key p chain_key :
  read_payload encrypted_data = Ok p ->
  get (p_public_key p) (chain_keys self) = Some chain_key ->
  decrypt_message self encrypted_data rnd_key
  = (self, reraise_as ValueError (aesgcm_decrypt rnd_key (p_nonce p) (p_ciphertext p))).
Proof.
  intros Hp Hck. rewrite (decrypt_message_read _ _ _ _ Hp).
  unfold decrypt_payload. now rewrite (select_existing _ _ _ _ Hck).
Qed.




End RatchetDecrypt.

(** ** The envelope codec and the broadcast relay *)

Section CodecFacts.
Context {json : JsonLib}.
Import MessageProtocol.

(** C6 (amended).  [parse_message] is total: it returns a value for every
    byte string.  When the bytes do not decode, the value is the envelope
    of type ERROR; when they decode, the value is what the decoder
    returned, unchanged, whether or not it has the fields of an
    envelope. *)
Theorem parse_message_total (data : bytes) :
  (loads data = None ->
   parse_message data
   = JObj [("type", JStr ERROR); ("data", JObj [("error", JStr "Invalid message format")])]
   /\ envelope_type (parse_message data) = Some (JStr ERROR))
  /\ (forall v, loads data = Some v -> parse_message data = v).
Proof.
  unfold parse_message. split.
  - intros ->. split; reflexivity.
  - intros v ->. reflexivity.
Qed.
End CodecFacts.

Section ServerFacts.
Context {json : JsonLib} {hash : HashLib} {runtime : PyRuntime}.
Import MessageProtocol NetworkServer.

Lemma register_client_unjoined self client_socket addr now :
  unjoined (register_client self client_socket addr now) client_socket.
Proof.
  unfold unjoined, register_client. simpl. now rewrite get_set_same.
Qed.

Lemma broadcast_recipients_skip self client_socket response :
  map fst (broadcast self (Some client_socket) response)
  = filter (fun other_socket => negb (Nat.eqb other_socket client_socket))
           (keys (clients self)).
Proof.
  unfold broadcast. rewrite map_map. simpl. apply map_id.
Qed.

Lemma broadcast_recipients_all self response :
  map fst (broadcast self None response) = keys (clients self).
Proof.
  unfold broadcast. rewrite map_map. simpl. rewrite map_id.
  induction (keys (clients self)) as [|k l IH]; simpl; [reflexivity | now rewrite IH].
Qed.

Lemma broadcast_payload self skip response other_socket r :
  In (other_socket, r) (broadcast self skip response) -> r = response.
Proof.
  unfold broadcast. rewrite in_map_iff. intros (o & [= _ <-] & _). reflexivity.
Qed.

Lemma broadcast_skip_in self client_socket response other_socket :
  In (other_socket, response) (broadcast self (Some client_socket) response)
  <-> In other_socket (keys (clients self)) /\ other_socket <> client_socket.
Proof.
  unfold broadcast. rewrite in_map_iff. split.
  - intros (o & [= ->] & Hin). apply filter_In in Hin as [Hin Hne].
    split; [exact Hin|]. intros ->. now rewrite Nat.eqb_refl in Hne.
  - intros [Hin Hne]. exists other_socket. split; [reflexivity|].
    apply filter_In. split; [exact Hin|].
    apply negb_true_iff. now apply Nat.eqb_neq.
Qed.

Lemma broadcast_skip_not_sender self client_socket response r :
  ~ In (client_socket, r) (broadcast self (Some client_socket) response).
Proof.
  unfold broadcast. rewrite in_map_iff. intros (o & [= -> _] & Hin).
  apply filter_In in Hin as [_ Hne]. now rewrite Nat.eqb_refl in Hne.
Qed.

Lemma broadcast_all_in self response other_socket :
  In (other_socket, response) (broadcast self None response)
  <-> In other_socket (keys (clients self)).
Proof.
  unfold broadcast. rewrite in_map_iff. split.
  - intros (o & [= ->] & Hin). now apply filter_In in Hin as [Hin _].
  - intros Hin. exists other_socket. split; [reflexivity|].
    apply filter_In. now split.
Qed.

Lemma handle_message_joined self client_socket info message data t_default t_msg :
  joined self client_socket info ->
  py_get message "data" (JObj []) = Ok (JObj data) ->
  _handle_message self client_socket message t_default t_msg
  = done self (broadcast self (Some client_socket)
                 (message_envelope info data t_default t_msg)).
Proof.
  intros [Hget Huid] Hdata. unfold _handle_message.
  rewrite Hdata, Hget, Huid. reflexivity.
Qed.

Lemma handle_image_joined self client_socket info message data t_default t_msg :
  joined self client_socket info ->
  py_get message "data" (JObj []) = Ok (JObj data) ->
  _handle_image self client_socket message t_default t_msg
  = done self (broadcast self (Some client_socket)
                 (image_envelope info data t_default t_msg)).
Proof.
  intros [Hget Huid] Hdata. unfold _handle_image.
  rewrite Hdata, Hget, Huid. reflexivity.
Qed.

Lemma handle_create_thread_joined self client_socket info message data thread_id
    t_id t_exp t_created t_msg :
  joined self client_socket info ->
  py_get message "data" (JObj []) = Ok (JObj data) ->
  thread_digest (get_default "thread_name" JNull data)
                (get_default "creator_id" JNull data) t_id = Ok thread_id ->
  _handle_create_thread self client_socket message t_id t_exp t_created t_msg
  = let self' :=
      with_threads self
        (set thread_id
           (mk_thread (get_default "thread_name" JNull data)
                      (get_default "is_private" (JBool false) data)
                      t_created (created_expiry thread_id t_exp)
                      (get_default "creator_id" JNull data))
           (threads self)) in
    done self' (broadcast self' None (thread_envelope info data thread_id t_exp t_msg)).
Proof.
  intros [Hget Huid] Hdata Hid. unfold _handle_create_thread.
  rewrite Hdata, Hget, Huid. simpl. rewrite Hid. reflexivity.
Qed.
End ServerFacts.

Section ServerClaims.
Context {json : JsonLib} {hash : HashLib} {runtime : PyRuntime}.
Import MessageProtocol NetworkServer.

(** C5 (what the code does).  From a joined connection whose envelope carries
    a dict as its data: a MESSAGE and an IMAGE leave the server as it is and
    are sent, enriched with the sender's id and username, to every other
    registered connection, in registry order, and never to the connection
    they came from; a CREATE_THREAD (whose thread id could be derived) is
    sent to every registered connection, the one it came from included: the
    loop of [_handle_create_thread] lacks the test on [client_socket] that
    the loops of [_handle_message] and [_handle_image] make. *)
Theorem broadcast_reaches_the_others
    (self : t) (client_socket : socket) (info : client_info) (message : jvalue)
    (data : list (string * jvalue)) (thread_id : string)
    (t0 t1 t2 t3 : pyfloat) :
  joined self client_socket info ->
  py_get message "data" (JObj []) = Ok (JObj data) ->
  thread_digest (get_default "thread_name" JNull data)
                (get_default "creator_id" JNull data) t0 = Ok thread_id ->
  (let out := _handle_message self client_socket message t0 t1 in
   server out = self /\ raised out = None
   /\ recipients out
      = filter (fun other_socket => negb (Nat.eqb other_socket client_socket))
               (keys (clients self))
   /\ (forall other_socket,
         In other_socket (keys (clients self)) -> other_socket <> client_socket ->
         In (other_socket, message_envelope info data t0 t1) (sent out))
   /\ (forall r, ~ In (client_socket, r) (sent out)))
  /\ (let out := _handle_image self client_socket message t0 t1 in
      server out = self /\ raised out = None
      /\ recipients out
         = filter (fun other_socket => negb (Nat.eqb other_socket client_socket))
                  (keys (clients self))
      /\ (forall other_socket,
            In other_socket (keys (clients self)) -> other_socket <> client_socket ->
            In (other_socket, image_envelope info data t0 t1) (sent out))
      /\ (forall r, ~ In (client_socket, r) (sent out)))
  /\ (let out := _handle_create_thread self client_socket message t0 t1 t2 t3 in
      clients (server out) = clients self /\ raised out = None
      /\ recipients out = keys (clients self)
      /\ (forall other_socket,
            In other_socket (keys (clients self)) ->
            In (other_socket, thread_envelope info data thread_id t1 t3) (sent out))
      /\ In (client_socket, thread_envelope info data thread_id t1 t3) (sent out)).
Proof.
  intros Hjoined Hdata Hid. split; [|split].
  - rewrite (handle_message_joined _ _ _ _ _ _ _ Hjoined Hdata). cbn zeta.
    unfold recipients. simpl.
    split; [reflexivity|]. split; [reflexivity|].
    split; [apply broadcast_recipients_skip|]. split.
    + intros o Hin Hne. now apply broadcast_skip_in.
    + intros r. apply broadcast_skip_not_sender.
  - rewrite (handle_image_joined _ _ _ _ _ _ _ Hjoined Hdata). cbn zeta.
    unfold recipients. simpl.
    split; [reflexivity|]. split; [reflexivity|].
    split; [apply broadcast_recipients_skip|]. split.
    + intros o Hin Hne. now apply broadcast_skip_in.
    + intros r. apply broadcast_skip_not_sender.
  - rewrite (handle_create_thread_joined _ _ _ _ _ _ _ _ _ _ Hjoined Hdata Hid).
    cbn zeta. unfold recipients. simpl.
    split; [reflexivity|]. split; [reflexivity|].
    split; [apply (broadcast_recipients_all (with_threads self _))|]. split.
    + intros o Hin. now apply (broadcast_all_in (with_threads self _)).
    + apply (broadcast_all_in (with_threads self _)). simpl.
      destruct Hjoined as [Hget _]. now apply get_in_keys in Hget.
Qed.

(** C9.  A MESSAGE, IMAGE or CREATE_THREAD envelope that arrives on a
    connection with no user id bound (or with no registry entry) is dropped:
    each of the three handlers, the dispatcher that calls them and the
    receive step return with the server unchanged, no [send] made and no
    exception raised. *)
Theorem unjoined_requests_are_dropped
    (self : t) (client_socket : socket) (envelope : list (string * jvalue))
    (t0 t1 t2 t3 : pyfloat) :
  unjoined self client_socket ->
  _handle_message self client_socket (JObj envelope) t0 t1 = done self []
  /\ _handle_image self client_socket (JObj envelope) t0 t1 = done self []
  /\ _handle_create_thread self client_socket (JObj envelope) t0 t1 t2 t3 = done self []
  /\ (forall ty clock send_raises,
        get "type" envelope = Some (JStr ty) ->
        ty = MESSAGE \/ ty = IMAGE \/ ty = CREATE_THREAD ->
        _process_message self client_socket (JObj envelope) clock send_raises
        = done self []
        /\ (forall c rest,
              loads (c :: rest) = Some (JObj envelope) ->
              on_receive self client_socket (c :: rest) clock send_raises
              = done self [])).
Proof.
  intros Hun. unfold unjoined in Hun.
  assert (Hm : forall t t', _handle_message self client_socket (JObj envelope) t t'
                            = done self []).
  { intros t t'. unfold _handle_message. simpl.
    destruct (get client_socket (clients self)) as [info|]; [|reflexivity].
    now rewrite Hun. }
  assert (Hi : forall t t', _handle_image self client_socket (JObj envelope) t t'
                            = done self []).
  { intros t t'. unfold _handle_image. simpl.
    destruct (get client_socket (clients self)) as [info|]; [|reflexivity].
    now rewrite Hun. }
  assert (Hc : forall a b c d,
             _handle_create_thread self client_socket (JObj envelope) a b c d
             = done self []).
  { intros a b c d. unfold _handle_create_thread. simpl.
    destruct (get client_socket (clients self)) as [info|]; [|reflexivity].
    now rewrite Hun. }
  split; [apply Hm|]. split; [apply Hi|]. split; [apply Hc|].
  intros ty clock send_raises Hty Hkind.
  assert (Hp : _process_message self client_socket (JObj envelope) clock send_raises
               = done self []).
  { unfold _process_message, py_get, get_default. rewrite Hty.
    destruct Hkind as [-> | [-> | ->]]; simpl; auto. }
  split; [exact Hp|].
  intros c rest Hloads. unfold on_receive, parse_message. rewrite Hloads, Hp.
  reflexivity.
Qed.
End ServerClaims.

(** ** The ephemeral store *)

Section DictUnique.
Context {K V : Type} {E : EqKey K}.
Implicit Types (k : K) (v : V) (d : dict K V).

Lemma get_none_not_in k d : get k d = None -> ~ In k (keys d).
Proof.
  unfold keys. induction d as [|[k' v'] d IH]; simpl; [tauto|].
  destruct (keq k k') eqn:Heq; [discriminate|].
  intros Hg [-> | Hin]; [now rewrite keq_refl in Heq | now apply IH].
Qed.

Lemma not_in_get_none k d : ~ In k (keys d) -> get k d = None.
Proof.
  intros Hni. destruct (get k d) eqn:Hg; [|reflexivity].
  now apply get_in_keys in Hg.
Qed.

Lemma in_keys_set k k' v d : In k' (keys (set k v d)) -> k' = k \/ In k' (keys d).
Proof.
  unfold keys. induction d as [|[k0 v0] d IH]; simpl.
  - intros [<- | []]. now left.
  - destruct (keq k k0) eqn:Heq; simpl.
    + intros [<- | Hin]; right; [now left | now right].
    + intros [<- | Hin]; [right; now left|].
      destruct (IH Hin) as [-> | Hin']; [now left | right; now right].
Qed.

Lemma in_keys_del k k' d : In k' (keys (del k d)) -> In k' (keys d).
Proof.
  unfold keys. induction d as [|[k0 v0] d IH]; simpl; [tauto|].
  destruct (keq k k0); simpl; [now right|].
  intros [<- | Hin]; [now left | right; now apply IH].
Qed.

Lemma nodup_set k v d : NoDup (keys d) -> NoDup (keys (set k v d)).
Proof.
  unfold keys. induction d as [|[k0 v0] d IH]; simpl; intros Hnd.
  - constructor; [tauto | constructor].
  - inversion Hnd as [|? ? Hni Hnd']; subst.
    destruct (keq k k0) eqn:Heq; simpl; constructor; auto.
    intros Hin. apply in_keys_set in Hin as [-> | Hin]; [|contradiction].
    now rewrite keq_refl in Heq.
Qed.

Lemma nodup_del k d : NoDup (keys d) -> NoDup (keys (del k d)).
Proof.
  unfold keys. induction d as [|[k0 v0] d IH]; simpl; intros Hnd; [constructor|].
  inversion Hnd as [|? ? Hni Hnd']; subst.
  destruct (keq k k0); simpl; [exact Hnd'|].
  constructor; auto. intros Hin. now apply in_keys_del in Hin.
Qed.

Lemma get_del_same k d : NoDup (keys d) -> get k (del k d) = None.
Proof.
  unfold keys. induction d as [|[k0 v0] d IH]; simpl; intros Hnd; [reflexivity|].
  inversion Hnd as [|? ? Hni Hnd']; subst.
  destruct (keq k k0) eqn:Heq; simpl.
  - apply keq_eq in Heq. subst k0. now apply not_in_get_none.
  - rewrite Heq. now apply IH.
Qed.

Lemma get_del_none k k' d : get k d = None -> get k (del k' d) = None.
Proof.
  intros Hg. apply not_in_get_none. intros Hin.
  apply in_keys_del in Hin. now apply get_none_not_in in Hg.
Qed.
End DictUnique.

Section ImageFacts.
Context {hash : HashLib}.
Import ImageManager.

Lemma in_items_get {V : Type} (k : string) (v : V) (d : dict string V) :
  NoDup (keys d) -> In (k, v) d -> get k d = Some v.
Proof.
  unfold keys. induction d as [|[k0 v0] d IH]; simpl; [tauto|].
  intros Hnd [Heq | Hin].
  - injection Heq as -> ->. now rewrite String.eqb_refl.
  - inversion Hnd as [|? ? Hni Hnd']; subst.
    destruct (String.eqb k k0) eqn:Hk.
    + apply String.eqb_eq in Hk. subst k0. exfalso. apply Hni.
      change k with (fst (k, v)). now apply in_map.
    + now apply IH.
Qed.

Lemma get_in_items {V : Type} (k : string) (v : V) (d : dict string V) :
  get k d = Some v -> In (k, v) d.
Proof.
  induction d as [|[k0 v0] d IH]; simpl; [discriminate|].
  destruct (String.eqb k k0) eqn:Hk.
  - apply String.eqb_eq in Hk. subst k0. intros [= ->]. now left.
  - intros Hg. right. now apply IH.
Qed.

Lemma store_image_ok self fs image_data sender_id thread_id ts now1 now2
    self1 fs1 image_id :
  store_image self fs image_data sender_id thread_id ts now1 now2
  = (self1, fs1, Ok image_id) ->
  let p := path_join (temp_dir self) (image_id ++ ".jpg")%string in
  self1 = with_images self
            (set image_id (mk_info p sender_id thread_id now1 (now2 + half_hour))
                 (images self))
  /\ fs1 = set p image_data fs.
Proof.
  unfold store_image.
  destruct (image_digest image_data sender_id ts) as [i|e]; [|discriminate].
  change (Datetime.minutes 30) with (@Ok Z half_hour). simpl bind.
  unfold Datetime.add.
  destruct ((0 <=? now2 + half_hour) && (now2 + half_hour <=? Datetime.max_datetime));
    [|discriminate].
  intros [= <- <- <-]. split; reflexivity.
Qed.

Lemma delete_image_nodup self fs image_id :
  NoDup (keys (images self)) -> NoDup (keys fs) ->
  NoDup (keys (images (fst (_delete_image self fs image_id))))
  /\ NoDup (keys (snd (_delete_image self fs image_id))).
Proof.
  intros Hi Hf. unfold _delete_image.
  destruct (get image_id (images self)); simpl; [|now split].
  split; now apply nodup_del.
Qed.

Lemma delete_image_released self fs image_id k p :
  released (self, fs) k p -> released (_delete_image self fs image_id) k p.
Proof.
  intros [Hk Hp]. unfold _delete_image, released.
  destruct (get image_id (images self)); simpl; [|now split].
  split; now apply get_del_none.
Qed.

Lemma delete_image_same self fs image_id info :
  NoDup (keys (images self)) -> NoDup (keys fs) ->
  get image_id (images self) = Some info ->
  released (_delete_image self fs image_id) image_id (path info).
Proof.
  intros Hi Hf Hg. unfold _delete_image, released. rewrite Hg. simpl.
  split; now apply get_del_same.
Qed.

Lemma delete_image_other self fs image_id k :
  k <> image_id ->
  get k (images (fst (_delete_image self fs image_id))) = get k (images self).
Proof.
  intros Hne. unfold _delete_image.
  destruct (get image_id (images self)); simpl; [|reflexivity].
  apply get_del_other. congruence.
Qed.

Lemma delete_all_cons self fs image_id ids :
  delete_all self fs (image_id :: ids)
  = delete_all (fst (_delete_image self fs image_id))
               (snd (_delete_image self fs image_id)) ids.
Proof.
  unfold delete_all. simpl. now destruct (_delete_image self fs image_id).
Qed.

(** An image that is on the list, or already released, is released when the
    list has been worked through. *)
Lemma delete_all_releases k info ids :
  forall self fs,
    NoDup (keys (images self)) -> NoDup (keys fs) ->
    released (self, fs) k (path info)
    \/ (get k (images self) = Some info /\ In k ids) ->
    released (delete_all self fs ids) k (path info).
Proof.
  induction ids as [|image_id ids IH]; intros self fs Hi Hf Hcase.
  - destruct Hcase as [Hrel | [_ []]]. exact Hrel.
  - rewrite delete_all_cons.
    destruct (delete_image_nodup self fs image_id Hi Hf) as [Hi' Hf'].
    apply IH; auto.
    destruct Hcase as [Hrel | [Hg Hin]].
    + left. rewrite <- surjective_pairing. now apply delete_image_released.
    + destruct (String.eqb k image_id) eqn:Hk.
      * apply String.eqb_eq in Hk. subst image_id. left.
        rewrite <- surjective_pairing. now apply delete_image_same.
      * apply String.eqb_neq in Hk. right. split.
        -- now rewrite delete_image_other.
        -- destruct Hin as [-> | Hin]; [contradiction | exact Hin].
Qed.

(** An image that is not on the list keeps its entry. *)
Lemma delete_all_keeps k ids :
  forall self fs,
    ~ In k ids ->
    get k (images (fst (delete_all self fs ids))) = get k (images self).
Proof.
  induction ids as [|image_id ids IH]; intros self fs Hni; [reflexivity|].
  rewrite delete_all_cons, IH by (intros Hin; apply Hni; now right).
  apply delete_image_other. intros ->. apply Hni. now left.
Qed.

Lemma gtb_le (x y : Z) : x <= y -> (x >? y) = false.
Proof. intros Hle. rewrite Z.gtb_ltb. now apply Z.ltb_ge. Qed.

Lemma gtb_lt (x y : Z) : y < x -> (x >? y) = true.
Proof. intros Hlt. rewrite Z.gtb_ltb. now apply Z.ltb_lt. Qed.

(** C4 (amended).  An image stored at the clock readings [now1] (its
    [created_at]) and [now2] (from which [expires_at = now2 + 30 min] is
    computed) expires not earlier than [created_at + 30 min] exactly when
    the second reading is not earlier than the first, as on a clock that
    does not go back.  It is returned by [get_image] at every instant up to
    and including [expires_at], and is "not found" at every instant strictly
    after it; the expired access removes the entry and the file, and so does
    a cleanup pass that runs strictly after [expires_at], while an earlier
    pass keeps the entry. *)
Theorem image_expires_after_half_an_hour
    (self self1 : t) (fs fs1 : filesystem) (image_data : bytes)
    (sender_id thread_id image_id : string) (ts : pyfloat)
    (now1 now2 : Datetime.datetime) :
  NoDup (keys (images self)) -> NoDup (keys fs) ->
  store_image self fs image_data sender_id thread_id ts now1 now2
  = (self1, fs1, Ok image_id) ->
  exists info,
    get image_id (images self1) = Some info
    /\ created_at info = now1
    /\ expires_at info = now2 + half_hour
    /\ (now1 <= now2 <-> created_at info + half_hour <= expires_at info)
    /\ (forall now, now <= expires_at info ->
          get_image self1 fs1 image_id now = (self1, fs1, Some image_data))
    /\ (forall now, expires_at info < now ->
          snd (get_image self1 fs1 image_id now) = None
          /\ released (fst (get_image self1 fs1 image_id now)) image_id (path info))
    /\ (forall now, expires_at info < now ->
          released (cleanup_pass self1 fs1 now) image_id (path info))
    /\ (forall now, now <= expires_at info ->
          get image_id (images (fst (cleanup_pass self1 fs1 now))) = Some info).
Proof.
  intros Hi Hf Hstore. apply store_image_ok in Hstore as [-> ->].
  set (p := path_join (temp_dir self) (image_id ++ ".jpg")%string).
  set (info := mk_info p sender_id thread_id now1 (now2 + half_hour)).
  set (self1 := with_images self (set image_id info (images self))).
  set (fs1 := set p image_data fs).
  assert (Hg : get image_id (images self1) = Some info) by apply get_set_same.
  assert (Hi1 : NoDup (keys (images self1))) by now apply nodup_set.
  assert (Hf1 : NoDup (keys fs1)) by now apply nodup_set.
  exists info. split; [exact Hg|]. split; [reflexivity|]. split; [reflexivity|].
  split; [cbn [created_at expires_at info]; lia|].
  split; [|split; [|split]].
  - intros now Hle. unfold get_image. rewrite Hg.
    rewrite (gtb_le _ _ Hle).
    unfold fs1. now rewrite get_set_same.
  - intros now Hlt. unfold get_image. rewrite Hg.
    rewrite (gtb_lt _ _ Hlt).
    pose proof (delete_image_same self1 fs1 image_id info Hi1 Hf1 Hg) as Hrel.
    destruct (_delete_image self1 fs1 image_id) as [self2 fs2]. now split.
  - intros now Hlt. unfold cleanup_pass.
    apply delete_all_releases; auto. right. split; [exact Hg|].
    apply in_map_iff. exists (image_id, info). split; [reflexivity|].
    apply filter_In. split.
    + now apply get_in_items.
    + simpl. now apply gtb_lt.
  - intros now Hle. unfold cleanup_pass. rewrite delete_all_keeps; [exact Hg|].
    intros Hin. apply in_map_iff in Hin as ([k info'] & Hk & Hin). simpl in Hk. subst k.
    apply filter_In in Hin as [Hin Hexp]. simpl in Hexp.
    apply (in_items_get _ _ _ Hi1) in Hin. rewrite Hg in Hin. injection Hin as <-.
    rewrite Z.gtb_ltb in Hexp. apply Z.ltb_lt in Hexp. simpl in Hexp, Hle. lia.
Qed.
End ImageFacts.

Section ThreadFacts.
Import ChatThread.

Lemma thread_init_ok thread_id name is_private creator_id expires_hours now0 thread :
  __init__ thread_id name is_private creator_id expires_hours now0 = Ok thread ->
  created_at thread = now0
  /\ expires_at thread
     = if negb (thread_id =? "main")%string && (expires_hours >? 0)
       then Some (now0 + expires_hours * hour) else None.
Proof.
  unfold __init__.
  destruct (negb (thread_id =? "main")%string && (expires_hours >? 0)).
  - unfold Datetime.hours, Datetime.timedelta_of.
    destruct (_ && _); simpl; [|discriminate].
    unfold Datetime.add. destruct (_ && _); [|discriminate].
    intros [= <-]. split; reflexivity.
  - intros [= <-]. split; reflexivity.
Qed.

Lemma main_thread_never_expires name is_private creator_id expires_hours now0 :
  exists thread,
    __init__ "main" name is_private creator_id expires_hours now0 = Ok thread
    /\ expires_at thread = None.
Proof. eexists. split; reflexivity. Qed.

Lemma delete_thread_keeps_main self thread_id :
  get "main" (ChatManager.threads (fst (ChatManager._delete_thread self thread_id)))
  = get "main" (ChatManager.threads self).
Proof.
  unfold ChatManager._delete_thread.
  destruct (get thread_id (ChatManager.threads self)) as [thread|]; [|reflexivity].
  destruct (thread_id =? "main")%string eqn:Hmain; simpl; [reflexivity|].
  apply String.eqb_neq in Hmain.
  destruct (ChatManager.current_thread_id self =? thread_id)%string; simpl;
    now apply get_del_other.
Qed.

Lemma delete_expired_keeps_main expired :
  forall st,
    get "main" (ChatManager.threads (fst (fold_left ChatManager.delete_step expired st)))
    = get "main" (ChatManager.threads (fst st)).
Proof.
  induction expired as [|thread_id expired IH]; intros st; [reflexivity|].
  simpl. rewrite IH. unfold ChatManager.delete_step.
  destruct (negb (thread_id =? "main")%string); [|reflexivity].
  pose proof (delete_thread_keeps_main (fst st) thread_id) as Hkeep.
  now destruct (ChatManager._delete_thread (fst st) thread_id).
Qed.

Lemma cleanup_pass_keeps_main self clock :
  get "main" (ChatManager.threads (fst (ChatManager.cleanup_pass self clock)))
  = get "main" (ChatManager.threads self).
Proof. apply (delete_expired_keeps_main _ (self, [])). Qed.

(** C7.  A thread that was constructed: with [expires_hours = 0] it never
    answers [is_expired()] with true; with a positive [expires_hours] it
    answers true only at clock readings after [created_at + expires_hours]
    hours (and, unless it is "main", at every such reading); the thread
    "main" never answers true.  A turn of the cleanup loop leaves the
    entry of "main" in the registry as it found it, whatever the clock
    reads. *)
Theorem thread_expiry_and_main_exemption
    (thread_id name : string) (is_private : bool) (creator_id : option string)
    (expires_hours : Z) (now0 : Datetime.datetime) (thread : t) :
  __init__ thread_id name is_private creator_id expires_hours now0 = Ok thread ->
  (expires_hours = 0 -> forall now, is_expired thread now = false)
  /\ (0 < expires_hours ->
      forall now, is_expired thread now = true ->
                  created_at thread + expires_hours * hour < now)
  /\ (0 < expires_hours -> thread_id <> "main" ->
      forall now, is_expired thread now = true
                  <-> created_at thread + expires_hours * hour < now)
  /\ (thread_id = "main" -> forall now, is_expired thread now = false)
  /\ (forall (self : ChatManager.t) (clock : nat -> Datetime.datetime),
        get "main" (ChatManager.threads (fst (ChatManager.cleanup_pass self clock)))
        = get "main" (ChatManager.threads self)).
Proof.
  intros Hinit. apply thread_init_ok in Hinit as [Hcreated Hexp].
  unfold is_expired. rewrite Hexp, Hcreated.
  split; [|split; [|split; [|split]]].
  - intros -> now. now rewrite andb_false_r.
  - intros Hpos now.
    destruct (negb (thread_id =? "main")%string && (expires_hours >? 0));
      [|discriminate].
    rewrite Z.gtb_ltb. apply Z.ltb_lt.
  - intros Hpos Hmain now. apply String.eqb_neq in Hmain. rewrite Hmain.
    rewrite (gtb_lt _ _ Hpos). simpl. rewrite Z.gtb_ltb. apply Z.ltb_lt.
  - intros -> now. reflexivity.
  - intros self clock. apply cleanup_pass_keeps_main.
Qed.
End ThreadFacts.

Section ManagerFacts.
Context {hash : HashLib}.
Import ChatManager.

Lemma init_ok now :
  exists self, __init__ now = Ok self
               /\ registry_ok self /\ current_thread_id self = "main".
Proof. eexists. split; [reflexivity|]. repeat split. Qed.

Lemma registry_ok_threads (self self' : t) :
  registry_ok self ->
  current_thread_id self' = current_thread_id self ->
  (forall k, mem k (threads self) = true -> mem k (threads self') = true) ->
  registry_ok self'.
Proof.
  intros [Hmain Hcur] Hid Hmono. split; [now apply Hmono|].
  rewrite Hid. now apply Hmono.
Qed.

Lemma delete_thread_ok self thread_id :
  registry_ok self -> registry_ok (fst (_delete_thread self thread_id)).
Proof.
  intros [Hmain Hcur]. unfold _delete_thread.
  destruct (get thread_id (threads self)) as [thread|]; [|now split].
  destruct (thread_id =? "main")%string eqn:Hm; cbn [negb fst]; [now split|].
  apply String.eqb_neq in Hm.
  assert (Hmain' : mem "main" (del thread_id (threads self)) = true)
    by now rewrite mem_del_other.
  unfold registry_ok.
  destruct (current_thread_id (with_threads self (del thread_id (threads self)))
            =? thread_id)%string eqn:Hc;
    cbn [threads current_thread_id with_threads with_current] in *.
  - now split.
  - apply String.eqb_neq in Hc. split; [exact Hmain'|].
    rewrite mem_del_other; [exact Hcur | congruence].
Qed.

Lemma delete_expired_ok expired :
  forall st, registry_ok (fst st) -> registry_ok (fst (fold_left delete_step expired st)).
Proof.
  induction expired as [|thread_id expired IH]; intros st Hok; [exact Hok|].
  simpl. apply IH. unfold delete_step.
  destruct (negb (thread_id =? "main")%string); [|exact Hok].
  pose proof (delete_thread_ok (fst st) thread_id Hok) as Hok'.
  now destruct (_delete_thread (fst st) thread_id).
Qed.

Lemma add_to_thread_ok self thread_id thread :
  registry_ok self ->
  registry_ok (with_threads self (set thread_id thread (threads self))).
Proof.
  intros Hok. apply (registry_ok_threads self); auto.
  intros k Hk. now apply mem_set_mono.
Qed.

Lemma run_ok c self fs : registry_ok self -> registry_ok (fst (run c self fs)).
Proof.
  intros Hok. destruct c; simpl.
  - exact Hok.
  - unfold stop. destruct (ImageManager.stop (image_manager self) fs). exact Hok.
  - unfold create_thread.
    destruct (thread_id <- thread_digest (JStr name) (opt_str creator_id) ts ;;
              thread <- ChatThread.__init__ thread_id name is_private creator_id 12 now ;;
              Ok (thread_id, thread)) as [[thread_id thread]|e]; simpl; [|exact Hok].
    now apply add_to_thread_ok.
  - unfold add_message.
    destruct (get _ (threads self)); simpl; [|exact Hok].
    now apply add_to_thread_ok.
  - unfold add_image_message.
    destruct (get _ (threads self)); simpl; [|exact Hok].
    destruct (ImageManager.store_image _ _ _ _ _ _ _ _) as [[im fs'] [image_id|e]];
      simpl; [|exact Hok].
    apply (add_to_thread_ok (with_images self im)). exact Hok.
  - unfold set_current_thread.
    destruct (mem thread_id (threads self)) eqn:Hm; [|exact Hok].
    destruct Hok as [Hmain _]. split; [exact Hmain | exact Hm].
  - exact Hok.
  - exact Hok.
  - unfold cleanup_pass, delete_expired. now apply delete_expired_ok.
  - now apply delete_thread_ok.
Qed.

(** C10.  A constructed [ChatManager] holds "main" in its registry and has
    it selected; every state-changing operation keeps "main" in the registry
    and keeps the selected id on a registered thread, so both hold of every
    manager a program can reach; [set_current_thread] on an id that is not
    registered changes nothing; deleting the selected thread selects
    "main". *)
Theorem main_and_current_thread_registered :
  (forall now, exists self,
      __init__ now = Ok self /\ registry_ok self /\ current_thread_id self = "main")
  /\ (forall c self fs, registry_ok self -> registry_ok (fst (run c self fs)))
  /\ (forall self, reachable self -> registry_ok self)
  /\ (forall self thread_id,
        mem thread_id (threads self) = false ->
        set_current_thread self thread_id = self)
  /\ (forall self thread_id,
        mem thread_id (threads self) = true ->
        current_thread_id (set_current_thread self thread_id) = thread_id)
  /\ (forall self thread_id,
        thread_id <> "main" ->
        mem thread_id (threads self) = true ->
        current_thread_id self = thread_id ->
        current_thread_id (fst (_delete_thread self thread_id)) = "main").
Proof.
  split; [exact init_ok|]. split; [exact run_ok|]. split; [|split; [|split]].
  - intros self Hreach. induction Hreach as [now self Hinit | c self fs _ IH].
    + destruct (init_ok now) as (self' & Hinit' & Hok & _).
      rewrite Hinit in Hinit'. injection Hinit' as ->. exact Hok.
    + now apply run_ok.
  - intros self thread_id Hm. unfold set_current_thread. now rewrite Hm.
  - intros self thread_id Hm. unfold set_current_thread. now rewrite Hm.
  - intros self thread_id Hne Hm Hcur. unfold _delete_thread.
    apply mem_get in Hm as [thread Hget]. rewrite Hget.
    apply String.eqb_neq in Hne. rewrite Hne. simpl.
    rewrite Hcur, String.eqb_refl. reflexivity.
Qed.
End ManagerFacts.

(** ** More on the ratchet engine *)

Section RatchetMore.
Context {crypto : CryptoLib} {json : JsonLib}.
Import DoubleRatchet.

Lemma hex_byte_decodes (c : byte) (s : string) :
  fromhex (String (hex_digit (Byte.to_N c / 16))
             (String (hex_digit (Byte.to_N c mod 16)) s))
  = match fromhex s with Some rest => Some (c :: rest) | None => None end.
Proof. destruct c; reflexivity. Qed.

Lemma fromhex_hex (x : bytes) : fromhex (hex x) = Some x.
Proof.
  induction x as [|c x IH]; [reflexivity|].
  cbn [hex]. now rewrite hex_byte_decodes, IH.
Qed.

(** X1.  The reader of [decrypt_message] inverts the hexadecimal coding of the
    fields: a payload that decodes to the public key, nonce and ciphertext
    in hexadecimal and a message number is read as these very bytes, and the
    call then selects its key for that public key. *)
Theorem payload_fields_round_trip
    (encrypted_data pk nonce ct : bytes) (number : jvalue) :
  loads encrypted_data
  = Some (JObj [("public_key", JStr (hex pk)); ("message_number", number);
                ("nonce", JStr (hex nonce)); ("ciphertext", JStr (hex ct))]) ->
  read_payload encrypted_data = Ok (mk_payload pk number nonce ct)
  /\ forall self rnd_key,
       decrypt_message self encrypted_data rnd_key
       = (fst (decrypt_payload self (mk_payload pk number nonce ct) rnd_key),
          reraise_as ValueError
            (snd (decrypt_payload self (mk_payload pk number nonce ct) rnd_key))).
Proof.
  intros Hloads.
  assert (Hread : read_payload encrypted_data = Ok (mk_payload pk number nonce ct)).
  { unfold read_payload. rewrite Hloads. cbn [or_raise bind].
    change (py_item _ "public_key") with (Ok (JStr (hex pk))).
    change (py_item _ "message_number") with (Ok number).
    change (py_item _ "nonce") with (Ok (JStr (hex nonce))).
    change (py_item _ "ciphertext") with (Ok (JStr (hex ct))).
    cbn [bind fromhex_value]. rewrite !fromhex_hex. reflexivity. }
  split; [exact Hread|]. intros self rnd_key. now apply decrypt_message_read.
Qed.

(** X3.  A session is opened before anything is authenticated.  A payload that can
    be read and names a public key with no chain makes [decrypt_message]
    advance the root key and store a chain for that key, whether or not the
    ciphertext is then accepted; every later payload that names the key is
    handed to AES-GCM under the key drawn from [os.urandom]. *)
Theorem session_is_opened_before_authentication
    (self : t) (encrypted_data rnd_key shared_secret : bytes) (p : payload) :
  read_payload encrypted_data = Ok p ->
  mem (p_public_key p) (chain_keys self) = false ->
  perform_dh self (p_public_key p) = Ok shared_secret ->
  let self' := fst (decrypt_message self encrypted_data rnd_key) in
  mem (p_public_key p) (chain_keys self') = true
  /\ root_key self' = kdf_root_key (root_key self) shared_secret
  /\ (forall later rnd_later p',
        read_payload later = Ok p' ->
        p_public_key p' = p_public_key p ->
        decrypt_message self' later rnd_later
        = (self', reraise_as ValueError
                    (aesgcm_decrypt rnd_later (p_nonce p') (p_ciphertext p')))).
Proof.
  intros Hp Hmem Hdh. cbn zeta.
  rewrite (decrypt_message_read _ _ _ _ Hp). cbn [fst].
  assert (Hrun : fst (decrypt_payload self p rnd_key)
                 = mk (dh_ratchet self)
                      (kdf_root_key (root_key self) shared_secret)
                      (set (p_public_key p)
                         (fst (kdf_chain_key
                                 (kdf_root_key (root_key self) shared_secret)
                                 shared_secret))
                         (chain_keys self))
                      (set (p_public_key p) 0 (message_numbers self))
                      (set (p_public_key p) [] (skip_message_keys self))).
  { unfold decrypt_payload. now rewrite (select_first _ _ _ _ Hmem Hdh). }
  rewrite Hrun. cbn [chain_keys root_key].
  split; [apply mem_set_same|]. split; [reflexivity|].
  intros later rnd_later p' Hp' Hpk.
  apply (decrypt_existing_session _ _ _ _
           (fst (kdf_chain_key (kdf_root_key (root_key self) shared_secret) shared_secret)) Hp').
  rewrite Hpk. cbn [chain_keys]. apply get_set_same.
Qed.

Lemma bytes_neq (x y : bytes) : bytes_eqb x y = false -> x <> y.
Proof.
  intros Hf ->. rewrite (proj2 (bytes_eqb_eq y y) eq_refl) in Hf. discriminate.
Qed.

(** What the key selection keeps. *)
Lemma selected_keeps self pk rnd_key self1 message_key :
  selected self pk rnd_key self1 message_key ->
  dh_ratchet self1 = dh_ratchet self
  /\ (forall q chain_key, get q (chain_keys self) = Some chain_key ->
                          get q (chain_keys self1) = Some chain_key)
  /\ (aligned self -> aligned self1).
Proof.
  intros [Hmem | ss Hmem Hdh root_key']; [split; [reflexivity | split; auto]|].
  split; [reflexivity|]. split.
  - intros q chain_key Hq. cbn [chain_keys].
    destruct (bytes_eqb pk q) eqn:Heq.
    + apply bytes_eqb_eq in Heq. subst q.
      apply mem_false_get in Hmem. congruence.
    + rewrite get_set_other; [exact Hq | now apply bytes_neq].
  - intros Hal q. cbn [chain_keys message_numbers skip_message_keys].
    destruct (bytes_eqb pk q) eqn:Heq.
    + apply bytes_eqb_eq in Heq. subst q. now rewrite !mem_set_same.
    + apply bytes_neq in Heq. rewrite !mem_set_other by assumption. apply Hal.
Qed.

Lemma encrypt_message_keeps self message pk rnd_key rnd_nonce :
  exists self1,
    (self1 = self \/ exists message_key, selected self pk rnd_key self1 message_key)
    /\ dh_ratchet (fst (encrypt_message self message pk rnd_key rnd_nonce))
       = dh_ratchet self1
    /\ chain_keys (fst (encrypt_message self message pk rnd_key rnd_nonce))
       = chain_keys self1
    /\ skip_message_keys (fst (encrypt_message self message pk rnd_key rnd_nonce))
       = skip_message_keys self1
    /\ (forall q, mem q (message_numbers
                          (fst (encrypt_message self message pk rnd_key rnd_nonce)))
                  = mem q (message_numbers self1)).
Proof.
  rewrite encrypt_message_fst.
  destruct (encrypt_message_data self message pk rnd_key rnd_nonce) as [self' r] eqn:Hrun.
  apply encrypt_data_inv in Hrun. cbn [fst].
  destruct Hrun as [[-> _] | [(k & e & Hsel & _) | (self1 & k & ct & n & Hsel & _ & Hn & -> & _)]].
  - exists self. repeat split; auto.
  - exists self'. repeat split; eauto.
  - exists self1. split; [eauto|]. repeat split. intros q. cbn [message_numbers].
    destruct (bytes_eqb pk q) eqn:Heq.
    + apply bytes_eqb_eq in Heq. subst q. rewrite mem_set_same.
      symmetry. apply mem_get. eauto.
    + apply bytes_neq in Heq. now apply mem_set_other.
Qed.

(** X4.  An engine keeps its key pair and its sessions.  No call of
    [encrypt_message] or [decrypt_message] replaces the private key (so the
    public key a peer knows stays valid), removes a chain or changes the
    chain key of a peer that has one, and each keeps the three dicts on the
    same peers. *)
Theorem engine_keeps_identity_and_sessions
    (self : t) (message pk rnd_key rnd_nonce encrypted_data : bytes) :
  let after_encrypt := fst (encrypt_message self message pk rnd_key rnd_nonce) in
  let after_decrypt := fst (decrypt_message self encrypted_data rnd_key) in
  get_public_key after_encrypt = get_public_key self
  /\ get_public_key after_decrypt = get_public_key self
  /\ (forall q chain_key,
        get q (chain_keys self) = Some chain_key ->
        get q (chain_keys after_encrypt) = Some chain_key
        /\ get q (chain_keys after_decrypt) = Some chain_key)
  /\ (aligned self -> aligned after_encrypt /\ aligned after_decrypt).
Proof.
  cbn zeta.
  destruct (encrypt_message_keeps self message pk rnd_key rnd_nonce)
    as (self1 & Hcase & Hdh & Hck & Hskip & Hnum).
  assert (Hkeep1 : dh_ratchet self1 = dh_ratchet self
                   /\ (forall q chain_key, get q (chain_keys self) = Some chain_key ->
                                           get q (chain_keys self1) = Some chain_key)
                   /\ (aligned self -> aligned self1)).
  { destruct Hcase as [-> | [k Hsel]]; [split; [reflexivity | split; auto]|].
    now apply (selected_keeps _ _ _ _ _ Hsel). }
  destruct Hkeep1 as (Hdh1 & Hck1 & Hal1).
  assert (Hkeep2 : dh_ratchet (fst (decrypt_message self encrypted_data rnd_key))
                   = dh_ratchet self
                   /\ (forall q chain_key,
                         get q (chain_keys self) = Some chain_key ->
                         get q (chain_keys (fst (decrypt_message self encrypted_data rnd_key)))
                         = Some chain_key)
                   /\ (aligned self ->
                       aligned (fst (decrypt_message self encrypted_data rnd_key)))).
  { destruct (decrypt_message_state self encrypted_data rnd_key)
      as [-> | (p & k & _ & Hsel)]; [split; [reflexivity | split; auto]|].
    now apply (selected_keeps _ _ _ _ _ Hsel). }
  destruct Hkeep2 as (Hdh2 & Hck2 & Hal2).
  unfold get_public_key. rewrite Hdh, Hdh1, Hdh2.
  split; [reflexivity|]. split; [reflexivity|]. split.
  - intros q chain_key Hq. split; [rewrite Hck; now apply Hck1 | now apply Hck2].
  - intros Hal. split; [|now apply Hal2].
    intros q. rewrite Hck, Hskip, Hnum. now apply Hal1.
Qed.
End RatchetMore.

(** ** More on the server *)

Section ServerMore.
Context {json : JsonLib} {hash : HashLib} {runtime : PyRuntime}.
Import MessageProtocol NetworkServer.

Lemma create_message_envelope msg_type data uid now :
  create_message msg_type data uid now = dumps (envelope msg_type data uid now).
Proof. unfold create_message, envelope. now destruct (truthy uid). Qed.

(** X5.  JOIN binds whatever identity the envelope carries.  On a registered
    connection the three fields of the entry are overwritten with
    [data.get('user_id')], [data.get('username')] and
    [data.get('public_key')], unchecked and on every JOIN anew; nothing else
    in the registry changes, the welcome goes to the joining connection only,
    and the connection counts as joined exactly when the user id it sent is
    true in Python. *)
Theorem join_binds_the_identity (self : t) (client_socket : socket)
    (info : client_info) (message : jvalue) (data : list (string * jvalue))
    (now : pyfloat) (send_raises : bool) :
  get client_socket (clients self) = Some info ->
  py_get message "data" (JObj []) = Ok (JObj data) ->
  let out := _handle_join self client_socket message now send_raises in
  let info' :=
    mk_client (address info) (get_default "user_id" JNull data)
      (get_default "username" JNull data) (get_default "public_key" JNull data)
      (connected_at info) in
  get client_socket (clients (server out)) = Some info'
  /\ (forall other, other <> client_socket ->
        get other (clients (server out)) = get other (clients self))
  /\ keys (clients (server out)) = keys (clients self)
  /\ threads (server out) = threads self
  /\ sent out
     = [(client_socket,
         create_message MESSAGE
           (JObj [("message",
                   JStr ("Welcome " ++ py_str (get_default "username" JNull data) ++ "!")%string);
                  ("thread_id", JStr "main")])
           (JStr "system") now)]
  /\ (truthy (get_default "user_id" JNull data) = true ->
      joined (server out) client_socket info')
  /\ (truthy (get_default "user_id" JNull data) = false ->
      unjoined (server out) client_socket).
Proof.
  intros Hget Hdata. cbn zeta. unfold _handle_join. rewrite Hdata, Hget.
  cbn [py_get bind username].
  assert (Hmem : mem client_socket (clients self) = true)
    by (apply mem_get; eauto).
  destruct send_raises; cbn [server sent fails done with_clients clients threads];
    (split; [apply get_set_same|];
     split; [intros other Hne; apply get_set_other; congruence|];
     split; [now apply keys_set_present|];
     split; [reflexivity|];
     split; [reflexivity|];
     split;
     [ intros Ht; split; [apply get_set_same | exact Ht]
     | intros Hf; unfold unjoined; cbn [clients with_clients]; rewrite get_set_same; exact Hf ]).
Qed.

(** X6.  What the receive loop does with input it has no handler for.  Bytes that
    do not decode are turned into the error envelope, whose type no branch
    matches: they are ignored, nothing is sent back and the connection stays.
    So is a decoded dict whose type is none of JOIN, LEAVE, MESSAGE, IMAGE and
    CREATE_THREAD.  Bytes that decode to something that is no dict end the
    connection. *)
Theorem unhandled_input_on_the_server (self : t) (client_socket : socket)
    (data : bytes) (clock : nat -> pyfloat) (send_raises : bool) :
  data <> [] ->
  (loads data = None ->
   on_receive self client_socket data clock send_raises = done self [])
  /\ (forall d, loads data = Some (JObj d) ->
                handled (get_default "type" JNull d) = false ->
                on_receive self client_socket data clock send_raises = done self [])
  /\ (forall v, loads data = Some v -> (forall d, v <> JObj d) ->
                on_receive self client_socket data clock send_raises
                = done (_disconnect_client self client_socket) []).
Proof.
  intros Hdata. unfold on_receive.
  destruct data as [|c data]; [congruence|]. cbn zeta.
  split; [|split].
  - intros Hl. unfold parse_message. rewrite Hl. reflexivity.
  - intros d Hl Hty. unfold parse_message. rewrite Hl.
    unfold _process_message. cbn [py_get]. unfold handled in Hty.
    repeat (apply orb_false_iff in Hty; destruct Hty as [Hty ?]).
    repeat match goal with H : type_is _ _ = false |- _ => rewrite H; clear H end.
    reflexivity.
  - intros v Hl Hv. unfold parse_message. rewrite Hl.
    destruct v as [| | | | | |d]; try reflexivity. now destruct (Hv d).
Qed.

Lemma touches_only_refl client_socket self : touches_only client_socket self self.
Proof. unfold touches_only. repeat split; auto. Qed.

Lemma touches_only_trans client_socket self self' self'' :
  touches_only client_socket self self' ->
  touches_only client_socket self' self'' ->
  touches_only client_socket self self''.
Proof.
  intros (H1 & H2 & H3 & H4 & H5 & H6) (K1 & K2 & K3 & K4 & K5 & K6).
  unfold touches_only.
  split; [intros other Hne; now rewrite K1, H1|].
  split; [auto|]. split; [auto|]. split; [auto|].
  split; congruence.
Qed.

Lemma touches_only_disconnect client_socket self :
  touches_only client_socket self (_disconnect_client self client_socket).
Proof.
  unfold _disconnect_client.
  destruct (mem client_socket (clients self)); [|apply touches_only_refl].
  unfold touches_only. cbn [with_clients clients threads port running].
  split; [intros other Hne; apply get_del_other; congruence|].
  split; [intros other; apply in_keys_del|].
  split; [apply nodup_del|]. split; [auto|]. split; reflexivity.
Qed.

Lemma touches_only_join client_socket self message now send_raises :
  touches_only client_socket self
    (server (_handle_join self client_socket message now send_raises)).
Proof.
  unfold _handle_join.
  destruct (py_get message "data" (JObj [])) as [data|e]; [|apply touches_only_refl].
  destruct (get client_socket (clients self)) as [info|] eqn:Hget;
    [|apply touches_only_refl].
  destruct (uid <- py_get data "user_id" JNull ;; _) as [info'|e];
    [|apply touches_only_refl].
  assert (Hgoal : touches_only client_socket self
                    (with_clients self (set client_socket info' (clients self)))).
  { unfold touches_only. cbn [with_clients clients threads port running].
    split; [intros other Hne; apply get_set_other; congruence|].
    split.
    { intros other Hin. apply in_keys_set in Hin as [-> | Hin]; [|exact Hin].
      now apply get_in_keys in Hget. }
    split; [apply nodup_set|]. split; [auto|]. split; reflexivity. }
  now destruct send_raises.
Qed.

Lemma handle_message_server self client_socket message t_default t_msg :
  server (_handle_message self client_socket message t_default t_msg) = self.
Proof.
  unfold _handle_message.
  destruct (py_get message "data" (JObj [])) as [data|e]; [|reflexivity].
  destruct (get client_socket (clients self)) as [info|]; [|reflexivity].
  destruct (negb (truthy (user_id info))); [reflexivity|].
  now destruct (content <- py_get data "content" JNull ;; _).
Qed.

Lemma handle_image_server self client_socket message t_default t_msg :
  server (_handle_image self client_socket message t_default t_msg) = self.
Proof.
  unfold _handle_image.
  destruct (py_get message "data" (JObj [])) as [data|e]; [|reflexivity].
  destruct (get client_socket (clients self)) as [info|]; [|reflexivity].
  destruct (negb (truthy (user_id info))); [reflexivity|].
  now destruct (image_data <- py_get data "image_data" JNull ;; _).
Qed.

Lemma touches_only_create_thread client_socket self message t_id t_exp t_created t_msg :
  touches_only client_socket self
    (server (_handle_create_thread self client_socket message t_id t_exp t_created t_msg)).
Proof.
  unfold _handle_create_thread.
  destruct (py_get message "data" (JObj [])) as [data|e]; [|apply touches_only_refl].
  destruct (get client_socket (clients self)) as [info|]; [|apply touches_only_refl].
  destruct (negb (truthy (user_id info))); [apply touches_only_refl|].
  destruct (thread_name <- py_get data "thread_name" JNull ;; _)
    as [[[[thread_name is_private] creator_id] thread_id]|e];
    [|apply touches_only_refl].
  cbn [server done]. unfold touches_only.
  cbn [with_threads clients threads port running].
  split; [reflexivity|]. split; [auto|]. split; [auto|].
  split; [intros id; apply mem_set_mono|]. split; reflexivity.
Qed.

Lemma touches_only_process client_socket self message clock send_raises :
  touches_only client_socket self
    (server (_process_message self client_socket message clock send_raises)).
Proof.
  unfold _process_message.
  destruct (py_get message "type" JNull) as [ty|e]; [|apply touches_only_refl].
  destruct (type_is ty JOIN); [apply touches_only_join|].
  destruct (type_is ty LEAVE); [apply touches_only_disconnect|].
  destruct (type_is ty MESSAGE);
    [rewrite handle_message_server; apply touches_only_refl|].
  destruct (type_is ty IMAGE);
    [rewrite handle_image_server; apply touches_only_refl|].
  destruct (type_is ty CREATE_THREAD); [apply touches_only_create_thread|].
  apply touches_only_refl.
Qed.

(** X7.  A request touches only the connection it came on.  Whatever bytes a
    connection delivers, the turn of its receive loop leaves every other
    connection's entry as it was, registers no connection, keeps the
    connections distinct, removes no thread (the server never deletes or
    expires one), keeps port and running flag, and lets no exception
    escape. *)
Theorem request_touches_only_its_connection (self : t) (client_socket : socket)
    (data : bytes) (clock : nat -> pyfloat) (send_raises : bool) :
  touches_only client_socket self
    (server (on_receive self client_socket data clock send_raises))
  /\ raised (on_receive self client_socket data clock send_raises) = None.
Proof.
  unfold on_receive. destruct data as [|c data].
  - split; [apply touches_only_disconnect | reflexivity].
  - cbn zeta.
    pose proof (touches_only_process client_socket self (parse_message (c :: data))
                  clock send_raises) as Hp.
    destruct (raised (_process_message self client_socket (parse_message (c :: data))
                        clock send_raises)) as [e|] eqn:Hr.
    + split; [|reflexivity]. cbn [server].
      eapply touches_only_trans; [exact Hp | apply touches_only_disconnect].
    + split; [exact Hp | exact Hr].
Qed.

(** X8.  A connection that left is forgotten.  After LEAVE, an empty read or a
    failing turn the registry has no entry for the connection, every other
    entry is as before, and no later broadcast, whoever it leaves out, is
    sent to it. *)
Theorem disconnected_client_is_forgotten (self : t) (client_socket : socket)
    (message : jvalue) :
  NoDup (keys (clients self)) ->
  let self' := server (_handle_leave self client_socket message) in
  self' = _disconnect_client self client_socket
  /\ get client_socket (clients self') = None
  /\ (forall other, other <> client_socket ->
        get other (clients self') = get other (clients self))
  /\ NoDup (keys (clients self'))
  /\ (forall skip response,
        ~ In client_socket (map fst (broadcast self' skip response))).
Proof.
  intros Hnd. cbn zeta. cbn [_handle_leave server done].
  split; [reflexivity|].
  assert (Hnone : get client_socket (clients (_disconnect_client self client_socket))
                  = None).
  { unfold _disconnect_client.
    destruct (mem client_socket (clients self)) eqn:Hm.
    - cbn [with_clients clients]. now apply get_del_same.
    - now apply mem_false_get. }
  destruct (touches_only_disconnect client_socket self) as (H1 & _ & H3 & _).
  split; [exact Hnone|]. split; [exact H1|]. split; [now apply H3|].
  intros skip response Hin. apply get_none_not_in in Hnone. apply Hnone.
  unfold broadcast in Hin. rewrite map_map in Hin. cbn [fst] in Hin.
  rewrite map_id in Hin. now apply filter_In in Hin as [Hin _].
Qed.
End ServerMore.

(** ** The client, and the client against the server *)

Section ClientMore.
Context {crypto : CryptoLib} {json : JsonLib} {text : TextLib}
        {hash : HashLib} {runtime : PyRuntime}.
Import MessageProtocol.

Lemma truthy_str (s : string) : s <> "" -> truthy (JStr s) = true.
Proof.
  intros Hne. cbn [truthy]. apply negb_true_iff. now apply String.eqb_neq.
Qed.

Lemma envelope_type_of msg_type data uid now :
  py_get (envelope msg_type data uid now) "type" JNull = Ok (JStr msg_type).
Proof. unfold envelope. now destruct (truthy uid). Qed.

Lemma envelope_data_of msg_type data uid now :
  py_get (envelope msg_type data uid now) "data" (JObj []) = Ok data.
Proof. unfold envelope. now destruct (truthy uid). Qed.

Lemma handle_join_registered self client_socket info message data now send_raises :
  get client_socket (NetworkServer.clients self) = Some info ->
  py_get message "data" (JObj []) = Ok (JObj data) ->
  NetworkServer._handle_join self client_socket message now send_raises
  = NetworkServer.mk_outcome
      (NetworkServer.with_clients self
         (set client_socket
            (NetworkServer.mk_client (NetworkServer.address info)
               (get_default "user_id" JNull data) (get_default "username" JNull data)
               (get_default "public_key" JNull data) (NetworkServer.connected_at info))
            (NetworkServer.clients self)))
      [(client_socket,
        create_message MESSAGE
          (JObj [("message",
                  JStr ("Welcome " ++ py_str (get_default "username" JNull data) ++ "!")%string);
                 ("thread_id", JStr "main")])
          (JStr "system") now)]
      (if send_raises then Some ConnectionError else None).
Proof.
  intros Hget Hdata. unfold NetworkServer._handle_join. rewrite Hdata, Hget.
  cbn [py_get bind NetworkServer.username]. now destruct send_raises.
Qed.

(** X9.  [connect] makes the client a joined connection of the server.  When the
    socket connects, [connect] sends one envelope, the JOIN with the user id,
    the user name and the public key in hexadecimal, and returns whether that
    send went through; the server, reading these bytes on a registered
    connection, binds exactly this identity to it, counts it as joined, and
    answers with the welcome to this connection alone. *)
Theorem connect_joins_the_server
    (client : NetworkClient.t) (host : string) (port : Z) (net : NetworkClient.network)
    (now : pyfloat) (self : NetworkServer.t) (client_socket : NetworkServer.socket)
    (info : NetworkServer.client_info) (clock : nat -> pyfloat) :
  let manager := NetworkClient.crypto_manager client in
  let join :=
    dumps (envelope JOIN (JObj (join_fields client))
             (NetworkClient.user_id_value client) now) in
  NetworkClient.connect_raises net = false ->
  CryptoManager.get_user_id manager <> "" ->
  join <> [] ->
  loads join = Some (envelope JOIN (JObj (join_fields client))
                       (NetworkClient.user_id_value client) now) ->
  get client_socket (NetworkServer.clients self) = Some info ->
  NetworkClient.connect client host port false net now
  = (NetworkClient.mk manager true (negb (NetworkClient.send_raises net)
                                    || NetworkClient.connected client)
       (Some host) (Some port) (NetworkClient.message_handlers client),
     [join], negb (NetworkClient.send_raises net))
  /\ let out := NetworkServer.on_receive self client_socket join clock false in
     joined (NetworkServer.server out) client_socket
       (NetworkServer.mk_client (NetworkServer.address info)
          (JStr (CryptoManager.get_user_id manager))
          (JStr (CryptoManager.get_username manager))
          (JStr (hex (CryptoManager.get_public_key manager)))
          (NetworkServer.connected_at info))
     /\ recipients out = [client_socket].
Proof.
  cbn zeta. intros Hconn Huid Hne Hloads Hget. split.
  - unfold NetworkClient.connect. cbn [andb]. rewrite Hconn.
    unfold NetworkClient.join_message. rewrite create_message_envelope.
    unfold NetworkClient.with_link.
    cbn [NetworkClient.crypto_manager NetworkClient.has_socket NetworkClient.connected
         NetworkClient.server_host NetworkClient.server_port
         NetworkClient.message_handlers].
    destruct (NetworkClient.send_raises net); cbn [negb orb]; reflexivity.
  - unfold NetworkServer.on_receive.
    destruct (dumps (envelope JOIN (JObj (join_fields client))
                       (NetworkClient.user_id_value client) now))
      as [|c rest] eqn:Hbytes; [congruence|].
    cbn zeta. unfold parse_message. rewrite Hloads.
    unfold NetworkServer._process_message. rewrite envelope_type_of.
    cbn [NetworkServer.type_is JOIN String.eqb Ascii.eqb Bool.eqb].
    rewrite (handle_join_registered _ _ info _ (join_fields client) _ _ Hget)
      by apply envelope_data_of.
    cbn [NetworkServer.raised NetworkServer.server].
    split; [|reflexivity].
    unfold joined. cbn [NetworkServer.with_clients NetworkServer.clients].
    rewrite get_set_same. split; [reflexivity|].
    cbn [NetworkServer.user_id]. now apply truthy_str.
Qed.

Lemma message_fields_content content thread_id recipient_id now :
  get_default "content" JNull (message_fields content thread_id recipient_id now)
  = JStr content
  /\ get_default "thread_id" (JStr "main")
       (message_fields content thread_id recipient_id now) = JStr thread_id
  /\ forall dflt, get_default "timestamp" dflt
                    (message_fields content thread_id recipient_id now) = JFloat now.
Proof.
  unfold message_fields.
  destruct recipient_id as [r|]; [destruct (negb (r =? "")%string)|];
    (split; [reflexivity | split; [reflexivity | intros dflt; reflexivity]]).
Qed.

(** X10.  A message the client sends is relayed under the sender's registered
    identity.  A connected client sends one MESSAGE envelope; when the
    envelope is short enough for one read of the server, which takes no more
    than 4096 bytes and puts no two reads together, the server, reading it
    on a joined connection, sends every other connection the content, the
    thread id and the client's own time stamp, with the user id and user
    name bound at JOIN (the user id the envelope carries is not looked at).
    A [recipient_id] is dropped on the way: a message addressed to one
    recipient goes to every other connection as well. *)
Theorem sent_message_is_relayed
    (client : NetworkClient.t) (content thread_id : string)
    (recipient_id : option string) (net : NetworkClient.network)
    (now1 now2 : pyfloat) (self : NetworkServer.t)
    (client_socket : NetworkServer.socket) (info : NetworkServer.client_info)
    (clock : nat -> pyfloat) (send_raises : bool) :
  let wire :=
    dumps (envelope MESSAGE (JObj (message_fields content thread_id recipient_id now1))
             (NetworkClient.user_id_value client) now2) in
  NetworkClient.connected client = true ->
  NetworkClient.has_socket client = true ->
  NetworkClient.send_raises net = false ->
  wire <> [] ->
  fits_one_read wire ->
  loads wire
  = Some (envelope MESSAGE (JObj (message_fields content thread_id recipient_id now1))
            (NetworkClient.user_id_value client) now2) ->
  joined self client_socket info ->
  NetworkClient.send_message client content thread_id recipient_id net now1 now2
  = ([wire], true)
  /\ NetworkServer.on_receive self client_socket wire clock send_raises
     = NetworkServer.done self
         (NetworkServer.broadcast self (Some client_socket)
            (create_message MESSAGE
               (JObj [("content", JStr content);
                      ("thread_id", JStr thread_id);
                      ("sender_id", NetworkServer.user_id info);
                      ("sender_username", NetworkServer.username info);
                      ("timestamp", JFloat now1)])
               (NetworkServer.user_id info) (clock 1%nat))).
Proof.
  cbn zeta. intros Hc Hs Hsend Hne Hfit Hloads Hjoined. split.
  - unfold NetworkClient.send_message, NetworkClient.try_send.
    rewrite Hc, Hs, Hsend. cbn [negb]. rewrite create_message_envelope.
    reflexivity.
  - unfold NetworkServer.on_receive.
    destruct (dumps (envelope MESSAGE
                       (JObj (message_fields content thread_id recipient_id now1))
                       (NetworkClient.user_id_value client) now2))
      as [|c rest] eqn:Hbytes; [congruence|].
    cbn zeta. unfold parse_message. rewrite Hloads.
    unfold NetworkServer._process_message. rewrite envelope_type_of.
    cbn [NetworkServer.type_is JOIN LEAVE MESSAGE String.eqb Ascii.eqb Bool.eqb].
    rewrite (handle_message_joined _ _ info _
               (message_fields content thread_id recipient_id now1) _ _ Hjoined)
      by apply envelope_data_of.
    cbn [NetworkServer.raised NetworkServer.done].
    unfold message_envelope.
    destruct (message_fields_content content thread_id recipient_id now1)
      as (-> & -> & ->).
    reflexivity.
Qed.

(** X11.  A thread the client creates is registered by the server, when the
    envelope is short enough for one read of the server (no more than 4096
    bytes), under the name, the privacy flag and the creator id the client
    sent, with an id the server derives from name, creator id and its own
    clock, and an expiry twelve hours after the server's clock reading;
    every connection is told, the creator included. *)
Theorem created_thread_is_registered
    (client : NetworkClient.t) (thread_name : string) (is_private : bool)
    (net : NetworkClient.network) (now : pyfloat) (self : NetworkServer.t)
    (client_socket : NetworkServer.socket) (info : NetworkServer.client_info)
    (clock : nat -> pyfloat) (send_raises : bool) (thread_id : string) :
  let wire :=
    dumps (envelope CREATE_THREAD
             (JObj (create_thread_fields client thread_name is_private))
             (NetworkClient.user_id_value client) now) in
  NetworkClient.connected client = true ->
  NetworkClient.has_socket client = true ->
  NetworkClient.send_raises net = false ->
  wire <> [] ->
  fits_one_read wire ->
  loads wire
  = Some (envelope CREATE_THREAD
            (JObj (create_thread_fields client thread_name is_private))
            (NetworkClient.user_id_value client) now) ->
  joined self client_socket info ->
  thread_digest (JStr thread_name) (NetworkClient.user_id_value client) (clock 0%nat)
  = Ok thread_id ->
  NetworkClient.create_thread client thread_name is_private net now = ([wire], true)
  /\ let out := NetworkServer.on_receive self client_socket wire clock send_raises in
     get thread_id (NetworkServer.threads (NetworkServer.server out))
     = Some (NetworkServer.mk_thread (JStr thread_name) (JBool is_private)
               (clock 2%nat) (created_expiry thread_id (clock 1%nat))
               (NetworkClient.user_id_value client))
     /\ (forall other, other <> thread_id ->
           get other (NetworkServer.threads (NetworkServer.server out))
           = get other (NetworkServer.threads self))
     /\ NetworkServer.clients (NetworkServer.server out) = NetworkServer.clients self
     /\ recipients out = keys (NetworkServer.clients self).
Proof.
  cbn zeta. intros Hc Hs Hsend Hne Hfit Hloads Hjoined Hid. split.
  - unfold NetworkClient.create_thread, NetworkClient.try_send.
    rewrite Hc, Hs, Hsend. cbn [negb]. rewrite create_message_envelope.
    reflexivity.
  - unfold NetworkServer.on_receive.
    destruct (dumps (envelope CREATE_THREAD
                       (JObj (create_thread_fields client thread_name is_private))
                       (NetworkClient.user_id_value client) now))
      as [|c rest] eqn:Hbytes; [congruence|].
    cbn zeta. unfold parse_message. rewrite Hloads.
    unfold NetworkServer._process_message. rewrite envelope_type_of.
    cbn [NetworkServer.type_is JOIN LEAVE MESSAGE IMAGE CREATE_THREAD
         String.eqb Ascii.eqb Bool.eqb].
    rewrite (handle_create_thread_joined _ _ info _
               (create_thread_fields client thread_name is_private) thread_id
               _ _ _ _ Hjoined (envelope_data_of _ _ _ _) Hid).
    cbn zeta. cbn [NetworkServer.raised NetworkServer.done NetworkServer.server
                   NetworkServer.with_threads NetworkServer.threads
                   NetworkServer.clients].
    split; [apply get_set_same|].
    split; [intros other Hne'; apply get_set_other; congruence|].
    split; [reflexivity|].
    unfold recipients. cbn [NetworkServer.sent].
    apply (broadcast_recipients_all (NetworkServer.with_threads self _)).
Qed.

(** X12.  The handler table of the client is a dict: a message whose type is a
    string goes to the handler registered last under that type, a
    registration under another type does not change where it goes, and a type
    nobody registered is dropped with the connection kept. *)
Theorem registered_handler_receives
    (self : NetworkClient.t) (message_type other_type : string) (h : nat)
    (data : bytes) (d : list (string * jvalue)) :
  data <> [] ->
  loads data = Some (JObj d) ->
  get "type" d = Some (JStr message_type) ->
  NetworkClient.receive_turn
    (NetworkClient.register_message_handler self message_type h) data
  = (NetworkClient.register_message_handler self message_type h, Some (h, JObj d))
  /\ (other_type <> message_type ->
      snd (NetworkClient.receive_turn
             (NetworkClient.register_message_handler self other_type h) data)
      = snd (NetworkClient.receive_turn self data))
  /\ (get message_type (NetworkClient.message_handlers self) = None ->
      NetworkClient.receive_turn self data = (self, None)).
Proof.
  intros Hne Hloads Hty.
  assert (Hturn : forall client,
            NetworkClient.receive_turn client data
            = (client, option_map (fun h' => (h', JObj d))
                         (get message_type (NetworkClient.message_handlers client)))).
  { intros client. unfold NetworkClient.receive_turn.
    destruct data as [|c rest]; [congruence|]. cbn zeta.
    unfold parse_message. rewrite Hloads. unfold get_default. now rewrite Hty. }
  split; [|split].
  - rewrite Hturn. cbn [NetworkClient.register_message_handler
                        NetworkClient.message_handlers].
    now rewrite get_set_same.
  - intros Hother. rewrite !Hturn.
    cbn [snd NetworkClient.register_message_handler NetworkClient.message_handlers].
    now rewrite get_set_other.
  - intros Hnone. rewrite Hturn, Hnone. reflexivity.
Qed.

(** X13.  What ends the receive loop of the client.  Bytes that do not decode do
    not: they reach the handler registered for ERROR, if there is one, as the
    error envelope.  An empty read does, and so do bytes that decode to
    something that is no dict; [connected] is then cleared, so that every
    later [send_message], [send_image] and [create_thread] returns [False]
    without sending. *)
Theorem what_ends_the_receive_loop
    (self : NetworkClient.t) (data : bytes) :
  (data <> [] -> loads data = None ->
   NetworkClient.receive_turn self data
   = (self, option_map (fun h => (h, error_envelope))
              (get ERROR (NetworkClient.message_handlers self))))
  /\ (data = [] \/ (exists v, loads data = Some v /\ forall d, v <> JObj d) ->
      let self' := fst (NetworkClient.receive_turn self data) in
      snd (NetworkClient.receive_turn self data) = None
      /\ NetworkClient.connected self' = false
      /\ NetworkClient.crypto_manager self' = NetworkClient.crypto_manager self
      /\ NetworkClient.message_handlers self' = NetworkClient.message_handlers self
      /\ (forall content thread_id recipient_id net now1 now2,
            NetworkClient.send_message self' content thread_id recipient_id net now1 now2
            = ([], false))
      /\ (forall image_data thread_id net now1 now2,
            NetworkClient.send_image self' image_data thread_id net now1 now2
            = ([], false))
      /\ (forall thread_name is_private net now,
            NetworkClient.create_thread self' thread_name is_private net now
            = ([], false))).
Proof.
  split.
  - intros Hne Hloads. unfold NetworkClient.receive_turn.
    destruct data as [|c rest]; [congruence|]. cbn zeta.
    unfold parse_message. rewrite Hloads. reflexivity.
  - intros Hcase. cbn zeta.
    assert (Hturn : NetworkClient.receive_turn self data
                    = (NetworkClient.with_link self (NetworkClient.has_socket self) false,
                       None)).
    { unfold NetworkClient.receive_turn.
      destruct Hcase as [-> | (v & Hloads & Hv)]; [reflexivity|].
      destruct data as [|c rest]; [reflexivity|]. cbn zeta.
      unfold parse_message. rewrite Hloads.
      destruct v as [| | | | | |d]; try reflexivity. now destruct (Hv d). }
    rewrite Hturn. cbn [fst snd].
    repeat split.
Qed.
(** X14.  An image the client sends is relayed as it was encoded, if it is
    small.  A connected client sends one IMAGE envelope with the image in
    base64; when the envelope is short enough for one read of the server,
    which takes no more than 4096 bytes and puts no two reads together, the
    server, reading it on a joined connection, sends every other connection
    that very text, the thread id and the client's time stamp under the
    sender's registered identity, and stores nothing. *)
Theorem sent_image_is_relayed
    (client : NetworkClient.t) (image_data : bytes) (thread_id : string)
    (net : NetworkClient.network) (now1 now2 : pyfloat) (self : NetworkServer.t)
    (client_socket : NetworkServer.socket) (info : NetworkServer.client_info)
    (clock : nat -> pyfloat) (send_raises : bool) :
  let wire :=
    dumps (envelope IMAGE (JObj (image_fields image_data thread_id now1))
             (NetworkClient.user_id_value client) now2) in
  NetworkClient.connected client = true ->
  NetworkClient.has_socket client = true ->
  NetworkClient.send_raises net = false ->
  wire <> [] ->
  fits_one_read wire ->
  loads wire
  = Some (envelope IMAGE (JObj (image_fields image_data thread_id now1))
            (NetworkClient.user_id_value client) now2) ->
  joined self client_socket info ->
  NetworkClient.send_image client image_data thread_id net now1 now2 = ([wire], true)
  /\ NetworkServer.on_receive self client_socket wire clock send_raises
     = NetworkServer.done self
         (NetworkServer.broadcast self (Some client_socket)
            (create_message IMAGE
               (JObj [("image_data", JStr (b64encode image_data));
                      ("thread_id", JStr thread_id);
                      ("sender_id", NetworkServer.user_id info);
                      ("sender_username", NetworkServer.username info);
                      ("timestamp", JFloat now1)])
               (NetworkServer.user_id info) (clock 1%nat))).
Proof.
  cbn zeta. intros Hc Hs Hsend Hne Hfit Hloads Hjoined. split.
  - unfold NetworkClient.send_image, NetworkClient.try_send.
    rewrite Hc, Hs, Hsend. cbn [negb]. rewrite create_message_envelope.
    reflexivity.
  - unfold NetworkServer.on_receive.
    destruct (dumps (envelope IMAGE (JObj (image_fields image_data thread_id now1))
                       (NetworkClient.user_id_value client) now2))
      as [|c rest] eqn:Hbytes; [congruence|].
    cbn zeta. unfold parse_message. rewrite Hloads.
    unfold NetworkServer._process_message. rewrite envelope_type_of.
    cbn [NetworkServer.type_is JOIN LEAVE MESSAGE IMAGE String.eqb Ascii.eqb Bool.eqb].
    rewrite (handle_image_joined _ _ info _ (image_fields image_data thread_id now1)
               _ _ Hjoined) by apply envelope_data_of.
    reflexivity.
Qed.

(** X15.  [disconnect] makes the server forget the connection.  A connected client
    sends one LEAVE envelope, drops its socket and clears [connected], so
    that it sends nothing afterwards; the server, reading the envelope,
    removes the entry of the connection and sends nothing. *)
Theorem disconnect_leaves_the_server
    (client : NetworkClient.t) (now : pyfloat) (self : NetworkServer.t)
    (client_socket : NetworkServer.socket) (clock : nat -> pyfloat)
    (send_raises : bool) :
  let wire :=
    dumps (envelope LEAVE (JObj (leave_fields client))
             (NetworkClient.user_id_value client) now) in
  NetworkClient.connected client = true ->
  NetworkClient.has_socket client = true ->
  wire <> [] ->
  loads wire = Some (envelope LEAVE (JObj (leave_fields client))
                       (NetworkClient.user_id_value client) now) ->
  NetworkClient.disconnect client now
  = (NetworkClient.with_link client false false, [wire])
  /\ (forall content thread_id recipient_id net now1 now2,
        NetworkClient.send_message (fst (NetworkClient.disconnect client now))
          content thread_id recipient_id net now1 now2 = ([], false))
  /\ NetworkServer.on_receive self client_socket wire clock send_raises
     = NetworkServer.done (NetworkServer._disconnect_client self client_socket) [].
Proof.
  cbn zeta. intros Hc Hs Hne Hloads.
  assert (Hdis : NetworkClient.disconnect client now
                 = (NetworkClient.with_link client false false,
                    [dumps (envelope LEAVE (JObj (leave_fields client))
                              (NetworkClient.user_id_value client) now)])).
  { unfold NetworkClient.disconnect. rewrite Hc, Hs. cbn [andb].
    now rewrite create_message_envelope. }
  split; [exact Hdis|]. split.
  - intros. now rewrite Hdis.
  - unfold NetworkServer.on_receive.
    destruct (dumps (envelope LEAVE (JObj (leave_fields client))
                       (NetworkClient.user_id_value client) now))
      as [|c rest] eqn:Hbytes; [congruence|].
    cbn zeta. unfold parse_message. rewrite Hloads.
    unfold NetworkServer._process_message. rewrite envelope_type_of.
    reflexivity.
Qed.
End ClientMore.

(** ** The cryptographic manager *)

Section ManagerMore.
Context {crypto : CryptoLib} {json : JsonLib} {text : TextLib} {runtime : PyRuntime}.

Lemma pick_in (l : list string) (b0 : byte) :
  l <> [] -> exists x, CryptoManager.pick l b0 = Some x /\ In x l.
Proof.
  intros Hne. unfold CryptoManager.pick.
  destruct l as [|y l]; [congruence|].
  set (l' := y :: l).
  destruct (nth_error l' (N.to_nat (Byte.to_N b0 mod N.of_nat (List.length l'))))
    as [x|] eqn:Hnth.
  - exists x. split; [reflexivity|]. now apply nth_error_In in Hnth.
  - exfalso. apply nth_error_None in Hnth.
    assert (Hpos : (N.of_nat (List.length l') <> 0)%N) by (subst l'; cbn; lia).
    pose proof (N.mod_lt (Byte.to_N b0) _ Hpos) as Hlt. lia.
Qed.

(** X16.  A manager can always be constructed: no byte [os.urandom] returns makes
    an index leave its list.  The user name is one of the eight adjectives,
    one of the eight nouns and a number from 1 to 99; the user id is the
    first 16 characters of the SHA-256 digest of the public key of the
    engine the manager has just created. *)
Theorem manager_is_always_constructed (generated rnd : bytes) (b1 b2 b3 : byte) :
  exists self adjective noun n,
    CryptoManager.__init__ generated rnd b1 b2 b3 = Some self
    /\ CryptoManager.get_username self
       = (adjective ++ noun ++ py_str (JInt n))%string
    /\ In adjective CryptoManager.adjectives
    /\ In noun CryptoManager.nouns
    /\ 1 <= n <= 99
    /\ CryptoManager.get_user_id self
       = String.substring 0 16 (sha256_hexdigest (CryptoManager.get_public_key self))
    /\ CryptoManager.ratchet self = DoubleRatchet.__init__ generated rnd.
Proof.
  destruct (pick_in CryptoManager.adjectives b1) as (adjective & Ha & Hina);
    [discriminate|].
  destruct (pick_in CryptoManager.nouns b2) as (noun & Hn & Hinn); [discriminate|].
  unfold CryptoManager.__init__, CryptoManager._generate_username.
  rewrite Ha, Hn.
  eexists _, adjective, noun, _. split; [reflexivity|].
  split; [reflexivity|]. split; [exact Hina|]. split; [exact Hinn|].
  split; [|split; reflexivity].
  assert (Hlt : (Byte.to_N b3 mod 99 < 99)%N) by (apply N.mod_lt; discriminate).
  revert Hlt. generalize (Byte.to_N b3 mod 99)%N. intros x Hlt. lia.
Qed.

Lemma encrypt_message_dh self message pk rnd_key rnd_nonce :
  DoubleRatchet.dh_ratchet
    (fst (DoubleRatchet.encrypt_message self message pk rnd_key rnd_nonce))
  = DoubleRatchet.dh_ratchet self.
Proof.
  destruct (encrypt_message_keeps self message pk rnd_key rnd_nonce)
    as (self1 & Hcase & Hdh & _).
  rewrite Hdh. destruct Hcase as [-> | [k Hsel]]; [reflexivity|].
  now apply (selected_keeps _ _ _ _ _ Hsel).
Qed.

Lemma decrypt_message_dh self encrypted_data rnd_key :
  DoubleRatchet.dh_ratchet (fst (DoubleRatchet.decrypt_message self encrypted_data rnd_key))
  = DoubleRatchet.dh_ratchet self.
Proof.
  destruct (decrypt_message_state self encrypted_data rnd_key)
    as [-> | (p & k & _ & Hsel)]; [reflexivity|].
  now apply (selected_keeps _ _ _ _ _ Hsel).
Qed.

Lemma decrypt_message_raises self encrypted_data rnd_key e :
  snd (DoubleRatchet.decrypt_message self encrypted_data rnd_key) = Raise e ->
  e = ValueError.
Proof.
  unfold DoubleRatchet.decrypt_message.
  destruct (DoubleRatchet.read_payload encrypted_data) as [p|e0];
    [|now intros [= <-]].
  destruct (DoubleRatchet.decrypt_payload self p rnd_key) as [self' [x|e1]];
    cbn [snd reraise_as]; [discriminate | now intros [= <-]].
Qed.

(** X17.  The identity of a manager never changes.  Whatever is encrypted or
    decrypted, and whether the call returns or raises, afterwards the manager
    presents the same user id, user name and public key: a user id that is
    the digest of the public key stays so. *)
Theorem manager_identity_is_stable
    (self : CryptoManager.t) (message : string)
    (image_data pk encrypted_data rnd_key rnd_nonce : bytes) :
  same_identity self
    (fst (CryptoManager.encrypt_message self message pk rnd_key rnd_nonce))
  /\ same_identity self
       (fst (CryptoManager.decrypt_message self encrypted_data rnd_key))
  /\ same_identity self
       (fst (CryptoManager.encrypt_image self image_data pk rnd_key rnd_nonce))
  /\ same_identity self
       (fst (CryptoManager.decrypt_image self encrypted_data rnd_key)).
Proof.
  assert (Hwith : forall r,
            DoubleRatchet.dh_ratchet r
            = DoubleRatchet.dh_ratchet (CryptoManager.ratchet self) ->
            same_identity self (CryptoManager.with_ratchet self r)).
  { intros r Hr. unfold same_identity, CryptoManager.get_public_key,
      DoubleRatchet.get_public_key. cbn. now rewrite Hr. }
  assert (Hrefl : same_identity self self) by (unfold same_identity; auto).
  split; [|split; [|split]].
  - unfold CryptoManager.encrypt_message.
    destruct (utf8_encode message) as [data|e]; [|exact Hrefl].
    pose proof (encrypt_message_dh (CryptoManager.ratchet self) data pk rnd_key rnd_nonce)
      as Hdh.
    destruct (DoubleRatchet.encrypt_message _ _ _ _ _) as [r out].
    now apply Hwith.
  - unfold CryptoManager.decrypt_message.
    pose proof (decrypt_message_dh (CryptoManager.ratchet self) encrypted_data rnd_key)
      as Hdh.
    destruct (DoubleRatchet.decrypt_message _ _ _) as [r out].
    now apply Hwith.
  - unfold CryptoManager.encrypt_image.
    pose proof (encrypt_message_dh (CryptoManager.ratchet self) image_data pk
                  rnd_key rnd_nonce) as Hdh.
    destruct (DoubleRatchet.encrypt_message _ _ _ _ _) as [r out].
    now apply Hwith.
  - unfold CryptoManager.decrypt_image.
    pose proof (decrypt_message_dh (CryptoManager.ratchet self) encrypted_data rnd_key)
      as Hdh.
    destruct (DoubleRatchet.decrypt_message _ _ _) as [r out].
    now apply Hwith.
Qed.

(** X18.  The errors of the manager's decryption.  [decrypt_image] returns or
    raises what the engine does, so it raises the decryption error only.
    [decrypt_message] decodes the plaintext outside the engine's [try]: it
    raises the decryption error when the engine does, and otherwise, on a
    plaintext the engine accepted, whatever the UTF-8 decoder raises. *)
Theorem manager_decryption_errors
    (self : CryptoManager.t) (encrypted_data rnd_key : bytes) :
  snd (CryptoManager.decrypt_image self encrypted_data rnd_key)
  = snd (DoubleRatchet.decrypt_message (CryptoManager.ratchet self) encrypted_data rnd_key)
  /\ (forall e, snd (CryptoManager.decrypt_image self encrypted_data rnd_key) = Raise e ->
                e = ValueError)
  /\ (forall plaintext,
        snd (DoubleRatchet.decrypt_message (CryptoManager.ratchet self)
               encrypted_data rnd_key) = Ok plaintext ->
        snd (CryptoManager.decrypt_message self encrypted_data rnd_key)
        = utf8_decode plaintext)
  /\ (forall e,
        snd (CryptoManager.decrypt_message self encrypted_data rnd_key) = Raise e ->
        e = ValueError
        \/ exists plaintext,
             snd (DoubleRatchet.decrypt_message (CryptoManager.ratchet self)
                    encrypted_data rnd_key) = Ok plaintext
             /\ utf8_decode plaintext = Raise e).
Proof.
  unfold CryptoManager.decrypt_image, CryptoManager.decrypt_message.
  pose proof (decrypt_message_raises (CryptoManager.ratchet self) encrypted_data rnd_key)
    as Hraise.
  destruct (DoubleRatchet.decrypt_message _ _ _) as [r [plaintext|e0]];
    cbn [snd bind] in *.
  - split; [reflexivity|]. split; [discriminate|].
    split; [now intros p [= <-]|].
    intros e He. right. now exists plaintext.
  - split; [reflexivity|]. split; [exact Hraise|].
    split; [discriminate|]. intros e [= <-]. left. now apply Hraise.
Qed.
End ManagerMore.

(** ** More on threads and the chat manager *)

Section ThreadMore.
Context {hash : HashLib}.

Lemma set_add_in x y s : In x (ChatThread.set_add y s) <-> x = y \/ In x s.
Proof.
  unfold ChatThread.set_add. destruct (existsb (String.eqb y) s) eqn:He.
  - apply existsb_exists in He as (z & Hz & Heq).
    apply String.eqb_eq in Heq. subst z.
    split; [now right | intros [-> | Hin]; assumption].
  - rewrite in_app_iff. cbn.
    split; [intros [Hin | [<- | []]]; auto | intros [-> | Hin]; auto].
Qed.

Lemma nodup_snoc (y : string) s : NoDup s -> ~ In y s -> NoDup (s ++ [y]).
Proof.
  induction s as [|z s IH]; cbn; intros Hnd Hni.
  - constructor; [tauto | constructor].
  - inversion Hnd as [|? ? Hz Hnd']; subst. constructor.
    + rewrite in_app_iff. cbn. intros [Hin | [-> | []]]; [contradiction|].
      apply Hni. now left.
    + apply IH; [exact Hnd'|]. intros Hin. apply Hni. now right.
Qed.

Lemma set_add_nodup y s : NoDup s -> NoDup (ChatThread.set_add y s).
Proof.
  intros Hnd. unfold ChatThread.set_add.
  destruct (existsb (String.eqb y) s) eqn:He; [exact Hnd|].
  apply nodup_snoc; [exact Hnd|]. intros Hin.
  assert (Ht : existsb (String.eqb y) s = true).
  { apply existsb_exists. exists y. split; [exact Hin | apply String.eqb_refl]. }
  congruence.
Qed.

Lemma thread_init_fields thread_id name is_private creator_id expires_hours now0 thread :
  ChatThread.__init__ thread_id name is_private creator_id expires_hours now0 = Ok thread ->
  ChatThread.thread_id thread = thread_id
  /\ ChatThread.name thread = name
  /\ ChatThread.is_private thread = is_private
  /\ ChatThread.creator_id thread = creator_id
  /\ ChatThread.messages thread = []
  /\ ChatThread.participants thread = [].
Proof.
  unfold ChatThread.__init__.
  destruct (negb (thread_id =? "main")%string && (expires_hours >? 0)).
  - unfold Datetime.hours, Datetime.timedelta_of.
    destruct (_ && _); cbn [bind]; [|discriminate].
    unfold Datetime.add. destruct (_ && _); [|discriminate].
    intros [= <-]. repeat split.
  - intros [= <-]. repeat split.
Qed.

Lemma thread_ok_init thread_id name is_private creator_id now0 thread :
  ChatThread.__init__ thread_id name is_private creator_id 12 now0 = Ok thread ->
  thread_ok thread_id thread.
Proof.
  intros Hinit.
  destruct (thread_init_fields _ _ _ _ _ _ _ Hinit) as (Hid & _ & _ & _ & Hm & Hp).
  destruct (thread_init_ok _ _ _ _ _ _ _ Hinit) as [Hc He].
  unfold thread_ok, senders. rewrite Hm, Hp, He, Hc.
  split; [exact Hid|]. split; [constructor|].
  split; [intros x; reflexivity|]. split; [intros m []|].
  now destruct (thread_id =? "main")%string.
Qed.

Lemma thread_ok_add k thread message :
  thread_ok k thread ->
  ChatMessage.thread_id message = k ->
  thread_ok k (ChatThread.add_message thread message).
Proof.
  intros (Hid & Hnd & Hp & Hm & He) Hk. unfold thread_ok, senders.
  cbn [ChatThread.add_message ChatThread.thread_id ChatThread.participants
       ChatThread.messages ChatThread.expires_at ChatThread.created_at].
  split; [exact Hid|]. split; [now apply set_add_nodup|].
  split; [|split; [|exact He]].
  - intros x. rewrite set_add_in, map_app, in_app_iff, Hp. cbn.
    unfold senders. intuition congruence.
  - intros m. rewrite in_app_iff. cbn. intros [Hin | [<- | []]]; auto.
Qed.

Lemma threads_ok_set (self self' : ChatManager.t) k thread :
  threads_ok self ->
  thread_ok k thread ->
  ChatManager.threads self' = set k thread (ChatManager.threads self) ->
  threads_ok self'.
Proof.
  intros [Hnd Hall] Hok Heq. unfold threads_ok. rewrite Heq.
  split; [now apply nodup_set|]. intros k' thread' Hget.
  destruct (String.eqb k k') eqn:Hk.
  - apply String.eqb_eq in Hk. subst k'. rewrite get_set_same in Hget.
    now injection Hget as <-.
  - apply String.eqb_neq in Hk. rewrite get_set_other in Hget by assumption.
    now apply Hall.
Qed.

Lemma threads_ok_del (self self' : ChatManager.t) k :
  threads_ok self ->
  ChatManager.threads self' = del k (ChatManager.threads self) ->
  threads_ok self'.
Proof.
  intros [Hnd Hall] Heq. unfold threads_ok. rewrite Heq.
  split; [now apply nodup_del|]. intros k' thread' Hget.
  destruct (String.eqb k k') eqn:Hk.
  - apply String.eqb_eq in Hk. subst k'.
    rewrite get_del_same in Hget by assumption. discriminate.
  - apply String.eqb_neq in Hk. rewrite get_del_other in Hget by assumption.
    now apply Hall.
Qed.

Lemma threads_ok_same (self self' : ChatManager.t) :
  threads_ok self ->
  ChatManager.threads self' = ChatManager.threads self ->
  threads_ok self'.
Proof. unfold threads_ok. now intros Hok ->. Qed.

Lemma delete_thread_threads_ok self thread_id :
  threads_ok self -> threads_ok (fst (ChatManager._delete_thread self thread_id)).
Proof.
  intros Hok. unfold ChatManager._delete_thread.
  destruct (get thread_id (ChatManager.threads self)) as [thread|]; [|exact Hok].
  destruct (negb (thread_id =? "main")%string); [|exact Hok].
  cbn [fst]. apply (threads_ok_del self _ thread_id Hok).
  now destruct (ChatManager.current_thread_id _ =? thread_id)%string.
Qed.

Lemma delete_expired_threads_ok expired :
  forall st, threads_ok (fst st) ->
             threads_ok (fst (fold_left ChatManager.delete_step expired st)).
Proof.
  induction expired as [|thread_id expired IH]; intros st Hok; [exact Hok|].
  cbn [fold_left]. apply IH. unfold ChatManager.delete_step.
  destruct (negb (thread_id =? "main")%string); [|exact Hok].
  pose proof (delete_thread_threads_ok (fst st) thread_id Hok) as Hok'.
  now destruct (ChatManager._delete_thread (fst st) thread_id).
Qed.

Lemma init_threads_ok now self : ChatManager.__init__ now = Ok self -> threads_ok self.
Proof.
  unfold ChatManager.__init__, ChatManager._create_main_thread.
  destruct (ChatThread.__init__ "main" "Main Chat" false (Some "system") 12 now)
    as [main_thread|e] eqn:Hinit; cbn [bind]; [|discriminate].
  intros [= <-]. apply thread_ok_init in Hinit.
  split.
  - cbn. constructor; [tauto | constructor].
  - intros k thread. cbn [ChatManager.threads ChatManager.with_current
                          ChatManager.with_threads set get].
    destruct (keq k "main") eqn:Hk; [|discriminate].
    apply keq_eq in Hk. subst k. now intros [= <-].
Qed.

Lemma run_threads_ok c self fs :
  threads_ok self -> threads_ok (fst (run c self fs)).
Proof.
  intros Hok. destruct c; cbn [run fst].
  - now apply (threads_ok_same self).
  - unfold ChatManager.stop.
    destruct (ImageManager.stop (ChatManager.image_manager self) fs).
    now apply (threads_ok_same self).
  - unfold ChatManager.create_thread.
    destruct (thread_digest (JStr name) (ChatManager.opt_str creator_id) ts)
      as [thread_id|e]; cbn [bind fst]; [|exact Hok].
    destruct (ChatThread.__init__ thread_id name is_private creator_id 12 now)
      as [thread|e] eqn:Hinit; cbn [bind fst]; [|exact Hok].
    apply (threads_ok_set self _ thread_id thread Hok); [|reflexivity].
    now apply thread_ok_init in Hinit.
  - unfold ChatManager.add_message.
    destruct (get _ (ChatManager.threads self)) as [thread|] eqn:Hget;
      cbn [fst]; [|exact Hok].
    eapply (threads_ok_set self); [exact Hok | | reflexivity].
    apply thread_ok_add; [|reflexivity]. now apply (proj2 Hok).
  - unfold ChatManager.add_image_message.
    destruct (get _ (ChatManager.threads self)) as [thread|] eqn:Hget;
      cbn [fst]; [|exact Hok].
    destruct (ImageManager.store_image _ _ _ _ _ _ _ _) as [[im fs'] [image_id|e]];
      cbn [fst].
    + eapply (threads_ok_set self); [exact Hok | | reflexivity].
      apply thread_ok_add; [|reflexivity]. now apply (proj2 Hok).
    + now apply (threads_ok_same self).
  - unfold ChatManager.set_current_thread.
    destruct (mem thread_id (ChatManager.threads self)); [|exact Hok].
    now apply (threads_ok_same self).
  - now apply (threads_ok_same self).
  - now apply (threads_ok_same self).
  - unfold ChatManager.cleanup_pass, ChatManager.delete_expired.
    now apply delete_expired_threads_ok.
  - now apply delete_thread_threads_ok.
Qed.

(** X19.  The threads of a manager stay well formed.  In every manager a program
    can reach, each thread is registered under its own id and under no
    other key, its participants are exactly the senders of its messages
    (so there are never more participants than messages), every message
    filed in it names it, and it expires twelve hours after its creation
    unless it is "main". *)
Theorem reachable_threads_are_well_formed (self : ChatManager.t) :
  reachable self ->
  threads_ok self
  /\ forall k thread,
       ChatManager.get_thread self k = Some thread ->
       (List.length (ChatThread.participants thread)
        <= List.length (ChatThread.messages thread))%nat.
Proof.
  intros Hreach.
  assert (Hok : threads_ok self).
  { induction Hreach as [now self Hinit | c self fs _ IH].
    - now apply init_threads_ok in Hinit.
    - now apply run_threads_ok. }
  split; [exact Hok|]. intros k thread Hget.
  destruct (proj2 Hok k thread Hget) as (_ & Hnd & Hp & _).
  replace (List.length (ChatThread.messages thread))
    with (List.length (senders thread)) by apply length_map.
  apply NoDup_incl_length; [exact Hnd|]. intros x Hx. now apply Hp.
Qed.

(** X20.  A message that is added is the last message of its thread.
    [add_message] on a registered thread (the selected one when no id is
    given) returns the message built from its arguments, appends it to that
    thread and to no other, calls the message handlers in the order of their
    registration, and changes neither the selection nor the set of threads;
    on an id that is not registered it returns [None] and does nothing. *)
Theorem added_message_is_the_last_of_its_thread
    (self : ChatManager.t) (content sender_id sender_username : string)
    (thread_id : option string) (message_type : string)
    (ts : pyfloat) (now : Datetime.datetime) :
  let target :=
    match thread_id with Some i => i | None => ChatManager.current_thread_id self end in
  let out :=
    ChatManager.add_message self content sender_id sender_username thread_id
      message_type ts now in
  let self' := fst (fst out) in
  let message :=
    ChatMessage.mk content sender_id sender_username target ts message_type now in
  (mem target (ChatManager.threads self) = true ->
   snd out = Some message
   /\ ChatManager.get_thread_messages self' (Some target)
      = ChatManager.get_thread_messages self (Some target) ++ [message]
   /\ (forall other, other <> target ->
         ChatManager.get_thread self' other = ChatManager.get_thread self other)
   /\ snd (fst out)
      = map (fun h => (h, ChatManager.message_added message))
          (ChatManager.message_handlers self)
   /\ ChatManager.current_thread_id self' = ChatManager.current_thread_id self
   /\ keys (ChatManager.threads self') = keys (ChatManager.threads self))
  /\ (mem target (ChatManager.threads self) = false ->
      out = (self, [], None)).
Proof.
  cbn zeta. unfold ChatManager.add_message.
  set (target := match thread_id with
                 | Some i => i
                 | None => ChatManager.current_thread_id self
                 end).
  split.
  - intros Hmem. pose proof Hmem as Hget.
    apply mem_get in Hget as [thread Hget]. rewrite Hget.
    cbn [fst snd]. split; [reflexivity|].
    unfold ChatManager.get_thread_messages, ChatManager.get_thread.
    cbn [ChatManager.threads ChatManager.with_threads
         ChatManager.current_thread_id].
    rewrite get_set_same, Hget. split; [reflexivity|].
    split; [intros other Hne; apply get_set_other; congruence|].
    split; [reflexivity|]. split; [reflexivity|].
    now apply keys_set_present.
  - intros Hmem. apply mem_false_get in Hmem. now rewrite Hmem.
Qed.

(** X21.  A thread that is created can be looked up.  When [create_thread] returns
    an id, [get_thread] on that id gives an empty thread with the name, the
    privacy flag and the creator passed, created at the clock reading and
    expiring twelve hours later (never, if the id came out as "main"); a
    thread that was registered under the id is replaced, with its messages;
    every other thread and the selection are as before, and the thread
    handlers are called in the order of their registration. *)
Theorem created_thread_can_be_looked_up
    (self : ChatManager.t) (name : string) (is_private : bool)
    (creator_id : option string) (ts : pyfloat) (now : Datetime.datetime)
    (thread_id : string) :
  let out := ChatManager.create_thread self name is_private creator_id ts now in
  let self' := fst (fst out) in
  snd out = Ok thread_id ->
  exists thread,
    ChatManager.get_thread self' thread_id = Some thread
    /\ thread
       = ChatThread.mk thread_id name is_private creator_id now
           (if (thread_id =? "main")%string then None else Some (now + 12 * hour))
           [] []
    /\ thread_digest (JStr name) (ChatManager.opt_str creator_id) ts = Ok thread_id
    /\ (forall other, other <> thread_id ->
          ChatManager.get_thread self' other = ChatManager.get_thread self other)
    /\ ChatManager.current_thread_id self' = ChatManager.current_thread_id self
    /\ snd (fst out)
       = map (fun h => (h, ChatManager.thread_created thread))
           (ChatManager.thread_handlers self).
Proof.
  cbn zeta. unfold ChatManager.create_thread.
  destruct (thread_digest (JStr name) (ChatManager.opt_str creator_id) ts)
    as [k|e]; cbn [bind fst snd]; [|discriminate].
  destruct (ChatThread.__init__ k name is_private creator_id 12 now)
    as [thread|e] eqn:Hinit; cbn [bind fst snd]; [|discriminate].
  intros [= ->]. exists thread.
  unfold ChatManager.get_thread.
  cbn [ChatManager.threads ChatManager.with_threads ChatManager.current_thread_id].
  split; [apply get_set_same|]. split.
  - destruct (thread_init_fields _ _ _ _ _ _ _ Hinit)
      as (Hid & Hname & Hpriv & Hcreator & Hm & Hp).
    destruct (thread_init_ok _ _ _ _ _ _ _ Hinit) as [Hc He].
    destruct thread as [i n p c ca ea ms ps]. cbn in *. subst.
    now destruct (thread_id =? "main")%string.
  - split; [reflexivity|].
    split; [intros other Hne; apply get_set_other; congruence|].
    split; reflexivity.
Qed.

(** X22.  The time remaining agrees with the expiry test.  A thread that never
    expires has no time remaining to report; for any other thread the time
    remaining is never negative, it is the distance to the expiry instant as
    long as the thread has not expired, and zero from the expiry instant
    on. *)
Theorem time_remaining_agrees_with_expiry
    (thread : ChatThread.t) (now : Datetime.datetime) :
  (ChatThread.expires_at thread = None <->
   ChatThread.get_time_remaining thread now = None)
  /\ (forall remaining,
        ChatThread.get_time_remaining thread now = Some remaining ->
        0 <= remaining
        /\ (ChatThread.is_expired thread now = true -> remaining = 0)
        /\ (ChatThread.is_expired thread now = false ->
            ChatThread.expires_at thread = Some (now + remaining))).
Proof.
  unfold ChatThread.get_time_remaining, ChatThread.is_expired.
  destruct (ChatThread.expires_at thread) as [e|].
  - split; [split; discriminate|]. intros remaining [= <-].
    destruct (e - now >? 0) eqn:Hpos; destruct (now >? e) eqn:Hexp;
      rewrite Z.gtb_ltb in Hpos, Hexp;
      try (apply Z.ltb_lt in Hpos); try (apply Z.ltb_ge in Hpos);
      try (apply Z.ltb_lt in Hexp); try (apply Z.ltb_ge in Hexp);
      (split; [lia|]); (split; [intros; try discriminate; lia|]);
      intros; try discriminate; f_equal; lia.
  - split; [split; reflexivity|]. discriminate.
Qed.
End ThreadMore.

(** ** The cleanup of threads and images *)

Section CleanupMore.
Context {hash : HashLib}.
Import ChatManager.

Lemma expired_in_keys items clock :
  forall i k, In k (expired_threads items clock i) -> In k (keys items).
Proof.
  induction items as [|[k0 thread] items IH]; intros i k; cbn; [tauto|].
  destruct (ChatThread.is_expired thread (clock i)); cbn.
  - intros [-> | Hin]; [now left | right; now apply (IH (S i))].
  - intros Hin. right. now apply (IH (S i)).
Qed.

Lemma expired_nodup items clock :
  forall i, NoDup (keys items) -> NoDup (expired_threads items clock i).
Proof.
  induction items as [|[k0 thread] items IH]; intros i Hnd; cbn; [constructor|].
  inversion Hnd as [|? ? Hni Hnd']; subst.
  destruct (ChatThread.is_expired thread (clock i)); [|now apply IH].
  constructor; [|now apply IH]. intros Hin. apply Hni.
  now apply expired_in_keys in Hin.
Qed.

Lemma expired_iff items clock :
  forall i k,
    In k (expired_threads items clock i)
    <-> exists j thread, nth_error items j = Some (k, thread)
                         /\ ChatThread.is_expired thread (clock (i + j)%nat) = true.
Proof.
  induction items as [|[k0 thread] items IH]; intros i k; cbn [expired_threads].
  - split; [intros [] | intros ([|j] & th & Hnth & _); discriminate].
  - assert (Hrest : In k (expired_threads items clock (S i))
                    <-> exists j th, nth_error ((k0, thread) :: items) (S j) = Some (k, th)
                                     /\ ChatThread.is_expired th (clock (i + S j)%nat) = true).
    { rewrite IH. split; intros (j & th & Hnth & He); exists j, th;
        (split; [exact Hnth|]); now rewrite <- ?Nat.add_succ_comm in *. }
    destruct (ChatThread.is_expired thread (clock i)) eqn:Hexp.
    + cbn [In]. rewrite Hrest. split.
      * intros [<- | (j & th & Hnth & He)].
        -- exists 0%nat, thread. split; [reflexivity|]. now rewrite Nat.add_0_r.
        -- now exists (S j), th.
      * intros ([|j] & th & Hnth & He).
        -- left. cbn in Hnth. now injection Hnth as -> _.
        -- right. now exists j, th.
    + rewrite Hrest. split.
      * intros (j & th & Hnth & He). now exists (S j), th.
      * intros ([|j] & th & Hnth & He).
        -- cbn in Hnth. injection Hnth as _ <-. rewrite Nat.add_0_r in He. congruence.
        -- now exists j, th.
Qed.

(** One step of the second loop. *)
Lemma delete_step_spec st k :
  let gone := negb (k =? "main")%string && mem k (threads (fst st)) in
  threads (fst (delete_step st k))
  = (if gone then del k (threads (fst st)) else threads (fst st))
  /\ current_thread_id (fst (delete_step st k))
     = (if gone && (current_thread_id (fst st) =? k)%string
        then "main" else current_thread_id (fst st))
  /\ thread_handlers (fst (delete_step st k)) = thread_handlers (fst st)
  /\ image_manager (fst (delete_step st k)) = image_manager (fst st)
  /\ snd (delete_step st k) = snd st ++ deletions (fst st) [k].
Proof.
  cbn zeta. unfold delete_step, deletions, _delete_thread, mem. cbn [filter flat_map].
  destruct (k =? "main")%string eqn:Hmain; cbn [negb andb].
  - cbn [flat_map]. rewrite app_nil_r. repeat split.
  - cbn [flat_map]. rewrite app_nil_r.
    destruct (get k (threads (fst st))) as [thread|]; cbn [fst snd].
    + cbn [current_thread_id with_threads].
      destruct (current_thread_id (fst st) =? k)%string; cbn; repeat split.
    + rewrite app_nil_r. repeat split.
Qed.

Lemma deletions_cons self k expired :
  deletions self (k :: expired) = deletions self [k] ++ deletions self expired.
Proof.
  unfold deletions. cbn [filter].
  destruct (negb (k =? "main")%string); cbn [flat_map]; [|reflexivity].
  now rewrite app_nil_r.
Qed.

Lemma deletions_ext self1 self2 expired :
  thread_handlers self1 = thread_handlers self2 ->
  (forall k, In k expired -> get k (threads self1) = get k (threads self2)) ->
  deletions self1 expired = deletions self2 expired.
Proof.
  intros Hh Hget. induction expired as [|k expired IH]; [reflexivity|].
  rewrite (deletions_cons self1), (deletions_cons self2).
  rewrite IH by (intros k' Hin; apply Hget; now right). f_equal.
  unfold deletions. cbn [filter].
  destruct (negb (k =? "main")%string); cbn [flat_map]; [|reflexivity].
  rewrite Hh, (Hget k) by now left. reflexivity.
Qed.

Lemma existsb_eqb_in (k : string) l : existsb (String.eqb k) l = true <-> In k l.
Proof.
  rewrite existsb_exists. split.
  - intros (x & Hin & Heq). apply String.eqb_eq in Heq. now subst.
  - intros Hin. exists k. split; [exact Hin | apply String.eqb_refl].
Qed.

Lemma existsb_eqb_not_in (k : string) l : ~ In k l -> existsb (String.eqb k) l = false.
Proof.
  intros Hni. destruct (existsb (String.eqb k) l) eqn:He; [|reflexivity].
  now apply existsb_eqb_in in He.
Qed.

(** The second loop, on a list without repetition. *)
Lemma delete_expired_spec expired :
  forall st,
    NoDup expired ->
    NoDup (keys (threads (fst st))) ->
    let r := fold_left delete_step expired st in
    (forall k, get k (threads (fst r))
               = if existsb (String.eqb k) expired && negb (k =? "main")%string
                 then None else get k (threads (fst st)))
    /\ current_thread_id (fst r)
       = (if existsb (String.eqb (current_thread_id (fst st))) expired
             && negb (current_thread_id (fst st) =? "main")%string
             && mem (current_thread_id (fst st)) (threads (fst st))
          then "main" else current_thread_id (fst st))
    /\ thread_handlers (fst r) = thread_handlers (fst st)
    /\ image_manager (fst r) = image_manager (fst st)
    /\ snd r = snd st ++ deletions (fst st) expired.
Proof.
  induction expired as [|k expired IH]; intros st Hnd Hkeys; cbn zeta.
  - cbn [fold_left existsb andb]. unfold deletions. cbn. rewrite app_nil_r.
    repeat split.
  - cbn [fold_left]. inversion Hnd as [|? ? Hni Hnd']; subst.
    destruct (delete_step_spec st k) as (Hth & Hcur & Hh & Him & Hcalls).
    cbn zeta in Hth, Hcur.
    assert (Hkeys1 : NoDup (keys (threads (fst (delete_step st k))))).
    { rewrite Hth. destruct (_ && _); [now apply nodup_del | exact Hkeys]. }
    assert (Hother : forall k', k' <> k ->
              get k' (threads (fst (delete_step st k))) = get k' (threads (fst st))).
    { intros k' Hne. rewrite Hth. destruct (_ && _); [|reflexivity].
      apply get_del_other. congruence. }
    destruct (IH (delete_step st k) Hnd' Hkeys1) as (Ith & Icur & Ih & Iim & Icalls).
    cbn zeta in Ith, Icur.
    split; [|split; [|split; [|split]]].
    + intros k'. rewrite Ith. cbn [existsb].
      destruct (String.eqb k' k) eqn:Hk.
      * apply String.eqb_eq in Hk. subst k'.
        rewrite (existsb_eqb_not_in _ _ Hni). cbn [andb orb].
        rewrite Hth. unfold mem.
        destruct (negb (k =? "main")%string); cbn [andb]; [|reflexivity].
        destruct (get k (threads (fst st))) eqn:Hget; [|exact Hget].
        now apply get_del_same.
      * apply String.eqb_neq in Hk. cbn [orb]. rewrite (Hother _ Hk). reflexivity.
    + rewrite Icur, Hcur. cbn [existsb].
      destruct (String.eqb (current_thread_id (fst st)) k) eqn:Hk.
      * apply String.eqb_eq in Hk. rewrite Hk. cbn [orb andb].
        destruct (negb (k =? "main")%string && mem k (threads (fst st))) eqn:Hgone;
          cbn [andb].
        -- match goal with |- (if ?c then _ else _) = _ => now destruct c end.
        -- now rewrite (existsb_eqb_not_in _ _ Hni).
      * rewrite andb_false_r. cbn [orb].
        apply String.eqb_neq in Hk.
        assert (Hm : mem (current_thread_id (fst st)) (threads (fst (delete_step st k)))
                     = mem (current_thread_id (fst st)) (threads (fst st)))
          by (unfold mem; now rewrite (Hother _ Hk)).
        now rewrite Hm.
    + now rewrite Ih.
    + now rewrite Iim.
    + rewrite Icalls, Hcalls, <- app_assoc. f_equal.
      rewrite (deletions_cons (fst st) k expired). f_equal.
      apply deletions_ext; [exact Hh|].
      intros k' Hin. apply Hother. intros ->. contradiction.
Qed.

(** X23.  A turn of the cleanup loop removes exactly the expired threads.  On a
    registry with one entry per id, the ids collected are those of the
    threads that answer [is_expired()] at the clock reading taken for them;
    after the turn each of them but "main" is gone, every other thread is as
    it was, the selection has moved to "main" if the selected thread was
    collected, the thread handlers have been told of every deletion in the
    order of the registry, and the image store is untouched: the images of a
    deleted thread stay until they expire themselves. *)
Theorem cleanup_turn_removes_the_expired_threads
    (self : t) (clock : nat -> Datetime.datetime) :
  NoDup (keys (threads self)) ->
  let expired := expired_threads (threads self) clock 0%nat in
  let self' := fst (cleanup_pass self clock) in
  (forall k, In k expired
             <-> exists i thread, nth_error (threads self) i = Some (k, thread)
                                  /\ ChatThread.is_expired thread (clock i) = true)
  /\ (forall k, In k expired -> k <> "main" -> get_thread self' k = None)
  /\ (forall k, ~ In k expired \/ k = "main" -> get_thread self' k = get_thread self k)
  /\ (In (current_thread_id self) expired -> current_thread_id self' = "main")
  /\ (~ In (current_thread_id self) expired ->
      current_thread_id self' = current_thread_id self)
  /\ image_manager self' = image_manager self
  /\ snd (cleanup_pass self clock) = deletions self expired.
Proof.
  intros Hnd. cbn zeta. unfold cleanup_pass, delete_expired, get_thread.
  destruct (delete_expired_spec (expired_threads (threads self) clock 0%nat) (self, [])
              (expired_nodup _ _ _ Hnd) Hnd) as (Hth & Hcur & _ & Him & Hcalls).
  cbn zeta in Hth, Hcur. cbn [fst snd] in Hth, Hcur, Him, Hcalls.
  split; [intros k; apply (expired_iff _ _ 0%nat)|].
  split; [|split; [|split; [|split; [|split]]]].
  - intros k Hin Hmain. rewrite Hth.
    apply existsb_eqb_in in Hin. rewrite Hin.
    apply String.eqb_neq in Hmain. now rewrite Hmain.
  - intros k [Hni | ->]; rewrite Hth.
    + now rewrite (existsb_eqb_not_in _ _ Hni).
    + now rewrite andb_false_r.
  - intros Hin. rewrite Hcur.
    assert (Hmem : mem (current_thread_id self) (threads self) = true).
    { apply expired_in_keys in Hin. unfold mem.
      destruct (get (current_thread_id self) (threads self)) eqn:Hget; [reflexivity|].
      now apply get_none_not_in in Hget. }
    apply existsb_eqb_in in Hin. rewrite Hin, Hmem. cbn [andb].
    destruct (current_thread_id self =? "main")%string eqn:Hm; cbn [negb andb];
      [now apply String.eqb_eq in Hm | reflexivity].
  - intros Hni. rewrite Hcur. now rewrite (existsb_eqb_not_in _ _ Hni).
  - exact Him.
  - exact Hcalls.
Qed.

Lemma in_del {V : Type} (x : string * V) k d : In x (del k d) -> In x d.
Proof.
  induction d as [|[k0 v0] d IH]; cbn; [tauto|].
  destruct (String.eqb k k0); cbn; [now right|].
  intros [<- | Hin]; [now left | right; now apply IH].
Qed.

Lemma delete_all_frame ids :
  forall self fs,
    ImageManager.running (fst (ImageManager.delete_all self fs ids))
    = ImageManager.running self
    /\ ImageManager.temp_dir (fst (ImageManager.delete_all self fs ids))
       = ImageManager.temp_dir self
    /\ (forall x, In x (ImageManager.images (fst (ImageManager.delete_all self fs ids))) ->
                  In x (ImageManager.images self)).
Proof.
  induction ids as [|image_id ids IH]; intros self fs; [now repeat split|].
  rewrite delete_all_cons.
  destruct (IH (fst (ImageManager._delete_image self fs image_id))
               (snd (ImageManager._delete_image self fs image_id)))
    as (Hr & Ht & Hin).
  rewrite Hr, Ht. unfold ImageManager._delete_image in *.
  destruct (get image_id (ImageManager.images self)); cbn [fst snd] in *.
  - split; [reflexivity|]. split; [reflexivity|].
    intros x Hx. apply Hin in Hx. cbn in Hx. now apply in_del in Hx.
  - split; [reflexivity|]. split; [reflexivity|]. exact Hin.
Qed.

Lemma delete_all_other_files p ids :
  forall self fs,
    (forall k info, In (k, info) (ImageManager.images self) ->
                    ImageManager.path info <> p) ->
    get p (snd (ImageManager.delete_all self fs ids)) = get p fs.
Proof.
  induction ids as [|image_id ids IH]; intros self fs Hp; [reflexivity|].
  rewrite delete_all_cons.
  unfold ImageManager._delete_image.
  destruct (get image_id (ImageManager.images self)) as [info|] eqn:Hget;
    cbn [fst snd].
  - rewrite IH.
    + apply get_del_other. apply (Hp image_id). now apply get_in_items.
    + intros k info' Hin. cbn in Hin. apply in_del in Hin. now apply (Hp k).
  - now apply IH.
Qed.

(** X24.  Stopping releases every image.  After [stop] the store is empty and not
    running, the file of every image that was registered is removed, a file
    that belongs to no registered image is left alone, and every id is "not
    found" from then on. *)
Theorem stop_releases_every_image (self : ImageManager.t) (fs : filesystem) :
  NoDup (keys (ImageManager.images self)) ->
  NoDup (keys fs) ->
  let st := ImageManager.stop self fs in
  ImageManager.images (fst st) = []
  /\ ImageManager.running (fst st) = false
  /\ ImageManager.temp_dir (fst st) = ImageManager.temp_dir self
  /\ (forall k info, get k (ImageManager.images self) = Some info ->
                     get (ImageManager.path info) (snd st) = None)
  /\ (forall p, (forall k info, get k (ImageManager.images self) = Some info ->
                                ImageManager.path info <> p) ->
                get p (snd st) = get p fs)
  /\ (forall k now, ImageManager.get_image (fst st) (snd st) k now
                    = (fst st, snd st, None)).
Proof.
  intros Hi Hf. cbn zeta. unfold ImageManager.stop, ImageManager._cleanup_all_images.
  cbn [ImageManager.images].
  set (self0 := ImageManager.mk (ImageManager.temp_dir self) (ImageManager.images self)
                  false).
  set (ids := keys (ImageManager.images self)).
  destruct (delete_all_frame ids self0 fs) as (Hr & Ht & Hin).
  assert (Hrel : forall k info,
            get k (ImageManager.images self) = Some info ->
            released (ImageManager.delete_all self0 fs ids) k (ImageManager.path info)).
  { intros k info Hget. apply delete_all_releases; [exact Hi | exact Hf |].
    right. split; [exact Hget|]. now apply get_in_keys in Hget. }
  assert (Hempty : ImageManager.images (fst (ImageManager.delete_all self0 fs ids)) = []).
  { destruct (ImageManager.images (fst (ImageManager.delete_all self0 fs ids)))
      as [|[k info] rest] eqn:Himgs; [reflexivity|]. exfalso.
    assert (Hx : In (k, info) (ImageManager.images self))
      by (apply Hin; now left).
    apply in_items_get in Hx; [|exact Hi].
    destruct (Hrel k info Hx) as [Hnone _]. rewrite Himgs in Hnone.
    cbn in Hnone. now rewrite String.eqb_refl in Hnone. }
  split; [exact Hempty|]. split; [exact Hr|]. split; [exact Ht|].
  split; [intros k info Hget; now apply (Hrel k info)|].
  split.
  - intros p Hp. apply delete_all_other_files.
    intros k info Hx. apply (Hp k). now apply in_items_get.
  - intros k now. unfold ImageManager.get_image. now rewrite Hempty.
Qed.

(** X25.  An image message refers to the image that was stored.  On a thread that
    is not registered [add_image_message] stores nothing and returns [None].
    When it returns a message, the image is stored under the id the message
    quotes as [[IMAGE:id]], the message is of type image and is the last of
    the thread, and [get_image] on that id returns the image data at every
    instant up to 30 minutes after the clock reading of the store. *)
Theorem image_message_refers_to_the_stored_image
    (self : t) (fs : filesystem) (image_data : bytes)
    (sender_id sender_username : string) (thread_id : option string)
    (ts_img : pyfloat) (now1 now2 : Datetime.datetime)
    (ts : pyfloat) (now : Datetime.datetime) :
  let target :=
    match thread_id with Some i => i | None => current_thread_id self end in
  let out :=
    add_image_message self fs image_data sender_id sender_username thread_id
      ts_img now1 now2 ts now in
  let self' := fst (fst (fst out)) in
  let fs' := snd (fst (fst out)) in
  (mem target (threads self) = false -> out = (self, fs, [], Ok None))
  /\ (forall message,
        snd out = Ok (Some message) ->
        exists image_id,
          image_digest image_data sender_id ts_img = Ok image_id
          /\ message
             = ChatMessage.mk ("[IMAGE:" ++ image_id ++ "]")%string sender_id
                 sender_username target ts "image" now
          /\ get_thread_messages self' (Some target)
             = get_thread_messages self (Some target) ++ [message]
          /\ snd (fst out) = map (fun h => (h, message_added message))
                               (message_handlers self)
          /\ (forall later,
                later <= now2 + half_hour ->
                snd (ImageManager.get_image (image_manager self') fs' image_id later)
                = Some image_data)).
Proof.
  cbn zeta. unfold add_image_message.
  set (target := match thread_id with Some i => i | None => current_thread_id self end).
  split.
  - intros Hmem. apply mem_false_get in Hmem. now rewrite Hmem.
  - intros message.
    destruct (get target (threads self)) as [thread|] eqn:Hget;
      [|cbn; discriminate].
    destruct (ImageManager.store_image (image_manager self) fs image_data sender_id
                target ts_img now1 now2) as [[im fs1] [image_id|e]] eqn:Hstore;
      cbn [fst snd]; [|discriminate].
    intros [= <-]. exists image_id.
    pose proof (store_image_ok _ _ _ _ _ _ _ _ _ _ _ Hstore) as [Him Hfs].
    cbn zeta in Him, Hfs.
    split.
    { unfold ImageManager.store_image in Hstore.
      destruct (image_digest image_data sender_id ts_img) as [i|e]; [|discriminate].
      destruct (td <- Datetime.minutes 30 ;; Datetime.add now2 td);
        [|discriminate].
      now injection Hstore as _ _ ->. }
    split; [reflexivity|].
    split.
    { unfold get_thread_messages.
      cbn [threads with_threads with_images current_thread_id].
      now rewrite get_set_same, Hget. }
    split; [reflexivity|].
    intros later Hlater.
    cbn [image_manager with_threads with_images].
    unfold ImageManager.get_image. rewrite Him.
    cbn [ImageManager.images ImageManager.with_images].
    rewrite get_set_same. cbn [ImageManager.expires_at ImageManager.path].
    rewrite (gtb_le _ _ Hlater). cbn [snd]. rewrite Hfs. apply get_set_same.
Qed.
End CleanupMore.

(** * The model on the scenarios *)

#[local] Existing Instance Ref.crypto.
#[local] Existing Instance Ref.json.
#[local] Existing Instance Ref.hash.
#[local] Existing Instance Ref.runtime.

Import Scenario.

(** ** The ratchet engine *)

(** Alice's second message for Bob: the key is the one drawn, and her chain
    key and root key stay. *)
Lemma second_message_key_is_drawn :
  DoubleRatchet.select_message_key alice1 bob_pk drawn2 = Ok (alice1, drawn2)
  /\ DoubleRatchet.chain_keys
       (fst (DoubleRatchet.encrypt_message alice1 (b "two") bob_pk drawn2 nonce2))
     = DoubleRatchet.chain_keys alice1
  /\ DoubleRatchet.root_key
       (fst (DoubleRatchet.encrypt_message alice1 (b "two") bob_pk drawn2 nonce2))
     = DoubleRatchet.root_key alice1.
Proof.
  assert (Hck : exists chain_key,
             get bob_pk (DoubleRatchet.chain_keys alice1) = Some chain_key)
    by (eexists; vm_compute; reflexivity).
  destruct Hck as [chain_key Hck].
  destruct (existing_chain_message_key_is_random
              alice1 (b "two") bob_pk drawn2 nonce2 chain_key Hck)
    as (Hkey & Hchain & Hroot & _).
  split; [exact Hkey|]. split; [exact Hchain | exact Hroot].
Defined.

(** Two chain keys, one message key: on an existing chain the key does not
    depend on the chain key. *)
Example message_key_ignores_chain_key :
  let other := DoubleRatchet.mk alice_key shared_root [(bob_pk, drawn3)] [(bob_pk, 1)]
                 [(bob_pk, [])] in
  get bob_pk (DoubleRatchet.chain_keys other) <> get bob_pk (DoubleRatchet.chain_keys alice1)
  /\ snd (DoubleRatchet.encrypt_message_data other (b "two") bob_pk drawn2 nonce2)
     = snd (DoubleRatchet.encrypt_message_data alice1 (b "two") bob_pk drawn2 nonce2).
Proof. split; [vm_compute; discriminate | vm_compute; reflexivity]. Qed.

(** The first call of Alice for Bob raises [TypeError]. *)
Lemma first_message_raises_type_error :
  is_ok (snd (DoubleRatchet.encrypt_message alice (b "one") bob_pk drawn1 nonce1)) = false
  /\ snd (DoubleRatchet.encrypt_message alice (b "one") bob_pk drawn1 nonce1)
     = Raise TypeError.
Proof.
  pose proof (encrypt_message_never_returns alice (b "one") bob_pk drawn1 nonce1)
    as [Hnot Hcase].
  split; [exact Hnot|].
  assert (Hbuilt : snd (DoubleRatchet.encrypt_message_data alice (b "one") bob_pk
                          drawn1 nonce1) = Ok (built (snd call1)))
    by (vm_compute; reflexivity).
  rewrite Hbuilt in Hcase. exact Hcase.
Defined.

(** Had the structure reached Bob with its public key in hexadecimal, Bob
    would have read "one": in this scenario he was given Alice's root key,
    which the constructor, drawing a root key for each engine, never
    arranges. *)
Example first_message_agrees_on_the_wire :
  DoubleRatchet.decrypt_message bob payload1 drawn4
  = (fst (DoubleRatchet.decrypt_message bob payload1 drawn4), Ok (b "one")).
Proof. vm_compute. reflexivity. Qed.


(** Alice's first call: the stored number goes from "none" to 1 and the
    structure built carries 1, but the call raises and returns nothing; her
    second call builds 2 and raises alike. *)
Lemma first_message_number_is_one :
  counter alice bob_pk = 0
  /\ counter alice1 bob_pk = 1
  /\ get "message_number" (built (snd call1)) = Some (PJson (JInt 1))
  /\ DoubleRatchet.encrypt_message alice (b "one") bob_pk drawn1 nonce1
     = (alice1, Raise TypeError)
  /\ get "message_number" (built (snd call2)) = Some (PJson (JInt 2))
  /\ DoubleRatchet.encrypt_message alice1 (b "two") bob_pk drawn2 nonce2
     = (alice2, Raise TypeError).
Proof.
  assert (Hrun : DoubleRatchet.encrypt_message_data alice (b "one") bob_pk drawn1 nonce1
                 = (alice1, Ok (built (snd call1))))
    by (vm_compute; reflexivity).
  destruct (message_number_increases_by_one
              alice alice1 (b "one") bob_pk drawn1 nonce1 (built (snd call1))
              (same_peers_init alice_key shared_root) Hrun)
    as (Hraise & Hcounter & Hnumber & Hnext & _).
  assert (Hrun2 : DoubleRatchet.encrypt_message_data alice1 (b "two") bob_pk drawn2 nonce2
                  = (alice2, Ok (built (snd call2))))
    by (vm_compute; reflexivity).
  destruct (Hnext _ _ _ _ _ Hrun2) as (Hraise2 & _ & Hnumber2).
  split; [reflexivity|]. split; [exact Hcounter|].
  split; [exact Hnumber|]. split; [exact Hraise|].
  split; [exact Hnumber2 | exact Hraise2].
Defined.

(** ** The envelope codec and the broadcast relay *)

(** C6 (as stated, refuted).  An empty JSON object has no field at all, and
    an envelope of type MESSAGE with no ["data"] lacks a required one:
    [parse_message] returns both as they are, and neither has the type
    ERROR. *)
Lemma envelope_without_fields_is_not_an_error :
  MessageProtocol.parse_message (b "{}") = JObj []
  /\ MessageProtocol.envelope_type (MessageProtocol.parse_message (b "{}")) = None
  /\ MessageProtocol.envelope_type
       (MessageProtocol.parse_message (dumps (JObj [("type", JStr "MESSAGE")])))
     = Some (JStr MessageProtocol.MESSAGE).
Proof.
  split; [vm_compute; reflexivity|]. split; vm_compute; reflexivity.
Qed.

(** Bytes that are no JSON come back as the error envelope. *)
Example garbage_is_an_error_envelope :
  MessageProtocol.envelope_type (MessageProtocol.parse_message (b "not json"))
  = Some (JStr MessageProtocol.ERROR).
Proof.
  apply (proj1 (parse_message_total (b "not json"))). vm_compute. reflexivity.
Qed.

(** With Alice, Bob and Carol joined, Alice's CREATE_THREAD is sent to Alice
    too. *)
Lemma thread_creation_is_sent_to_its_sender :
  recipients (NetworkServer._handle_create_thread relay 1%nat (JObj thread_fields)
                t0 t0 t0 t0)
  = [1%nat; 2%nat; 3%nat].
Proof. vm_compute. reflexivity. Qed.

(** With Alice, Bob and Carol joined, Alice's MESSAGE goes to Bob and Carol
    and not to Alice, and her CREATE_THREAD goes to all three. *)
Lemma message_from_alice_reaches_bob_and_carol :
  recipients (NetworkServer._handle_message relay 1%nat (JObj text_fields) t0 t0)
  = [2%nat; 3%nat]
  /\ (forall r, ~ In (1%nat, r)
                  (NetworkServer.sent
                     (NetworkServer._handle_message relay 1%nat (JObj text_fields) t0 t0)))
  /\ recipients (NetworkServer._handle_create_thread relay 1%nat (JObj thread_fields)
                   t0 t0 t0 t0)
     = keys (NetworkServer.clients relay).
Proof.
  assert (Hjoined : joined relay 1%nat alice_info) by (split; vm_compute; reflexivity).
  assert (Hdata : py_get (JObj text_fields) "data" (JObj [])
                  = Ok (JObj [("content", JStr "hello"); ("thread_id", JStr "main")]))
    by reflexivity.
  assert (Hid : thread_digest
                  (get_default "thread_name" JNull
                     [("content", JStr "hello"); ("thread_id", JStr "main")])
                  (get_default "creator_id" JNull
                     [("content", JStr "hello"); ("thread_id", JStr "main")]) t0
                = Ok (Ref.digest16 "NoneNone1700000000.5"))
    by (vm_compute; reflexivity).
  destruct (broadcast_reaches_the_others relay 1%nat alice_info (JObj text_fields)
              _ _ t0 t0 t0 t0 Hjoined Hdata Hid)
    as ((_ & _ & Hto & _ & Hnot) & _ & _).
  assert (Hdata' : py_get (JObj thread_fields) "data" (JObj [])
                   = Ok (JObj [("thread_name", JStr "plans"); ("is_private", JBool false);
                               ("creator_id", JStr "a1")]))
    by reflexivity.
  assert (Hid' : thread_digest
                   (get_default "thread_name" JNull
                      [("thread_name", JStr "plans"); ("is_private", JBool false);
                       ("creator_id", JStr "a1")])
                   (get_default "creator_id" JNull
                      [("thread_name", JStr "plans"); ("is_private", JBool false);
                       ("creator_id", JStr "a1")]) t0
                 = Ok (Ref.digest16 "plansa11700000000.5"))
    by (vm_compute; reflexivity).
  destruct (broadcast_reaches_the_others relay 1%nat alice_info (JObj thread_fields)
              _ _ t0 t0 t0 t0 Hjoined Hdata' Hid')
    as (_ & _ & (_ & _ & Hall & _)).
  split; [rewrite Hto; vm_compute; reflexivity|]. split; [exact Hnot | exact Hall].
Defined.

(** The guest on connection 4 has not joined: its MESSAGE is dropped. *)
Lemma message_from_the_guest_is_dropped :
  NetworkServer._process_message relay_with_guest 4%nat (JObj text_fields) clock0 false
  = NetworkServer.done relay_with_guest []
  /\ NetworkServer.on_receive relay_with_guest 4%nat (dumps (JObj text_fields)) clock0 false
     = NetworkServer.done relay_with_guest [].
Proof.
  assert (Hun : unjoined relay_with_guest 4%nat) by apply register_client_unjoined.
  destruct (unjoined_requests_are_dropped relay_with_guest 4%nat text_fields
              t0 t0 t0 t0 Hun) as (_ & _ & _ & Hdispatch).
  destruct (Hdispatch "MESSAGE" clock0 false eq_refl (or_introl eq_refl))
    as [Hprocess Hreceive].
  split; [exact Hprocess|].
  destruct (dumps (JObj text_fields)) as [|c rest] eqn:Hbytes.
  - vm_compute in Hbytes. discriminate Hbytes.
  - apply Hreceive. rewrite <- Hbytes. vm_compute. reflexivity.
Defined.

(** ** The ephemeral store *)

(** C4 (as stated, refuted).  The image stored at 2024-01-01T00:00:00 has that
    instant as its [created_at]; at 00:30:00 sharp, which is
    [created_at + 30 minutes], [get_image] still returns it, and the store
    still holds its entry and its file. *)
Lemma image_is_found_at_the_expiry_instant :
  snd stored = Ok stored_id
  /\ option_map ImageManager.created_at (get stored_id (ImageManager.images stored_manager))
     = Some new_year
  /\ ImageManager.get_image stored_manager stored_files stored_id (new_year + half_hour)
     = (stored_manager, stored_files, Some (b "pixels")).
Proof.
  split; [vm_compute; reflexivity|]. split; vm_compute; reflexivity.
Qed.

(** The stored image is found up to 00:30:00 and gone one microsecond
    later. *)
Lemma stored_image_expires :
  ImageManager.get_image stored_manager stored_files stored_id (new_year + half_hour)
  = (stored_manager, stored_files, Some (b "pixels"))
  /\ snd (ImageManager.get_image stored_manager stored_files stored_id
            (new_year + half_hour + 1)) = None
  /\ get stored_id
       (ImageManager.images
          (fst (fst (ImageManager.get_image stored_manager stored_files stored_id
                       (new_year + half_hour + 1))))) = None.
Proof.
  assert (Hstore : ImageManager.store_image (ImageManager.__init__ "temp_images") []
                     (b "pixels") "a1" "main" t0 new_year new_year
                   = (stored_manager, stored_files, Ok stored_id))
    by (vm_compute; reflexivity).
  destruct (image_expires_after_half_an_hour
              (ImageManager.__init__ "temp_images") stored_manager [] stored_files
              (b "pixels") "a1" "main" stored_id t0 new_year new_year
              (NoDup_nil _) (NoDup_nil _) Hstore)
    as (info & _ & _ & Hexp & _ & Hbefore & Hafter & _).
  split; [apply Hbefore; rewrite Hexp; apply Z.le_refl|].
  destruct (Hafter (new_year + half_hour + 1)) as [Hnone [Hgone _]];
    [rewrite Hexp; apply Z.lt_succ_diag_r|].
  split; [exact Hnone | exact Hgone].
Defined.

(** A clock that steps back between the two readings of [store_image]
    shortens the life of the image: with [created_at] read at 01:00:00 and
    the second reading at 00:00:00.000001, the image expires before it was
    created and is "not found" at its own [created_at]. *)
Example clock_stepping_back_shortens_the_life :
  let st := ImageManager.store_image (ImageManager.__init__ "temp_images") []
              (b "pixels") "a1" "main" t0 (new_year + hour) (new_year + 1) in
  snd st = Ok stored_id
  /\ option_map ImageManager.created_at
       (get stored_id (ImageManager.images (fst (fst st)))) = Some (new_year + hour)
  /\ option_map ImageManager.expires_at
       (get stored_id (ImageManager.images (fst (fst st))))
     = Some (new_year + 1 + half_hour)
  /\ snd (ImageManager.get_image (fst (fst st)) (snd (fst st)) stored_id
            (new_year + hour)) = None.
Proof.
  cbn zeta. split; [vm_compute; reflexivity|]. split; [vm_compute; reflexivity|].
  split; vm_compute; reflexivity.
Qed.

(** A thread created at 2024-01-01T00:00:00 with the default 12 hours is not
    expired at noon and is expired one microsecond after noon. *)
Lemma twelve_hour_thread_expires_after_noon :
  exists thread,
    ChatThread.__init__ "fd346ca3db124a81" "plans" false (Some "a1") 12 new_year = Ok thread
    /\ ChatThread.is_expired thread (new_year + 12 * hour) = false
    /\ ChatThread.is_expired thread (new_year + 12 * hour + 1) = true.
Proof.
  eexists. split; [reflexivity|].
  match goal with
  | |- ChatThread.is_expired ?th _ = _ /\ _ =>
      destruct (thread_expiry_and_main_exemption
                  "fd346ca3db124a81" "plans" false (Some "a1") 12 new_year th eq_refl)
        as (_ & _ & Hiff & _)
  end.
  split.
  - apply not_true_is_false. intros Hexpired.
    apply (Hiff eq_refl) in Hexpired; [|discriminate].
    revert Hexpired. vm_compute. intros Hlt. discriminate Hlt.
  - apply (Hiff eq_refl); [discriminate|]. vm_compute. reflexivity.
Defined.

(** A manager that was started, received a thread and ran a cleanup turn a
    day later has lost the thread and kept "main", which is selected. *)
Example cleanup_a_day_later :
  exists self self1 thread_id,
    ChatManager.__init__ new_year = Ok self
    /\ ChatManager.create_thread (ChatManager.start self) "plans" false (Some "a1")
         t0 new_year = (self1, [], Ok thread_id)
    /\ keys (ChatManager.threads self1) = ["main"; thread_id]
    /\ (let self2 := fst (ChatManager.cleanup_pass
                            (ChatManager.set_current_thread self1 thread_id)
                            (fun _ => new_year + 24 * hour)) in
        keys (ChatManager.threads self2) = ["main"]
        /\ ChatManager.current_thread_id self2 = "main").
Proof.
  do 3 eexists. split; [reflexivity|]. split; [vm_compute; reflexivity|].
  split; [vm_compute; reflexivity|]. split; vm_compute; reflexivity.
Qed.

(** ** More of the ratchet engine *)

#[local] Existing Instance RefText.text.

Import Chatroom.

(** A payload with Alice's key, the number 7, a nonce and some bytes is read
    as these. *)
Lemma forged_payload_is_read :
  DoubleRatchet.read_payload forged
  = Ok (DoubleRatchet.mk_payload alice_pk (JInt 7) nonce1 (b "garbage")).
Proof.
  assert (Hloads : loads forged
                   = Some (JObj [("public_key", JStr (hex alice_pk));
                                 ("message_number", JInt 7);
                                 ("nonce", JStr (hex nonce1));
                                 ("ciphertext", JStr (hex (b "garbage")))]))
    by (vm_compute; reflexivity).
  exact (proj1 (payload_fields_round_trip forged alice_pk nonce1 (b "garbage") (JInt 7)
                  Hloads)).
Defined.

(** The forged payload is rejected, and Bob has a session with Alice's key
    all the same. *)
Lemma forged_payload_opens_a_session :
  snd (DoubleRatchet.decrypt_message bob forged drawn4) = Raise ValueError
  /\ mem alice_pk
       (DoubleRatchet.chain_keys (fst (DoubleRatchet.decrypt_message bob forged drawn4)))
     = true.
Proof.
  split; [vm_compute; reflexivity|].
  assert (Hp : DoubleRatchet.read_payload forged
               = Ok (DoubleRatchet.mk_payload alice_pk (JInt 7) nonce1 (b "garbage")))
    by (vm_compute; reflexivity).
  assert (Hmem : mem alice_pk (DoubleRatchet.chain_keys bob) = false) by reflexivity.
  assert (Hdh : DoubleRatchet.perform_dh bob alice_pk = Ok agreed)
    by (vm_compute; reflexivity).
  exact (proj1 (session_is_opened_before_authentication bob forged drawn4 agreed
                  (DoubleRatchet.mk_payload alice_pk (JInt 7) nonce1 (b "garbage"))
                  Hp Hmem Hdh)).
Defined.

(** ** More of the relay *)

(** The guest on connection 4 joins as Dana: the entry is rebound, and the
    connection counts as joined. *)
Lemma guest_joins_as_dana :
  let data := [("user_id", JStr "d4"); ("username", JStr "Dana");
               ("public_key", JStr "00")] in
  let out := NetworkServer._handle_join relay_with_guest 4%nat
               (JObj [("type", JStr "JOIN"); ("data", JObj data)]) t0 false in
  get 4%nat (NetworkServer.clients (NetworkServer.server out))
  = Some (NetworkServer.mk_client "127.0.0.1" (JStr "d4") (JStr "Dana") (JStr "00") t0)
  /\ recipients out = [4%nat].
Proof.
  cbn zeta.
  assert (Hget : get 4%nat (NetworkServer.clients relay_with_guest) = Some guest_info)
    by (vm_compute; reflexivity).
  destruct (join_binds_the_identity relay_with_guest 4%nat guest_info
              (JObj [("type", JStr "JOIN");
                     ("data", JObj [("user_id", JStr "d4"); ("username", JStr "Dana");
                                    ("public_key", JStr "00")])])
              [("user_id", JStr "d4"); ("username", JStr "Dana"); ("public_key", JStr "00")]
              t0 false Hget eq_refl)
    as (Hbound & _ & _ & _ & Hsent & _).
  split; [exact Hbound|]. unfold recipients. rewrite Hsent. reflexivity.
Defined.

(** Bytes that are no JSON leave the relay as it is. *)
Lemma garbage_is_ignored_by_the_relay :
  NetworkServer.on_receive relay 1%nat (b "not json") clock0 false
  = NetworkServer.done relay [].
Proof.
  assert (Hne : b "not json" <> []) by (vm_compute; discriminate).
  assert (Hloads : loads (b "not json") = None) by (vm_compute; reflexivity).
  exact (proj1 (unhandled_input_on_the_server relay 1%nat (b "not json") clock0 false Hne)
           Hloads).
Defined.

(** Alice leaves: Bob and Carol stay, and Alice's connection has no entry. *)
Lemma alice_leaves :
  let self' := NetworkServer.server
                 (NetworkServer._handle_leave relay 1%nat (JObj [("type", JStr "LEAVE")])) in
  get 1%nat (NetworkServer.clients self') = None
  /\ get 2%nat (NetworkServer.clients self') = get 2%nat (NetworkServer.clients relay).
Proof.
  cbn zeta.
  assert (Hnd : NoDup (keys (NetworkServer.clients relay))).
  { assert (Hkeys : keys (NetworkServer.clients relay) = [1%nat; 2%nat; 3%nat])
      by (vm_compute; reflexivity).
    rewrite Hkeys.
    repeat (constructor; [cbn; intuition discriminate|]). constructor. }
  destruct (disconnected_client_is_forgotten relay 1%nat (JObj [("type", JStr "LEAVE")]) Hnd)
    as (_ & Hnone & Hother & _).
  split; [exact Hnone | apply Hother; discriminate].
Defined.

(** ** The client against the relay *)

(** Dana connects: one JOIN is sent, and the relay has her joined on
    connection 5. *)
Lemma dana_joins_the_relay :
  snd (NetworkClient.connect dana "relay.example" 6660 false network_up t0) = true
  /\ joined relay_with_dana 5%nat dana_info.
Proof.
  assert (Hconn : NetworkClient.connect_raises network_up = false) by reflexivity.
  assert (Huid : CryptoManager.get_user_id (NetworkClient.crypto_manager dana) <> "")
    by (vm_compute; discriminate).
  assert (Hne : dana_join <> []) by (vm_compute; discriminate).
  assert (Hloads : loads dana_join
                   = Some (envelope MessageProtocol.JOIN (JObj (join_fields dana))
                             (NetworkClient.user_id_value dana) t0))
    by (vm_compute; reflexivity).
  assert (Hget : get 5%nat (NetworkServer.clients relay_before_dana) = Some guest_info)
    by (vm_compute; reflexivity).
  destruct (connect_joins_the_server dana "relay.example" 6660 network_up t0
              relay_before_dana 5%nat guest_info clock0 Hconn Huid Hne Hloads Hget)
    as (Hconnect & Hjoined & _).
  split; [now rewrite Hconnect | exact Hjoined].
Defined.

(** Dana's message for Bob alone reaches Alice, Bob and Carol. *)
Lemma dana_writes_to_bob :
  let wire :=
    dumps (envelope MessageProtocol.MESSAGE
             (JObj (message_fields "hello" "main" (Some "b2") t0))
             (NetworkClient.user_id_value dana_connected) t0) in
  NetworkClient.send_message dana_connected "hello" "main" (Some "b2") network_up t0 t0
  = ([wire], true)
  /\ recipients (NetworkServer.on_receive relay_with_dana 5%nat wire clock0 false)
     = [1%nat; 2%nat; 3%nat].
Proof.
  cbn zeta.
  assert (Hc : NetworkClient.connected dana_connected = true) by reflexivity.
  assert (Hs : NetworkClient.has_socket dana_connected = true) by reflexivity.
  assert (Hsend : NetworkClient.send_raises network_up = false) by reflexivity.
  assert (Hne : dumps (envelope MessageProtocol.MESSAGE
                         (JObj (message_fields "hello" "main" (Some "b2") t0))
                         (NetworkClient.user_id_value dana_connected) t0) <> [])
    by (vm_compute; discriminate).
  assert (Hfit : fits_one_read
                   (dumps (envelope MessageProtocol.MESSAGE
                             (JObj (message_fields "hello" "main" (Some "b2") t0))
                             (NetworkClient.user_id_value dana_connected) t0)))
    by (apply Nat.leb_le; vm_compute; reflexivity).
  assert (Hloads : loads (dumps (envelope MessageProtocol.MESSAGE
                                   (JObj (message_fields "hello" "main" (Some "b2") t0))
                                   (NetworkClient.user_id_value dana_connected) t0))
                   = Some (envelope MessageProtocol.MESSAGE
                             (JObj (message_fields "hello" "main" (Some "b2") t0))
                             (NetworkClient.user_id_value dana_connected) t0))
    by (vm_compute; reflexivity).
  assert (Hjoined : joined relay_with_dana 5%nat dana_info)
    by (split; vm_compute; reflexivity).
  destruct (sent_message_is_relayed dana_connected "hello" "main" (Some "b2") network_up
              t0 t0 relay_with_dana 5%nat dana_info clock0 false
              Hc Hs Hsend Hne Hfit Hloads Hjoined) as [Hsent Hrelayed].
  split; [exact Hsent|]. rewrite Hrelayed. vm_compute. reflexivity.
Defined.

(** Dana creates the thread "plans": the relay registers it with her as the
    creator, and tells all four connections. *)
Lemma dana_creates_plans :
  let wire :=
    dumps (envelope MessageProtocol.CREATE_THREAD
             (JObj (create_thread_fields dana_connected "plans" false))
             (NetworkClient.user_id_value dana_connected) t0) in
  let out := NetworkServer.on_receive relay_with_dana 5%nat wire clock0 false in
  option_map NetworkServer.creator_id
    (get plans_on_relay (NetworkServer.threads (NetworkServer.server out)))
  = Some (NetworkClient.user_id_value dana_connected)
  /\ recipients out = [1%nat; 2%nat; 3%nat; 5%nat].
Proof.
  cbn zeta.
  assert (Hc : NetworkClient.connected dana_connected = true) by reflexivity.
  assert (Hs : NetworkClient.has_socket dana_connected = true) by reflexivity.
  assert (Hsend : NetworkClient.send_raises network_up = false) by reflexivity.
  assert (Hne : dumps (envelope MessageProtocol.CREATE_THREAD
                         (JObj (create_thread_fields dana_connected "plans" false))
                         (NetworkClient.user_id_value dana_connected) t0) <> [])
    by (vm_compute; discriminate).
  assert (Hfit : fits_one_read
                   (dumps (envelope MessageProtocol.CREATE_THREAD
                             (JObj (create_thread_fields dana_connected "plans" false))
                             (NetworkClient.user_id_value dana_connected) t0)))
    by (apply Nat.leb_le; vm_compute; reflexivity).
  assert (Hloads : loads (dumps (envelope MessageProtocol.CREATE_THREAD
                                   (JObj (create_thread_fields dana_connected "plans" false))
                                   (NetworkClient.user_id_value dana_connected) t0))
                   = Some (envelope MessageProtocol.CREATE_THREAD
                             (JObj (create_thread_fields dana_connected "plans" false))
                             (NetworkClient.user_id_value dana_connected) t0))
    by (vm_compute; reflexivity).
  assert (Hjoined : joined relay_with_dana 5%nat dana_info)
    by (split; vm_compute; reflexivity).
  assert (Hid : thread_digest (JStr "plans") (NetworkClient.user_id_value dana_connected)
                  (clock0 0%nat) = Ok plans_on_relay)
    by (vm_compute; reflexivity).
  destruct (created_thread_is_registered dana_connected "plans" false network_up t0
              relay_with_dana 5%nat dana_info clock0 false plans_on_relay
              Hc Hs Hsend Hne Hfit Hloads Hjoined Hid)
    as (_ & Hthread & _ & _ & Hall).
  split; [now rewrite Hthread|]. rewrite Hall. vm_compute. reflexivity.
Defined.

(** Dana's client hands a MESSAGE envelope to the handler registered for
    MESSAGE. *)
Lemma dana_receives_a_message :
  snd (NetworkClient.receive_turn
         (NetworkClient.register_message_handler dana_connected "MESSAGE" 1%nat)
         (dumps (JObj text_fields)))
  = Some (1%nat, JObj text_fields).
Proof.
  assert (Hne : dumps (JObj text_fields) <> []) by (vm_compute; discriminate).
  assert (Hloads : loads (dumps (JObj text_fields)) = Some (JObj text_fields))
    by (vm_compute; reflexivity).
  assert (Hty : get "type" text_fields = Some (JStr "MESSAGE")) by reflexivity.
  destruct (registered_handler_receives dana_connected "MESSAGE" "ERROR" 1%nat
              (dumps (JObj text_fields)) text_fields Hne Hloads Hty) as (Hturn & _).
  now rewrite Hturn.
Defined.


(** Dana's picture of 1024 bytes makes an envelope of less than 4096 bytes,
    and reaches Alice, Bob and Carol. *)
Lemma dana_sends_a_picture :
  NetworkClient.send_image dana_connected picture "main" network_up t0 t0
  = ([picture_envelope picture], true)
  /\ recipients (NetworkServer.on_receive relay_with_dana 5%nat
                   (picture_envelope picture) clock0 false)
     = [1%nat; 2%nat; 3%nat].
Proof.
  assert (Hc : NetworkClient.connected dana_connected = true) by reflexivity.
  assert (Hs : NetworkClient.has_socket dana_connected = true) by reflexivity.
  assert (Hsend : NetworkClient.send_raises network_up = false) by reflexivity.
  assert (Hne : picture_envelope picture <> []) by (vm_compute; discriminate).
  assert (Hfit : fits_one_read (picture_envelope picture))
    by (apply Nat.leb_le; vm_compute; reflexivity).
  assert (Hloads : loads (picture_envelope picture)
                   = Some (envelope MessageProtocol.IMAGE
                             (JObj (image_fields picture "main" t0))
                             (NetworkClient.user_id_value dana_connected) t0))
    by (vm_compute; reflexivity).
  assert (Hjoined : joined relay_with_dana 5%nat dana_info)
    by (split; vm_compute; reflexivity).
  destruct (sent_image_is_relayed dana_connected picture "main" network_up
              t0 t0 relay_with_dana 5%nat dana_info clock0 false
              Hc Hs Hsend Hne Hfit Hloads Hjoined) as [Hsent Hrelayed].
  split; [exact Hsent|]. unfold picture_envelope at 1.
  rewrite Hrelayed. vm_compute. reflexivity.
Defined.

(** A picture of 3200 bytes makes an envelope of more than 4096 bytes: the
    relay reads it in two pieces, neither of which decodes, and relays
    nothing. *)
Example large_picture_is_not_relayed :
  (recv_size < List.length (picture_envelope large_picture))%nat
  /\ NetworkServer.on_receive relay_with_dana 5%nat
       (firstn recv_size (picture_envelope large_picture)) clock0 false
     = NetworkServer.done relay_with_dana []
  /\ NetworkServer.on_receive relay_with_dana 5%nat
       (skipn recv_size (picture_envelope large_picture)) clock0 false
     = NetworkServer.done relay_with_dana [].
Proof.
  split; [apply Nat.ltb_lt; vm_compute; reflexivity|].
  split; vm_compute; reflexivity.
Qed.

(** Dana disconnects: the relay has no entry for connection 5 any more. *)
Lemma dana_disconnects :
  let wire :=
    dumps (envelope MessageProtocol.LEAVE (JObj (leave_fields dana_connected))
             (NetworkClient.user_id_value dana_connected) t0) in
  snd (NetworkClient.disconnect dana_connected t0) = [wire]
  /\ get 5%nat
       (NetworkServer.clients
          (NetworkServer.server
             (NetworkServer.on_receive relay_with_dana 5%nat wire clock0 false)))
     = None.
Proof.
  cbn zeta.
  assert (Hc : NetworkClient.connected dana_connected = true) by reflexivity.
  assert (Hs : NetworkClient.has_socket dana_connected = true) by reflexivity.
  assert (Hne : dumps (envelope MessageProtocol.LEAVE (JObj (leave_fields dana_connected))
                         (NetworkClient.user_id_value dana_connected) t0) <> [])
    by (vm_compute; discriminate).
  assert (Hloads : loads (dumps (envelope MessageProtocol.LEAVE
                                   (JObj (leave_fields dana_connected))
                                   (NetworkClient.user_id_value dana_connected) t0))
                   = Some (envelope MessageProtocol.LEAVE
                             (JObj (leave_fields dana_connected))
                             (NetworkClient.user_id_value dana_connected) t0))
    by (vm_compute; reflexivity).
  destruct (disconnect_leaves_the_server dana_connected t0 relay_with_dana 5%nat
              clock0 false Hc Hs Hne Hloads) as (Hdis & _ & Hleft).
  split; [now rewrite Hdis|]. rewrite Hleft. vm_compute. reflexivity.
Defined.

(** ** More of the chat manager *)

(** The manager with the thread "plans" and one message in it is reachable,
    and its threads are well formed. *)
Lemma chat_with_plans_is_well_formed :
  threads_ok chat2
  /\ option_map (fun thread => ChatThread.participants thread)
       (ChatManager.get_thread chat2 plans) = Some ["a1"].
Proof.
  assert (Hreach : reachable chat2).
  { apply (reachable_run say_hello chat1 []).
    apply (reachable_run (RegisterThreadHandler 1%nat) (fst (run create_plans chat0 [])) []).
    apply (reachable_run create_plans chat0 []).
    apply (reachable_init new_year chat0). reflexivity. }
  split; [exact (proj1 (reachable_threads_are_well_formed chat2 Hreach))|].
  vm_compute. reflexivity.
Defined.

(** The thread "plans" created at the new year can be looked up, and expires
    at noon. *)
Lemma plans_can_be_looked_up :
  option_map ChatThread.expires_at
    (ChatManager.get_thread
       (fst (fst (ChatManager.create_thread chat0 "plans" false (Some "a1") t0 new_year)))
       plans)
  = Some (Some (new_year + 12 * hour)).
Proof.
  assert (Hid : snd (ChatManager.create_thread chat0 "plans" false (Some "a1") t0 new_year)
                = Ok plans) by (vm_compute; reflexivity).
  destruct (created_thread_can_be_looked_up chat0 "plans" false (Some "a1") t0 new_year
              plans Hid) as (thread & Hget & Hthread & _).
  rewrite Hget, Hthread. vm_compute. reflexivity.
Defined.

(** A day later the cleanup turn deletes "plans", tells the thread handler,
    and keeps "main". *)
Lemma plans_is_deleted_a_day_later :
  ChatManager.get_thread (fst (ChatManager.cleanup_pass chat2 a_day_later)) plans = None
  /\ ChatManager.get_thread (fst (ChatManager.cleanup_pass chat2 a_day_later)) "main"
     = ChatManager.get_thread chat2 "main"
  /\ List.length (snd (ChatManager.cleanup_pass chat2 a_day_later)) = 1%nat.
Proof.
  assert (Hnd : NoDup (keys (ChatManager.threads chat2))).
  { assert (Hkeys : keys (ChatManager.threads chat2) = ["main"; plans])
      by (vm_compute; reflexivity).
    rewrite Hkeys. constructor.
    - vm_compute. intros [Heq | []]. discriminate Heq.
    - constructor; [intros [] | constructor]. }
  destruct (cleanup_turn_removes_the_expired_threads chat2 a_day_later Hnd)
    as (_ & Hgone & Hkept & _ & _ & _ & Hcalls).
  split; [|split].
  - apply Hgone; [vm_compute; left; reflexivity | vm_compute; discriminate].
  - apply Hkept. right. reflexivity.
  - rewrite Hcalls. vm_compute. reflexivity.
Defined.

(** Stopping the store with the one image removes its entry and its file. *)
Lemma stored_image_is_released_on_stop :
  ImageManager.images (fst (ImageManager.stop stored_manager stored_files)) = []
  /\ snd (ImageManager.stop stored_manager stored_files) = [].
Proof.
  assert (Hi : NoDup (keys (ImageManager.images stored_manager))).
  { assert (Hkeys : keys (ImageManager.images stored_manager) = [stored_id])
      by (vm_compute; reflexivity).
    rewrite Hkeys. constructor; [intros [] | constructor]. }
  assert (Hf : NoDup (keys stored_files)).
  { assert (Hkeys : keys stored_files = ["temp_images/85bcf32b629ad109.jpg"])
      by (vm_compute; reflexivity).
    rewrite Hkeys. constructor; [intros [] | constructor]. }
  destruct (stop_releases_every_image stored_manager stored_files Hi Hf)
    as (Hempty & _).
  split; [exact Hempty | vm_compute; reflexivity].
Defined.
